(** * Weather dashboard: historical-data acquisition with tiered fallback

    A shallow embedding of [utils/data_loader.py] (class [WeatherDataLoader])
    and of the historical part of [weather_app_standalone.py], with the
    properties of the acquisition pipeline stated and proved over it.

    Conventions of the embedding.
    - Python [float] values are idealised as exact rationals ([Q]); a missing
      value ([NaN] in a pandas column) is [None].
    - A naive [datetime] is the number of microseconds since the epoch ([Z]),
      a [timedelta] is a number of microseconds.
    - Python [str] is [string]; the registry and every literal of the source
      are ASCII, and [str.lower] is modelled on ASCII letters.
    - Exceptions are values of [exn]; a computation that touches the file
      system, the clock, the live source or numpy's global generator is a
      function of the [World]. The clock stands still during a call, and a
      CSV file is held as the table that reading it gives back. *)

From Stdlib Require Import ZArith QArith Qround Qabs String Ascii List Bool Lia Lqa
  DecimalString DecimalZ.
From stdpp Require Import gmap strings.
Import ListNotations.

Local Open Scope string_scope.
Local Open Scope Z_scope.
Local Open Scope list_scope.

(** ** Strings *)

(** [c.lower()] on one ASCII character. *)
Definition ascii_lower (c : ascii) : ascii :=
  let n := N_of_ascii c in
  if ((65 <=? n) && (n <=? 90))%N then ascii_of_N (n + 32) else c.

Definition ascii_upper (c : ascii) : ascii :=
  let n := N_of_ascii c in
  if ((97 <=? n) && (n <=? 122))%N then ascii_of_N (n - 32) else c.

(** [s.lower()] *)
Fixpoint lower (s : string) : string :=
  match s with
  | EmptyString => EmptyString
  | String c t => String (ascii_lower c) (lower t)
  end.

(** [s.upper()] *)
Fixpoint upper (s : string) : string :=
  match s with
  | EmptyString => EmptyString
  | String c t => String (ascii_upper c) (upper t)
  end.

(** [s.replace(old, new)] for a pattern [old] of one character, which is the
    only form the source uses. *)
Fixpoint replace (old : ascii) (new : string) (s : string) : string :=
  match s with
  | EmptyString => EmptyString
  | String c t =>
      if Ascii.eqb c old then new +:+ replace old new t
      else String c (replace old new t)
  end.

(** ['sub' in s] *)
Fixpoint contains (sub s : string) : bool :=
  String.prefix sub s ||
  match s with
  | EmptyString => false
  | String _ t => contains sub t
  end.

(** [x in {...}] for a set or list literal of strings. *)
Definition str_in (x : string) (l : list string) : bool :=
  existsb (String.eqb x) l.

(** ** Exceptions *)

Inductive exn : Type :=
| ValueError (msg : string)
| OSError (path : string)
| Exception (msg : string).

Inductive Result (A : Type) : Type :=
| Ok (a : A)
| Raise (e : exn).
Arguments Ok {A} a.
Arguments Raise {A} e.

(** ** The city registry *)

Record CityInfo : Type := city
  { name : string; lat : Q; lon : Q; state : string }.

(** A Python [dict] keeps its keys in insertion order; assigning to a key
    that is present replaces the value and leaves the position. *)
Fixpoint dict_set {V : Type} (k : string) (v : V) (d : list (string * V))
  : list (string * V) :=
  match d with
  | [] => [(k, v)]
  | (k', v') :: t =>
      if String.eqb k' k then (k', v) :: t else (k', v') :: dict_set k v t
  end.

Definition dict_literal {V : Type} (items : list (string * V))
  : list (string * V) :=
  fold_left (fun d kv => dict_set (fst kv) (snd kv) d) items [].

(** The entries of the [INDIAN_CITIES] literal, in source order (two keys are
    written twice). *)
Definition INDIAN_CITIES_items : list (string * CityInfo) :=
  [
    (* Metro Cities *)
    ("mumbai", city "Mumbai" 19.0760%Q 72.8777%Q "Maharashtra");
    ("delhi", city "Delhi" 28.7041%Q 77.1025%Q "Delhi");
    ("bangalore", city "Bangalore" 12.9716%Q 77.5946%Q "Karnataka");
    ("hyderabad", city "Hyderabad" 17.3850%Q 78.4867%Q "Telangana");
    ("chennai", city "Chennai" 13.0827%Q 80.2707%Q "Tamil Nadu");
    ("kolkata", city "Kolkata" 22.5726%Q 88.3639%Q "West Bengal");
    (* Tier 1 Cities *)
    ("pune", city "Pune" 18.5204%Q 73.8567%Q "Maharashtra");
    ("ahmedabad", city "Ahmedabad" 23.0225%Q 72.5714%Q "Gujarat");
    ("surat", city "Surat" 21.1702%Q 72.8311%Q "Gujarat");
    ("jaipur", city "Jaipur" 26.9124%Q 75.7873%Q "Rajasthan");
    ("lucknow", city "Lucknow" 26.8467%Q 80.9462%Q "Uttar Pradesh");
    ("kanpur", city "Kanpur" 26.4499%Q 80.3319%Q "Uttar Pradesh");
    ("nagpur", city "Nagpur" 21.1458%Q 79.0882%Q "Maharashtra");
    ("indore", city "Indore" 22.7196%Q 75.8577%Q "Madhya Pradesh");
    ("thane", city "Thane" 19.2183%Q 72.9781%Q "Maharashtra");
    ("bhopal", city "Bhopal" 23.2599%Q 77.4126%Q "Madhya Pradesh");
    ("visakhapatnam", city "Visakhapatnam" 17.6869%Q 83.2185%Q "Andhra Pradesh");
    ("patna", city "Patna" 25.5941%Q 85.1376%Q "Bihar");
    ("vadodara", city "Vadodara" 22.3072%Q 73.1812%Q "Gujarat");
    ("ghaziabad", city "Ghaziabad" 28.6692%Q 77.4538%Q "Uttar Pradesh");
    ("ludhiana", city "Ludhiana" 30.9010%Q 75.8573%Q "Punjab");
    ("agra", city "Agra" 27.1767%Q 78.0081%Q "Uttar Pradesh");
    ("nashik", city "Nashik" 19.9975%Q 73.7898%Q "Maharashtra");
    ("faridabad", city "Faridabad" 28.4089%Q 77.3178%Q "Haryana");
    ("meerut", city "Meerut" 28.9845%Q 77.7064%Q "Uttar Pradesh");
    ("rajkot", city "Rajkot" 22.3039%Q 70.8022%Q "Gujarat");
    ("varanasi", city "Varanasi" 25.3176%Q 82.9739%Q "Uttar Pradesh");
    ("amritsar", city "Amritsar" 31.6340%Q 74.8723%Q "Punjab");
    ("allahabad", city "Allahabad" 25.4358%Q 81.8463%Q "Uttar Pradesh");
    ("ranchi", city "Ranchi" 23.3441%Q 85.3096%Q "Jharkhand");
    ("howrah", city "Howrah" 22.5958%Q 88.2636%Q "West Bengal");
    ("coimbatore", city "Coimbatore" 11.0168%Q 76.9558%Q "Tamil Nadu");
    ("jabalpur", city "Jabalpur" 23.1815%Q 79.9864%Q "Madhya Pradesh");
    ("gwalior", city "Gwalior" 26.2183%Q 78.1828%Q "Madhya Pradesh");
    ("vijayawada", city "Vijayawada" 16.5062%Q 80.6480%Q "Andhra Pradesh");
    ("jodhpur", city "Jodhpur" 26.2389%Q 73.0243%Q "Rajasthan");
    ("madurai", city "Madurai" 9.9252%Q 78.1198%Q "Tamil Nadu");
    ("raipur", city "Raipur" 21.2514%Q 81.6296%Q "Chhattisgarh");
    ("kota", city "Kota" 25.2138%Q 75.8648%Q "Rajasthan");
    (* Union Territories & Capitals *)
    ("chandigarh", city "Chandigarh" 30.7333%Q 76.7794%Q "Chandigarh");
    ("guwahati", city "Guwahati" 26.1445%Q 91.7362%Q "Assam");
    ("thiruvananthapuram", city "Thiruvananthapuram" 8.5241%Q 76.9366%Q "Kerala");
    ("bhubaneswar", city "Bhubaneswar" 20.2961%Q 85.8245%Q "Odisha");
    ("puducherry", city "Puducherry" 11.9416%Q 79.8083%Q "Puducherry");
    ("panaji", city "Panaji" 15.4909%Q 73.8278%Q "Goa");
    ("dispur", city "Dispur" 26.1433%Q 91.7898%Q "Assam");
    ("imphal", city "Imphal" 24.8170%Q 93.9368%Q "Manipur");
    ("shillong", city "Shillong" 25.5788%Q 91.8933%Q "Meghalaya");
    ("aizawl", city "Aizawl" 23.7307%Q 92.7173%Q "Mizoram");
    ("kohima", city "Kohima" 25.6751%Q 94.1086%Q "Nagaland");
    ("itanagar", city "Itanagar" 27.0844%Q 93.6053%Q "Arunachal Pradesh");
    ("port-blair", city "Port Blair" 11.6234%Q 92.7265%Q "Andaman and Nicobar");
    ("silvassa", city "Silvassa" 20.2737%Q 73.0135%Q "Dadra and Nagar Haveli");
    (* Tourist & Hill Stations *)
    ("shimla", city "Shimla" 31.1048%Q 77.1734%Q "Himachal Pradesh");
    ("manali", city "Manali" 32.2396%Q 77.1887%Q "Himachal Pradesh");
    ("dharamshala", city "Dharamshala" 32.2190%Q 76.3234%Q "Himachal Pradesh");
    ("nainital", city "Nainital" 29.3919%Q 79.4542%Q "Uttarakhand");
    ("mussoorie", city "Mussoorie" 30.4598%Q 78.0644%Q "Uttarakhand");
    ("dehradun", city "Dehradun" 30.3165%Q 78.0322%Q "Uttarakhand");
    ("rishikesh", city "Rishikesh" 30.0869%Q 78.2676%Q "Uttarakhand");
    ("haridwar", city "Haridwar" 29.9457%Q 78.1642%Q "Uttarakhand");
    ("darjeeling", city "Darjeeling" 27.0410%Q 88.2663%Q "West Bengal");
    ("gangtok", city "Gangtok" 27.3389%Q 88.6065%Q "Sikkim");
    ("srinagar", city "Srinagar" 34.0837%Q 74.7973%Q "Jammu and Kashmir");
    ("leh", city "Leh" 34.1526%Q 77.5771%Q "Ladakh");
    ("ooty", city "Ooty" 11.4102%Q 76.6950%Q "Tamil Nadu");
    ("kodaikanal", city "Kodaikanal" 10.2381%Q 77.4892%Q "Tamil Nadu");
    ("munnar", city "Munnar" 10.0889%Q 77.0595%Q "Kerala");
    ("wayanad", city "Wayanad" 11.6054%Q 76.0837%Q "Kerala");
    ("mount-abu", city "Mount Abu" 24.5926%Q 72.7156%Q "Rajasthan");
    ("mahabaleshwar", city "Mahabaleshwar" 17.9246%Q 73.6577%Q "Maharashtra");
    ("lonavala", city "Lonavala" 18.7537%Q 73.4086%Q "Maharashtra");
    ("coorg", city "Coorg" 12.3375%Q 75.8069%Q "Karnataka");
    (* Major Tier-2 Cities *)
    ("kochi", city "Kochi" 9.9312%Q 76.2673%Q "Kerala");
    ("mysore", city "Mysore" 12.2958%Q 76.6394%Q "Karnataka");
    ("mangalore", city "Mangalore" 12.9141%Q 74.8560%Q "Karnataka");
    ("hubli", city "Hubli" 15.3647%Q 75.1240%Q "Karnataka");
    ("belgaum", city "Belgaum" 15.8497%Q 74.4977%Q "Karnataka");
    ("tirupati", city "Tirupati" 13.6288%Q 79.4192%Q "Andhra Pradesh");
    ("guntur", city "Guntur" 16.3067%Q 80.4365%Q "Andhra Pradesh");
    ("nellore", city "Nellore" 14.4426%Q 79.9865%Q "Andhra Pradesh");
    ("tirunelveli", city "Tirunelveli" 8.7139%Q 77.7567%Q "Tamil Nadu");
    ("salem", city "Salem" 11.6643%Q 78.1460%Q "Tamil Nadu");
    ("tiruchirappalli", city "Tiruchirappalli" 10.7905%Q 78.7047%Q "Tamil Nadu");
    ("vellore", city "Vellore" 12.9165%Q 79.1325%Q "Tamil Nadu");
    ("erode", city "Erode" 11.3410%Q 77.7172%Q "Tamil Nadu");
    ("thrissur", city "Thrissur" 10.5276%Q 76.2144%Q "Kerala");
    ("kollam", city "Kollam" 8.8932%Q 76.6141%Q "Kerala");
    ("kozhikode", city "Kozhikode" 11.2588%Q 75.7804%Q "Kerala");
    ("palakkad", city "Palakkad" 10.7733%Q 76.6547%Q "Kerala");
    ("alappuzha", city "Alappuzha" 9.4981%Q 76.3388%Q "Kerala");
    (* North India Cities *)
    ("noida", city "Noida" 28.5355%Q 77.3910%Q "Uttar Pradesh");
    ("gurugram", city "Gurugram" 28.4595%Q 77.0266%Q "Haryana");
    ("rohtak", city "Rohtak" 28.8955%Q 76.6066%Q "Haryana");
    ("panipat", city "Panipat" 29.3909%Q 76.9635%Q "Haryana");
    ("karnal", city "Karnal" 29.6857%Q 76.9905%Q "Haryana");
    ("ambala", city "Ambala" 30.3782%Q 76.7767%Q "Haryana");
    ("patiala", city "Patiala" 30.3398%Q 76.3869%Q "Punjab");
    ("jalandhar", city "Jalandhar" 31.3260%Q 75.5762%Q "Punjab");
    ("bathinda", city "Bathinda" 30.2110%Q 74.9455%Q "Punjab");
    ("mohali", city "Mohali" 30.7046%Q 76.7179%Q "Punjab");
    ("jammu", city "Jammu" 32.7266%Q 74.8570%Q "Jammu and Kashmir");
    ("udaipur", city "Udaipur" 24.5854%Q 73.7125%Q "Rajasthan");
    ("ajmer", city "Ajmer" 26.4499%Q 74.6399%Q "Rajasthan");
    ("bikaner", city "Bikaner" 28.0229%Q 73.3119%Q "Rajasthan");
    ("alwar", city "Alwar" 27.5530%Q 76.6346%Q "Rajasthan");
    ("bharatpur", city "Bharatpur" 27.2152%Q 77.4899%Q "Rajasthan");
    (* Central & East India *)
    ("bhubaneswar", city "Bhubaneswar" 20.2961%Q 85.8245%Q "Odisha");
    ("cuttack", city "Cuttack" 20.4625%Q 85.8830%Q "Odisha");
    ("puri", city "Puri" 19.8135%Q 85.8312%Q "Odisha");
    ("rourkela", city "Rourkela" 22.2604%Q 84.8536%Q "Odisha");
    ("jamshedpur", city "Jamshedpur" 22.8046%Q 86.2029%Q "Jharkhand");
    ("dhanbad", city "Dhanbad" 23.7957%Q 86.4304%Q "Jharkhand");
    ("bokaro", city "Bokaro" 23.6693%Q 86.1511%Q "Jharkhand");
    ("durgapur", city "Durgapur" 23.5204%Q 87.3119%Q "West Bengal");
    ("asansol", city "Asansol" 23.6739%Q 86.9524%Q "West Bengal");
    ("siliguri", city "Siliguri" 26.7271%Q 88.3953%Q "West Bengal");
    ("gaya", city "Gaya" 24.7955%Q 85.0002%Q "Bihar");
    ("bhagalpur", city "Bhagalpur" 25.2425%Q 86.9842%Q "Bihar");
    ("muzaffarpur", city "Muzaffarpur" 26.1225%Q 85.3906%Q "Bihar");
    ("bilaspur", city "Bilaspur" 22.0797%Q 82.1409%Q "Chhattisgarh");
    ("korba", city "Korba" 22.3595%Q 82.7501%Q "Chhattisgarh");
    ("bhilai", city "Bhilai" 21.2095%Q 81.3785%Q "Chhattisgarh");
    ("ujjain", city "Ujjain" 23.1765%Q 75.7885%Q "Madhya Pradesh");
    ("sagar", city "Sagar" 23.8388%Q 78.7378%Q "Madhya Pradesh");
    ("dewas", city "Dewas" 22.9676%Q 76.0534%Q "Madhya Pradesh");
    (* Heavy Rainfall Regions (Monsoon Paradise) *)
    ("cherrapunji", city "Cherrapunji" 25.2959%Q 91.7324%Q "Meghalaya");
    ("mawsynram", city "Mawsynram" 25.2975%Q 91.5805%Q "Meghalaya");
    ("mahabalipuram", city "Mahabalipuram" 12.6269%Q 80.1926%Q "Tamil Nadu");
    ("pondicherry", city "Pondicherry" 11.9416%Q 79.8083%Q "Puducherry");
    ("kannur", city "Kannur" 11.8745%Q 75.3704%Q "Kerala");
    ("kottayam", city "Kottayam" 9.5916%Q 76.5222%Q "Kerala");
    ("idukki", city "Idukki" 9.9189%Q 77.1025%Q "Kerala");
    ("udupi", city "Udupi" 13.3409%Q 74.7421%Q "Karnataka");
    ("karwar", city "Karwar" 14.8137%Q 74.1290%Q "Karnataka");
    ("ratnagiri", city "Ratnagiri" 16.9944%Q 73.3000%Q "Maharashtra");
    ("alibag", city "Alibag" 18.6414%Q 72.8722%Q "Maharashtra");
    ("mahabaleshwar", city "Mahabaleshwar" 17.9246%Q 73.6577%Q "Maharashtra");
    ("amboli", city "Amboli" 15.9589%Q 74.0047%Q "Maharashtra");
    ("tezpur", city "Tezpur" 26.6338%Q 92.8000%Q "Assam");
    ("dibrugarh", city "Dibrugarh" 27.4728%Q 94.9120%Q "Assam");
    ("silchar", city "Silchar" 24.8333%Q 92.7789%Q "Assam");
    ("agartala", city "Agartala" 23.8315%Q 91.2868%Q "Tripura");
    (* Snowfall Destinations *)
    ("gulmarg", city "Gulmarg" 34.0484%Q 74.3805%Q "Jammu and Kashmir");
    ("pahalgam", city "Pahalgam" 34.0161%Q 75.3150%Q "Jammu and Kashmir");
    ("sonamarg", city "Sonamarg" 34.3000%Q 75.2833%Q "Jammu and Kashmir");
    ("dalhousie", city "Dalhousie" 32.5448%Q 75.9470%Q "Himachal Pradesh");
    ("kullu", city "Kullu" 31.9578%Q 77.1093%Q "Himachal Pradesh");
    ("spiti", city "Spiti" 32.2466%Q 78.0336%Q "Himachal Pradesh");
    ("keylong", city "Keylong" 32.5721%Q 77.0353%Q "Himachal Pradesh");
    ("chamba", city "Chamba" 32.5562%Q 76.1265%Q "Himachal Pradesh");
    ("auli", city "Auli" 30.5323%Q 79.5833%Q "Uttarakhand");
    ("kedarnath", city "Kedarnath" 30.7346%Q 79.0669%Q "Uttarakhand");
    ("badrinath", city "Badrinath" 30.7433%Q 79.4938%Q "Uttarakhand");
    ("kargil", city "Kargil" 34.5539%Q 76.1313%Q "Ladakh");
    ("tawang", city "Tawang" 27.5860%Q 91.8597%Q "Arunachal Pradesh");
    ("sandakphu", city "Sandakphu" 27.1095%Q 88.0146%Q "West Bengal");
    ("yumthang", city "Yumthang Valley" 27.8100%Q 88.7114%Q "Sikkim")  ].

Definition INDIAN_CITIES : list (string * CityInfo) :=
  Eval vm_compute in dict_literal INDIAN_CITIES_items.

(** Insertion sort with Python's string order (by code point); [sorted] is
    stable, and so is this. *)
Fixpoint insert_sorted (x : string) (l : list string) : list string :=
  match l with
  | [] => [x]
  | y :: t => if String.leb x y then x :: l else y :: insert_sorted x t
  end.

Definition sorted (l : list string) : list string :=
  fold_right insert_sorted [] l.

(** [WeatherDataLoader.get_city_list] *)
Definition get_city_list : list string :=
  sorted (map (fun kv => name (snd kv)) INDIAN_CITIES).

(** The key that [get_city_info] computes from its argument. *)
Definition city_key_of (city_name : string) : string :=
  replace "-" "" (replace " " "" (lower city_name)).

Definition city_matches (city_key : string) (kv : string * CityInfo) : bool :=
  String.eqb (replace " " "" (lower (name (snd kv)))) city_key
  || String.eqb (fst kv) city_key.

Definition not_found_message (city_name : string) : string :=
  "City '" +:+ city_name +:+ "' not found in database".

(** [WeatherDataLoader.get_city_info] *)
Definition get_city_info (city_name : string) : Result CityInfo :=
  let city_key := city_key_of city_name in
  match find (city_matches city_key) INDIAN_CITIES with
  | Some kv => Ok (snd kv)
  | None => Raise (ValueError (not_found_message city_name))
  end.

(** ** Dates and times *)

(** A naive [datetime], in microseconds since the epoch. *)
Definition datetime : Type := Z.

Definition us_per_day : Z := 86400000000.

(** [timedelta(days=d)] *)
Definition timedelta (days : Z) : Z := days * us_per_day.

(** [delta.days]: whole days, rounded towards minus infinity as Python's
    normalised [timedelta] does. *)
Definition td_days (delta : Z) : Z := delta / us_per_day.

(** The proleptic Gregorian date (year, month, day) of a day number counted
    from 1970-01-01. *)
Definition civil_from_days (z : Z) : Z * Z * Z :=
  let z := z + 719468 in
  let era := z / 146097 in
  let doe := z - era * 146097 in
  let yoe := (doe - doe / 1460 + doe / 36524 - doe / 146096) / 365 in
  let doy := doe - (365 * yoe + yoe / 4 - yoe / 100) in
  let mp := (5 * doy + 2) / 153 in
  let d := doy - (153 * mp + 2) / 5 + 1 in
  let m := if mp <? 10 then mp + 3 else mp - 9 in
  let y := yoe + era * 400 + (if m <=? 2 then 1 else 0) in
  (y, m, d).

Definition is_leap (y : Z) : bool :=
  ((y mod 4 =? 0) && negb (y mod 100 =? 0)) || (y mod 400 =? 0).

Definition days_before_month (y m : Z) : Z :=
  nth (Z.to_nat (m - 1)) [0; 31; 59; 90; 120; 151; 181; 212; 243; 273; 304; 334] 0
  + (if (2 <? m) && is_leap y then 1 else 0).

(** [d.month] *)
Definition month_of (d : datetime) : Z :=
  let '(_, m, _) := civil_from_days (d / us_per_day) in m.

(** [d.timetuple().tm_yday] *)
Definition tm_yday (d : datetime) : Z :=
  let '(y, m, dd) := civil_from_days (d / us_per_day) in
  days_before_month y m + dd.

(** [pd.date_range(start=start, end=end, freq='D')]: both ends are included. *)
Definition date_range (start_date end_date : datetime) : list datetime :=
  if end_date <? start_date then []
  else map (fun i => start_date + timedelta (Z.of_nat i))
           (seq 0 (Z.to_nat ((end_date - start_date) / us_per_day) + 1)).

(** [range(days - 1, -1, -1)] *)
Definition range_down (days : Z) : list Z :=
  map (fun i => days - 1 - Z.of_nat i) (seq 0 (Z.to_nat days)).

(** ** Numbers *)

Definition Qgtb (a b : Q) : bool := negb (Qle_bool a b).
Definition Qltb (a b : Q) : bool := negb (Qle_bool b a).

(** [np.clip(x, lo, hi)] on one element. *)
Definition clip (lo hi x : Q) : Q :=
  if Qltb x lo then lo else if Qltb hi x then hi else x.

(** Rounding to the nearest integer, ties to even ([np.rint]). *)
Definition rint (q : Q) : Z :=
  let f := Qfloor q in
  match Qcompare (q - inject_Z f) (1 # 2) with
  | Lt => f
  | Gt => f + 1
  | Eq => if Z.even f then f else f + 1
  end.

(** [x.round(1)] and [np.round(x, 1)] on one element. *)
Definition round1 (q : Q) : Q := (inject_Z (rint (q * 10)) / 10)%Q.

Definition Qsum (l : list Q) : Q := fold_left Qplus l 0%Q.

(** [np.cumsum] *)
Fixpoint cumsum_from (acc : Q) (l : list Q) : list Q :=
  match l with
  | [] => []
  | x :: t => (acc + x)%Q :: cumsum_from (acc + x)%Q t
  end.
Definition cumsum (l : list Q) : list Q := cumsum_from 0%Q l.

(** [a.mean()] of an array. *)
Definition mean (l : list Q) : Q := (Qsum l / inject_Z (Z.of_nat (List.length l)))%Q.

(** Element-wise binary operation on two arrays of one length. *)
Definition zip_with {A B C : Type} (f : A -> B -> C) (l1 : list A) (l2 : list B)
  : list C :=
  map (fun p => f (fst p) (snd p)) (combine l1 l2).

(** ** Data frames *)

(** The daily table of Meteostat, by columns: the [time] index (named [date]
    once it is reset and renamed for the cache file) and the six metrics the
    pipeline uses. The standalone script renames the metrics to
    [temperature], [temp_min], [temp_max], [precipitation], [wind_speed] and
    [pressure]; the columns are the same. *)
Record DataFrame : Type := mkDataFrame
  { time : list datetime;
    tavg : list (option Q);
    tmin : list (option Q);
    tmax : list (option Q);
    prcp : list (option Q);
    wspd : list (option Q);
    pres : list (option Q) }.

(** [len(df)] *)
Definition df_len (df : DataFrame) : nat := List.length (time df).

(** [df.empty] *)
Definition df_empty (df : DataFrame) : bool :=
  match time df with [] => true | _ => false end.

Definition empty_frame : DataFrame := mkDataFrame [] [] [] [] [] [] [].

(** The metric columns of a frame, in the order of the record. *)
Definition metrics (df : DataFrame) : list (list (option Q)) :=
  [tavg df; tmin df; tmax df; prcp df; wspd df; pres df].

(** No cell of the column is missing. *)
Definition complete (c : list (option Q)) : bool :=
  forallb (fun x => match x with Some _ => true | None => false end) c.

(** ** numpy: the global generator and the sine *)

(** numpy is outside the repository: the state of its global generator, the
    three elementary draws the generators build on and [np.sin] are taken as
    an interface. *)
Class Numpy : Type :=
  { RandomState : Type;
    (** the state that [np.random.seed(k)] installs *)
    seeded : Z -> RandomState;
    standard_normal : RandomState -> Q * RandomState;
    random_sample : RandomState -> Q * RandomState;
    standard_exponential : RandomState -> Q * RandomState;
    np_sin : Q -> Q;
    np_pi : Q }.

(** [n] successive draws. *)
Fixpoint draws {S : Type} (gen : S -> Q * S) (n : nat) (s : S) : list Q * S :=
  match n with
  | O => ([], s)
  | S n' =>
      let (x, s1) := gen s in
      let (xs, s2) := draws gen n' s1 in
      (x :: xs, s2)
  end.

(** ** The world of an acquisition call *)

Record CacheFile : Type := mkCacheFile
  { mtime : datetime;          (** [os.path.getmtime] *)
    content : DataFrame }.     (** the table that [pd.read_csv] reads back *)

(** Where a returned series comes from: the value of
    [df.attrs['meteostat_source']]. Each constructor stands for one of the
    strings the loader builds. *)
Inductive Source : Type :=
| FileCache (city_name : string)
    (** ["File cache: {city_name}"] *)
| Meteostat (city_name : string) (lat lon : Q)
    (** ["Meteostat: {city_name} ({lat:.2f}, {lon:.2f})"] *)
| NearbyStation (lat lon : Q)
    (** ["Meteostat: Nearby station ({lat:.2f}, {lon:.2f})"] *)
| DelhiFallback
    (** ["Meteostat: Delhi fallback (28.70, 77.10)"] *)
| Synthetic (city_name : string).
    (** ["Synthetic data (estimated for {city_name})"] *)

(** The notices raised through [st.warning]. *)
Inductive Warning : Type :=
| NoDataUsingDelhi (city_name : string)
| MeteostatUnavailable.

Section World.
Context `{Numpy}.

Record World : Type := mkWorld
  { now : datetime;                       (** [datetime.now()] *)
    files : gmap string CacheFile;        (** the files on disk, by path *)
    writable : string -> bool;            (** can this path be written *)
    meteostat : Q * Q -> datetime -> datetime -> Result DataFrame;
                                          (** [Daily(Point(lat, lon), start, end).fetch()] *)
    np_state : RandomState;               (** numpy's global generator *)
    queries : list (Q * Q);               (** the points asked of the live source, oldest first *)
    warnings : list Warning }.            (** the notices shown, oldest first *)

Definition set_files (fs : gmap string CacheFile) (w : World) : World :=
  mkWorld (now w) fs (writable w) (meteostat w) (np_state w) (queries w) (warnings w).
Definition set_np_state (s : RandomState) (w : World) : World :=
  mkWorld (now w) (files w) (writable w) (meteostat w) s (queries w) (warnings w).
Definition set_queries (q : list (Q * Q)) (w : World) : World :=
  mkWorld (now w) (files w) (writable w) (meteostat w) (np_state w) q (warnings w).
Definition set_warnings (ws : list Warning) (w : World) : World :=
  mkWorld (now w) (files w) (writable w) (meteostat w) (np_state w) (queries w) ws.

(** A computation: it ends with a value or an exception, in a new world. *)
Definition M (A : Type) : Type := World -> Result A * World.

Definition ret {A : Type} (a : A) : M A := fun w => (Ok a, w).

Definition bind {A B : Type} (m : M A) (k : A -> M B) : M B :=
  fun w =>
    match m w with
    | (Ok a, w') => k a w'
    | (Raise e, w') => (Raise e, w')
    end.

Definition raise {A : Type} (e : exn) : M A := fun w => (Raise e, w).

Definition lift {A : Type} (r : Result A) : M A := fun w => (r, w).

(** [try: m  except Exception as e: h e] *)
Definition try_except {A : Type} (m : M A) (h : exn -> M A) : M A :=
  fun w =>
    match m w with
    | (Ok a, w') => (Ok a, w')
    | (Raise e, w') => h e w'
    end.

(** [datetime.now()] *)
Definition datetime_now : M datetime := fun w => (Ok (now w), w).

(** [Daily(Point(lat, lon), start, end).fetch()] *)
Definition Daily_fetch (point : Q * Q) (start_date end_date : datetime)
  : M DataFrame :=
  fun w => (meteostat w point start_date end_date,
            set_queries (queries w ++ [point]) w).

(** [st.warning(...)] *)
Definition st_warning (msg : Warning) : M unit :=
  fun w => (Ok tt, set_warnings (warnings w ++ [msg]) w).

(** [os.path.exists(path)] *)
Definition os_path_exists (path : string) : M bool :=
  fun w => (Ok (match files w !! path with Some _ => true | None => false end), w).

(** [datetime.fromtimestamp(os.path.getmtime(path))] *)
Definition getmtime (path : string) : M datetime :=
  fun w =>
    match files w !! path with
    | Some f => (Ok (mtime f), w)
    | None => (Raise (OSError path), w)
    end.

(** [pd.read_csv(path, parse_dates=['date'])] followed by
    [set_index('date')] *)
Definition read_csv (path : string) : M DataFrame :=
  fun w =>
    match files w !! path with
    | Some f => (Ok (content f), w)
    | None => (Raise (OSError path), w)
    end.

(** [df.to_csv(path, index=False)]: the file is replaced as a whole and
    its modification time is the time of the write. *)
Definition to_csv (df : DataFrame) (path : string) : M unit :=
  fun w =>
    if writable w path
    then (Ok tt, set_files (<[path := mkCacheFile (now w) df]> (files w)) w)
    else (Raise (OSError path), w).

(** [np.random.seed(k)] *)
Definition np_random_seed (k : Z) : M unit :=
  fun w => (Ok tt, set_np_state (seeded k) w).

(** An array of [size] draws from the global generator, each mapped by [f];
    numpy refuses a negative size. *)
Definition np_random (gen : RandomState -> Q * RandomState) (f : Q -> Q)
  (size : Z) : M (list Q) :=
  fun w =>
    if size <? 0
    then (Raise (ValueError "negative dimensions are not allowed"), w)
    else
      let (xs, s) := draws gen (Z.to_nat size) (np_state w) in
      (Ok (map f xs), set_np_state s w).

(** [np.random.normal(loc, scale, size)] *)
Definition np_random_normal (loc scale : Q) (size : Z) : M (list Q) :=
  np_random standard_normal (fun z => loc + scale * z)%Q size.

(** [np.random.uniform(low, high, size)] *)
Definition np_random_uniform (low high : Q) (size : Z) : M (list Q) :=
  np_random random_sample (fun u => low + (high - low) * u)%Q size.

(** [np.random.exponential(scale, size)] *)
Definition np_random_exponential (scale : Q) (size : Z) : M (list Q) :=
  np_random standard_exponential (fun e => scale * e)%Q size.

End World.

Declare Scope monad_scope.
Delimit Scope monad_scope with monad.
Notation "x <- c ;; k" := (bind c (fun x => k))
  (at level 100, c at next level, right associativity) : monad_scope.
Notation "c ;;; k" := (bind c (fun _ => k))
  (at level 100, right associativity) : monad_scope.
Local Open Scope monad_scope.

(** [os.path.join(a, b)] for POSIX paths. *)
Definition os_path_join (a b : string) : string :=
  if String.prefix "/" b then b
  else if String.eqb a "" then b
  else if String.eqb (String.substring (String.length a - 1) 1 a) "/" then a +:+ b
  else a +:+ "/" +:+ b.

(** ** pandas: filling missing cells of a column *)

(** [c.ffill()], started with the last value seen so far. *)
Fixpoint ffill_from (last : option Q) (c : list (option Q)) : list (option Q) :=
  match c with
  | [] => []
  | Some v :: t => Some v :: ffill_from (Some v) t
  | None :: t => last :: ffill_from last t
  end.

(** [c.ffill()]: a missing cell takes the last value before it. *)
Definition ffill (c : list (option Q)) : list (option Q) := ffill_from None c.

(** [c.bfill()]: a missing cell takes the first value after it. *)
Fixpoint bfill (c : list (option Q)) : list (option Q) :=
  match c with
  | [] => []
  | x :: t =>
      let t' := bfill t in
      match x with
      | Some v => Some v :: t'
      | None => hd None t' :: t'
      end
  end.

(** [c.fillna(d)] *)
Definition fillna (d : Q) (c : list (option Q)) : list (option Q) :=
  map (fun x => match x with Some v => Some v | None => Some d end) c.

(** [c.notna().any()] *)
Definition notna_any (c : list (option Q)) : bool :=
  existsb (fun x => match x with Some _ => true | None => false end) c.

(** The values of a column, the missing cells left out. *)
Fixpoint dropna (c : list (option Q)) : list Q :=
  match c with
  | [] => []
  | Some v :: t => v :: dropna t
  | None :: t => dropna t
  end.

(** [c.mean()]: pandas skips the missing cells. *)
Definition col_mean (c : list (option Q)) : Q := mean (dropna c).

(** An array as a column without missing cells, rounded to one decimal. *)
Definition rounded (a : list Q) : list (option Q) :=
  map (fun x => Some (round1 x)) a.

(** ** [utils/data_loader.py]: class [WeatherDataLoader] *)

Module Loader.
Section Loader.
Context `{Numpy}.

(** The fields of the object that the acquisition reads. *)
Record WeatherDataLoader : Type := mkLoader
  { data_dir : string; cache_days : Z }.

(** [WeatherDataLoader()] *)
Definition default_loader : WeatherDataLoader := mkLoader "data/raw" 1.

(** A returned frame with its [attrs['meteostat_source']]. *)
Record Acquired : Type := mkAcquired
  { frame : DataFrame; meteostat_source : Source }.

Definition hill_stations : list string :=
  [ "shimla"; "manali"; "kullu"; "dalhousie"; "dharamshala"; "mcleodganj";
    "dehradun"; "mussoorie"; "nainital"; "almora"; "ranikhet";
    "ooty"; "kodaikanal"; "munnar"; "darjeeling"; "gangtok";
    "shillong"; "cherrapunji"; "mawsynram"; "tawang"; "aizawl";
    "mahabaleshwar"; "lonavala"; "panchgani"; "coorg"; "wayanad";
    "gulmarg"; "pahalgam"; "sonamarg"; "leh"; "kargil";
    "spitivalley"; "keylong"; "auli"; "kedarnath"; "badrinath";
    "sandakphu"; "yumthangvalley" ].

Definition coastal_cities : list string :=
  [ "mumbai"; "goa"; "kochi"; "thiruvananthapuram"; "kozhikode";
    "mangalore"; "udupi"; "karwar"; "ratnagiri"; "alibag";
    "chennai"; "visakhapatnam"; "puducherry"; "mahabalipuram";
    "portblair"; "panjim"; "vasco"; "margao" ].

Definition hot_dry_cities : list string :=
  [ "jaisalmer"; "bikaner"; "jodhpur"; "ajmer"; "udaipur";
    "ahmedabad"; "rajkot"; "surat"; "vadodara" ].

(** The climate zone: [(base_temp, temp_variation)]. *)
Definition climate_zone (city_key : string) (lat : Q) : Q * Q :=
  if str_in city_key hill_stations || contains "hill" city_key
     || contains "ganj" city_key
  then
    if Qgtb lat 32 then (10, 12)%Q
    else if Qgtb lat 28 then (18, 10)%Q
    else (20, 6)%Q
  else if str_in city_key coastal_cities then (28, 4)%Q
  else if str_in city_key hot_dry_cities then (32, 14)%Q
  else
    if Qgtb lat 30 then (15, 15)%Q
    else if Qgtb lat 25 then (25, 12)%Q
    else if Qgtb lat 20 then (28, 8)%Q
    else if Qgtb lat 15 then (27, 6)%Q
    else (28, 5)%Q.

(** [np.where((month >= 6) & (month <= 9), wet, dry)] on one element. *)
Definition where_monsoon (wet dry : Q) (month : Z) : Q :=
  if (6 <=? month) && (month <=? 9) then wet else dry.

Definition monsoon_factor (city_key : string) (lat : Q) (month : Z) : Q :=
  if str_in city_key ["cherrapunji"; "mawsynram"] then where_monsoon 3.0 0.5 month
  else if str_in city_key coastal_cities || Qltb lat 20
  then where_monsoon 1.5 0.3 month
  else where_monsoon 1.0 0.2 month.

(** [WeatherDataLoader._generate_synthetic_data] *)
Definition _generate_synthetic_data (city_name : string)
  (start_date end_date : datetime) : M DataFrame :=
  city_info <- lift (get_city_info city_name) ;;
  let lat := lat city_info in
  let city_key := replace " " "" (lower city_name) in
  let '(base_temp, temp_variation) := climate_zone city_key lat in
  let dates := date_range start_date end_date in
  let num_days := Z.of_nat (List.length dates) in
  let day_of_year := map tm_yday dates in
  let seasonal_factor :=
    map (fun d => np_sin (2 * np_pi * (inject_Z d - 80) / 365)%Q) day_of_year in
  noise <- np_random_normal 0 2 num_days ;;
  let tavg :=
    zip_with (fun s n => base_temp + s * temp_variation + n)%Q seasonal_factor noise in
  up <- np_random_uniform 3 7 num_days ;;
  let tmax := zip_with Qplus tavg up in
  down <- np_random_uniform 3 7 num_days ;;
  let tmin := zip_with Qminus tavg down in
  let month := map month_of dates in
  let factor := map (monsoon_factor city_key lat) month in
  e <- np_random_exponential 5 num_days ;;
  let prcp := map (clip 0 150) (zip_with Qmult e factor) in
  wspd <- np_random_uniform 5 25 num_days ;;
  let base_pressure := if str_in city_key hill_stations then 950%Q else 1013%Q in
  pres <- np_random_normal base_pressure 5 num_days ;;
  ret (mkDataFrame dates (rounded tavg) (rounded tmin) (rounded tmax)
         (rounded prcp) (rounded wspd) (rounded pres)).

(** The path of the cache file of a city. *)
Definition cache_file_of (self : WeatherDataLoader) (city_name : string) : string :=
  os_path_join (data_dir self) (replace " " "_" (lower city_name) +:+ "_30days.csv").

(** The cache gate of [fetch_historical_data]: the cached frame when the
    file is there and young enough. *)
Definition cache_lookup (self : WeatherDataLoader) (city_name : string)
  : M (option Acquired) :=
  let cache_file := cache_file_of self city_name in
  present <- os_path_exists cache_file ;;
  if (present : bool) then
    t <- datetime_now ;;
    m <- getmtime cache_file ;;
    if td_days (t - m) <? cache_days self then
      df <- read_csv cache_file ;;
      ret (Some (mkAcquired df (FileCache city_name)))
    else ret None
  else ret None.

Definition offsets : list Q := [0.5; -0.5; 1.0; -1.0]%Q.

(** The inner loop of the nearby-station search: [cur] is the value of
    [(df, meteostat_source)] when the loop is entered. *)
Fixpoint search_lon (city_info : CityInfo) (start_date end_date : datetime)
  (lat_offset : Q) (lon_offsets : list Q) (cur : DataFrame * Source)
  : M (DataFrame * Source) :=
  match lon_offsets with
  | [] => ret cur
  | lon_offset :: rest =>
      let point := (lat city_info + lat_offset, lon city_info + lon_offset)%Q in
      df <- Daily_fetch point start_date end_date ;;
      if negb (df_empty df)
      then ret (df, NearbyStation (fst point) (snd point))
      else search_lon city_info start_date end_date lat_offset rest (df, snd cur)
  end.

(** The outer loop. *)
Fixpoint search_lat (city_info : CityInfo) (start_date end_date : datetime)
  (lat_offsets : list Q) (cur : DataFrame * Source) : M (DataFrame * Source) :=
  match lat_offsets with
  | [] => ret cur
  | lat_offset :: rest =>
      cur' <- search_lon city_info start_date end_date lat_offset offsets cur ;;
      if negb (df_empty (fst cur')) then ret cur'
      else search_lat city_info start_date end_date rest cur'
  end.

(** The tiers of [fetch_historical_data] once the city is resolved: the
    exact point, the nearby points, Delhi, and the synthetic series. *)
Definition acquire (city_name : string) (city_info : CityInfo) (days : Z)
  : M (DataFrame * Source) :=
  end_date <- datetime_now ;;
  let start_date := end_date - timedelta days in
  let source := Meteostat city_name (lat city_info) (lon city_info) in
  df <- Daily_fetch (lat city_info, lon city_info) start_date end_date ;;
  cur <- (if df_empty df
          then search_lat city_info start_date end_date offsets (df, source)
          else ret (df, source)) ;;
  if df_empty (fst cur) then
    st_warning (NoDataUsingDelhi city_name) ;;;
    delhi_info <- lift (get_city_info "Delhi") ;;
    df <- Daily_fetch (lat delhi_info, lon delhi_info) start_date end_date ;;
    if df_empty df then
      st_warning MeteostatUnavailable ;;;
      df <- _generate_synthetic_data city_name start_date end_date ;;
      ret (df, Synthetic city_name)
    else ret (df, DelhiFallback)
  else ret cur.

(** What [fetch_historical_data] does after a cache miss. *)
Definition fetch_fresh (self : WeatherDataLoader) (city_name : string) (days : Z)
  : M Acquired :=
  city_info <- lift (get_city_info city_name) ;;
  cur <- acquire city_name city_info days ;;
  to_csv (fst cur) (cache_file_of self city_name) ;;;
  ret (mkAcquired (fst cur) (snd cur)).

(** [WeatherDataLoader.fetch_historical_data] *)
Definition fetch_historical_data (self : WeatherDataLoader) (city_name : string)
  (days : Z) : M Acquired :=
  hit <- cache_lookup self city_name ;;
  match hit with
  | Some cached => ret cached
  | None => fetch_fresh self city_name days
  end.

End Loader.
End Loader.

(** ** [weather_app_standalone.py]: the historical part *)

Module Standalone.
Section Standalone.
Context `{Numpy}.

Definition USE_METEOSTAT : bool := true.

(** The climate zone by latitude: [(base_temp, temp_variation)]. *)
Definition climate_zone (lat : Q) : Q * Q :=
  if Qgtb lat 30 then (18, 8)%Q
  else if Qgtb lat 25 then (25, 10)%Q
  else if Qgtb lat 20 then (28, 6)%Q
  else (27, 5)%Q.

(** [np.where((month >= 6) & (month <= 9), 2.0, 0.3)] on one element. *)
Definition monsoon_factor (month : Z) : Q :=
  if (6 <=? month) && (month <=? 9) then 2.0%Q else 0.3%Q.

(** [_generate_synthetic_history] *)
Definition _generate_synthetic_history (lat lon : Q) (days : Z) : M DataFrame :=
  np_random_seed 42 ;;;
  let '(base_temp, temp_variation) := climate_zone lat in
  end_date <- datetime_now ;;
  let dates := map (fun i => end_date - timedelta i) (range_down days) in
  let day_of_year := map tm_yday dates in
  let seasonal :=
    map (fun d => np_sin (2 * np_pi * (inject_Z d - 80) / 365) * temp_variation)%Q
        day_of_year in
  steps <- np_random_normal 0 0.5 days ;;
  let random_walk := cumsum steps in
  let random_walk := map (fun x => x - mean random_walk)%Q random_walk in
  noise <- np_random_normal 0 2 days ;;
  let temperature :=
    zip_with Qplus
      (zip_with Qplus (map (fun s => base_temp + s)%Q seasonal) noise)
      (map (fun x => x * 0.3)%Q random_walk) in
  down <- np_random_uniform 3 6 days ;;
  let temp_min := zip_with Qminus temperature down in
  up <- np_random_uniform 3 6 days ;;
  let temp_max := zip_with Qplus temperature up in
  let month := map month_of dates in
  e <- np_random_exponential 3 days ;;
  let precipitation :=
    map (clip 0 50) (zip_with Qmult e (map monsoon_factor month)) in
  u <- np_random_uniform 5 20 days ;;
  g <- np_random_normal 0 3 days ;;
  let wind_speed := map (clip 2 40) (zip_with Qplus u g) in
  pressure <- np_random_normal 1013 5 days ;;
  ret (mkDataFrame dates (rounded temperature) (rounded temp_min)
         (rounded temp_max) (rounded precipitation) (rounded wind_speed)
         (rounded pressure)).

(** The filling of missing values in [_fetch_from_meteostat]. *)
Definition fill_temperature (c : list (option Q)) : list (option Q) :=
  fillna 25.0 (bfill (ffill c)).

Definition fill_wind_pressure (default : Q) (c : list (option Q))
  : list (option Q) :=
  let c := bfill (ffill c) in
  fillna (if notna_any c then col_mean c else default) c.

Definition fill_missing (df : DataFrame) : DataFrame :=
  mkDataFrame (time df)
    (fill_temperature (tavg df))
    (fill_temperature (tmin df))
    (fill_temperature (tmax df))
    (fillna 0 (prcp df))
    (fill_wind_pressure 10.0 (wspd df))
    (fill_wind_pressure 1013.0 (pres df)).

(** The loop over the nearby points: [df] is the frame when the loop is
    entered. *)
Fixpoint try_nearby (lat lon : Q) (start_date end_date : datetime)
  (offs : list Q) (df : DataFrame) : M DataFrame :=
  match offs with
  | [] => ret df
  | offset :: rest =>
      df' <- Daily_fetch (lat + offset, lon + offset)%Q start_date end_date ;;
      if negb (df_empty df') then ret df'
      else try_nearby lat lon start_date end_date rest df'
  end.

(** [_fetch_from_meteostat]; the library is taken to be installed. *)
Definition _fetch_from_meteostat (lat lon : Q) (days : Z) : M DataFrame :=
  try_except
    (end_date <- datetime_now ;;
     let start_date := end_date - timedelta days in
     df <- Daily_fetch (lat, lon) start_date end_date ;;
     df <- (if df_empty df
            then try_nearby lat lon start_date end_date [0.5; 1.0; -0.5; -1.0]%Q df
            else ret df) ;;
     if df_empty df
     then raise (Exception "No Meteostat data available for this location")
     else ret (fill_missing df))
    (fun _ => _generate_synthetic_history lat lon days).

(** [_fetch_from_openweathermap] *)
Definition _fetch_from_openweathermap (lat lon : Q) (days : Z) : M DataFrame :=
  _generate_synthetic_history lat lon days.

(** [fetch_historical_data] *)
Definition fetch_historical_data (lat lon : Q) (days : Z) : M DataFrame :=
  try_except
    (if USE_METEOSTAT then _fetch_from_meteostat lat lon days
     else _fetch_from_openweathermap lat lon days)
    (fun _ => _generate_synthetic_history lat lon days).

(** [TOLERANCE] *)
Definition TOLERANCE : Q := 0.5%Q.

(** The three entries of [COLORS] that mark a change. *)
Definition COLORS_increase : string := "#E74C3C".
Definition COLORS_decrease : string := "#3498DB".
Definition COLORS_stable : string := "#F1C40F".

(** [get_comparison_color] *)
Definition get_comparison_color (current previous tolerance : Q) : string :=
  let difference := (current - previous)%Q in
  if Qgtb difference tolerance then COLORS_increase
  else if Qltb difference (- tolerance) then COLORS_decrease
  else COLORS_stable.

(** [c.diff()], entered with the cell of the day before: a change is
    missing on the first day and next to a missing cell. *)
Fixpoint diff_from (previous : option Q) (c : list (option Q))
  : list (option Q) :=
  match c with
  | [] => []
  | x :: t =>
      match previous, x with
      | Some p, Some v => Some (v - p)%Q
      | _, _ => None
      end :: diff_from x t
  end.

(** [c.diff()] *)
Definition diff (c : list (option Q)) : list (option Q) := diff_from None c.

(** The lambda that [process_daily_changes] applies to a column of
    changes; both comparisons are false on a missing change. *)
Definition change_color (threshold : Q) (x : option Q) : string :=
  match x with
  | Some d =>
      if Qgtb d threshold then COLORS_increase
      else if Qltb d (- threshold) then COLORS_decrease
      else COLORS_stable
  | None => COLORS_stable
  end.

(** The frame that [process_daily_changes] returns: the history with its
    four columns of changes and its four columns of colours. *)
Record Changes : Type := mkChanges
  { history : DataFrame;
    temp_change : list (option Q);
    precip_change : list (option Q);
    wind_change : list (option Q);
    pressure_change : list (option Q);
    temp_color : list string;
    precip_color : list string;
    wind_color : list string;
    pressure_color : list string }.

(** [process_daily_changes]; [df.iloc[0, j] = ...] raises [IndexError], a
    subclass of [Exception], on a frame without rows. *)
Definition process_daily_changes (df : DataFrame) : Result Changes :=
  let temp_change := diff (tavg df) in
  let precip_change := diff (prcp df) in
  let wind_change := diff (wspd df) in
  let pressure_change := diff (pres df) in
  let temp_color := map (change_color TOLERANCE) temp_change in
  let precip_color := map (change_color TOLERANCE) precip_change in
  let wind_color := map (change_color TOLERANCE) wind_change in
  let pressure_color := map (change_color 2) pressure_change in
  if df_empty df
  then Raise (Exception "IndexError: iloc cannot enlarge its target object")
  else
    Ok (mkChanges df temp_change precip_change wind_change pressure_change
          (<[0%nat := COLORS_stable]> temp_color)
          (<[0%nat := COLORS_stable]> precip_color)
          (<[0%nat := COLORS_stable]> wind_color)
          (<[0%nat := COLORS_stable]> pressure_color)).

(** The second part of [main]: the history of the last 30 days, then its
    daily changes. *)
Definition history_with_changes (lat lon : Q) : M Changes :=
  historical_data <- fetch_historical_data lat lon 30 ;;
  lift (process_daily_changes historical_data).

End Standalone.
End Standalone.

(** ** pandas: frames with any columns *)

(** A frame by columns: the datetime index and the columns by name, in the
    order of [df.columns]. The cells of a column are held as floats, those
    of an integer column as the floats of their values; the dtype of a
    column, which only [prepare_for_xgboost] reads, is given apart. In
    pandas every column has one cell for each date of the index. *)
Record Table : Type := mkTable
  { index : list datetime;
    columns : list (string * list (option Q)) }.

(** [df[col].dtype], as far as the code tells dtypes apart: [np.float64],
    [np.int64], and any other one, by its name ([int32], [object], [bool],
    [datetime64[ns]], ...). *)
Inductive Dtype : Type :=
| float64
| int64
| other_dtype (name : string).

(** [KeyError], a subclass of [Exception]; its message, which depends on the
    version of pandas, is left out. *)
Definition KeyError : exn := Exception "KeyError".

(** [df[col]] *)
Definition getitem (df : Table) (col : string) : Result (list (option Q)) :=
  match find (fun kv => String.eqb (fst kv) col) (columns df) with
  | Some kv => Ok (snd kv)
  | None => Raise KeyError
  end.

(** [df[col] = c]: a column that is there is replaced in its place, a new
    one comes last. *)
Definition setitem (col : string) (c : list (option Q)) (df : Table) : Table :=
  mkTable (index df) (dict_set col c (columns df)).

(** [c.shift(periods)] *)
Definition shift (periods : Z) (c : list (option Q)) : list (option Q) :=
  let n := List.length c in
  if 0 <=? periods
  then firstn n (repeat None (Z.to_nat periods) ++ c)
  else skipn (Z.to_nat (- periods)) c
       ++ repeat None (Nat.min n (Z.to_nat (- periods))).

(** The cells of the window of [window] rows that ends at row [i]; there is
    none while the window is not full. *)
Definition window_at (window i : nat) (c : list (option Q))
  : option (list (option Q)) :=
  if (window <=? S i)%nat
  then Some (firstn window (skipn (S i - window) c))
  else None.

(** [c.rolling(window=window)] followed by a statistic: a window that is
    not full, or that holds a missing cell, gives a missing cell. *)
Definition rolling (window : Z) (stat : list Q -> option Q) (c : list (option Q))
  : Result (list (option Q)) :=
  if window <? 0
  then Raise (ValueError "window must be an integer 0 or greater")
  else
    Ok (map (fun i =>
               match window_at (Z.to_nat window) i c with
               | Some cells => if complete cells then stat (dropna cells) else None
               | None => None
               end)
            (seq 0 (List.length c))).

(** The mean of a window. *)
Definition window_mean (xs : list Q) : option Q :=
  match xs with
  | [] => None
  | _ => Some (mean xs)
  end.

(** [df.dropna()]: the rows without a missing cell. *)
Definition row_has_na (cols : list (string * list (option Q))) (i : nat) : bool :=
  existsb (fun kv => match snd kv !! i with Some None => true | _ => false end) cols.

Definition keep_rows {A : Type} (mask : list bool) (l : list A) : list A :=
  map fst (List.filter (fun p => snd p) (combine l mask)).

Definition drop_na_rows (df : Table) : Table :=
  let mask :=
    map (fun i => negb (row_has_na (columns df) i))
        (seq 0 (List.length (index df))) in
  mkTable (keep_rows mask (index df))
    (map (fun kv => (fst kv, keep_rows mask (snd kv))) (columns df)).

(** The position that Python's slicing gives to the bound [k] in a sequence
    of length [n]: a negative bound counts from the end. *)
Definition slice_pos (k : Z) (n : nat) : nat :=
  Z.to_nat (Z.min (Z.of_nat n) (if k <? 0 then Z.max 0 (Z.of_nat n + k) else k)).

(** [l[:k]] *)
Definition until {A : Type} (k : Z) (l : list A) : list A :=
  firstn (slice_pos k (List.length l)) l.

(** [l[k:]] *)
Definition from {A : Type} (k : Z) (l : list A) : list A :=
  skipn (slice_pos k (List.length l)) l.

(** [int(x)] of a float: towards zero. *)
Definition int_of_float (x : Q) : Z :=
  if Qle_bool 0 x then Qfloor x else Qceiling x.

(** [f'{n}'] of an int. *)
Definition str_of_int (n : Z) : string := NilZero.string_of_int (Z.to_int n).

(** [d.dayofweek]: Monday is 0; 1970-01-01 was a Thursday. *)
Definition dayofweek (d : datetime) : Z := (d / us_per_day + 3) mod 7.

(** Sequencing of computations that may raise. *)
Definition and_then {A B : Type} (r : Result A) (k : A -> Result B) : Result B :=
  match r with
  | Ok a => k a
  | Raise e => Raise e
  end.

Declare Scope result_scope.
Delimit Scope result_scope with result.
Notation "x <- c ;; k" := (and_then c (fun x => k))
  (at level 100, c at next level, right associativity) : result_scope.

(** The cosine and the square root of numpy, taken as an interface like
    its sine. *)
Class NumpyMath : Type :=
  { np_cos : Q -> Q;
    np_sqrt : Q -> Q }.

(** ** [utils/preprocessing.py]: class [WeatherPreprocessor] *)

Module Preprocessor.
Section Preprocessor.
Context `{Numpy} `{NumpyMath}.
Local Open Scope result_scope.

(** The standard deviation of a window, with [ddof=1]. *)
Definition window_std (xs : list Q) : option Q :=
  match xs with
  | [] | [_] => None
  | _ =>
      let m := mean xs in
      Some (np_sqrt (Qsum (map (fun x => (x - m) * (x - m)) xs)
                     / inject_Z (Z.of_nat (List.length xs) - 1))%Q)
  end.

(** [create_lag_features] *)
Fixpoint create_lag_features (df : Table) (target_col : string) (lags : list Z)
  : Result Table :=
  match lags with
  | [] => Ok df
  | lag :: rest =>
      c <- getitem df target_col ;;
      create_lag_features
        (setitem (target_col +:+ "_lag_" +:+ str_of_int lag) (shift lag c) df)
        target_col rest
  end.

(** [create_rolling_features] *)
Fixpoint create_rolling_features (df : Table) (target_col : string)
  (windows : list Z) : Result Table :=
  match windows with
  | [] => Ok df
  | window :: rest =>
      c <- getitem df target_col ;;
      m <- rolling window window_mean c ;;
      let df :=
        setitem (target_col +:+ "_rolling_mean_" +:+ str_of_int window) m df in
      c <- getitem df target_col ;;
      s <- rolling window window_std c ;;
      let df :=
        setitem (target_col +:+ "_rolling_std_" +:+ str_of_int window) s df in
      create_rolling_features df target_col rest
  end.

(** A component of the dates of the index, as a column. *)
Definition date_part (f : datetime -> Z) (df : Table) : list (option Q) :=
  map (fun d => Some (inject_Z (f d))) (index df).

(** [f(2 * np.pi * c / period)] on a column. *)
Definition encode (f : Q -> Q) (period : Q) (c : list (option Q))
  : list (option Q) :=
  map (option_map (fun x => f (2 * np_pi * x / period)%Q)) c.

(** [create_cyclical_features] *)
Definition create_cyclical_features (df : Table) : Result Table :=
  let df := setitem "day_of_year" (date_part tm_yday df) df in
  let df := setitem "month" (date_part month_of df) df in
  let df := setitem "day_of_week" (date_part dayofweek df) df in
  c <- getitem df "day_of_year" ;;
  let df := setitem "day_of_year_sin" (encode np_sin 365 c) df in
  c <- getitem df "day_of_year" ;;
  let df := setitem "day_of_year_cos" (encode np_cos 365 c) df in
  c <- getitem df "month" ;;
  let df := setitem "month_sin" (encode np_sin 12 c) df in
  c <- getitem df "month" ;;
  let df := setitem "month_cos" (encode np_cos 12 c) df in
  c <- getitem df "day_of_week" ;;
  let df := setitem "day_of_week_sin" (encode np_sin 7 c) df in
  c <- getitem df "day_of_week" ;;
  let df := setitem "day_of_week_cos" (encode np_cos 7 c) df in
  Ok df.

(** The default lags and windows. *)
Definition default_lags : list Z := [1; 7; 14; 30].
Definition default_windows : list Z := [7; 14; 30].

(** [engineer_features] *)
Definition engineer_features (df : Table) (target_col : string) : Result Table :=
  df <- create_lag_features df target_col default_lags ;;
  df <- create_rolling_features df target_col default_windows ;;
  df <- create_cyclical_features df ;;
  Ok (drop_na_rows df).

(** The rows [df[:k]] and [df[k:]] of a frame. *)
Definition rows_until (k : Z) (df : Table) : Table :=
  mkTable (until k (index df)) (map (fun kv => (fst kv, until k (snd kv))) (columns df)).
Definition rows_from (k : Z) (df : Table) : Table :=
  mkTable (from k (index df)) (map (fun kv => (fst kv, from k (snd kv))) (columns df)).

(** [dtype in [np.float64, np.int64]] *)
Definition is_numeric (dtype : Dtype) : bool :=
  match dtype with
  | float64 | int64 => true
  | other_dtype _ => false
  end.

(** The columns that [prepare_for_xgboost] takes as features, [dtype]
    giving [df[col].dtype]: a column that is not the target, whose name
    does not start with [Unnamed], and whose dtype is one of the two
    numeric ones. *)
Definition is_feature (dtype : string -> Dtype) (target_col col : string) : bool :=
  (negb (String.eqb col target_col) && negb (String.prefix "Unnamed" col))
  && is_numeric (dtype col).

(** [prepare_for_xgboost], for a frame given by its columns and their
    dtypes: [(X_train, X_test, y_train, y_test)] *)
Definition prepare_for_xgboost (df : Table) (dtype : string -> Dtype)
  (target_col : string) (test_size : Q)
  : Result (Table * Table * list (option Q) * list (option Q)) :=
  let X :=
    mkTable (index df)
      (List.filter (fun kv => is_feature dtype target_col (fst kv)) (columns df)) in
  y <- getitem df target_col ;;
  let split_index :=
    int_of_float (inject_Z (Z.of_nat (List.length (index df))) * (1 - test_size)) in
  Ok (rows_until split_index X, rows_from split_index X,
      until split_index y, from split_index y).

(** [prepare_for_lstm], for a sequence length that is not negative:
    [(X_train, X_test, y_train, y_test)], a sample of [X] being the cells
    of its time steps. *)
Definition prepare_for_lstm (df : Table) (target_col : string)
  (sequence_length : nat) (test_size : Q)
  : Result (list (list (option Q)) * list (list (option Q))
            * list (option Q) * list (option Q)) :=
  data <- getitem df target_col ;;
  let rows := seq sequence_length (List.length data - sequence_length) in
  let X :=
    map (fun i => firstn sequence_length (skipn (i - sequence_length) data)) rows in
  let y := map (fun i => nth i data None) rows in
  let split_index :=
    int_of_float (inject_Z (Z.of_nat (List.length X)) * (1 - test_size)) in
  Ok (until split_index X, from split_index X,
      until split_index y, from split_index y).

End Preprocessor.
End Preprocessor.

(** ** A stand-in for numpy and some concrete worlds

    The statements below hold for every implementation of the [Numpy]
    interface. To run the pipeline on concrete inputs, this module gives a
    small rational stand-in: a linear congruential generator for the draws
    and Bhaskara's rational approximation for the sine. *)

Module Sample.

Definition modulus : Z := 2147483648.

Definition lcg (s : Z) : Z := (1103515245 * s + 12345) mod modulus.

(** A draw in [[0, 1)]. *)
Definition unit_draw (s : Z) : Q * Z :=
  let s' := lcg s in (Qmake s' (Z.to_pos modulus), s').

(** A centred draw: the sum of two unit draws, minus one. *)
Definition centred_draw (s : Z) : Q * Z :=
  let (u1, s1) := unit_draw s in
  let (u2, s2) := unit_draw s1 in
  ((u1 + u2 - 1)%Q, s2).

(** A non-negative unbounded draw: the odds [u / (1 - u)] of a unit draw. *)
Definition odds_draw (s : Z) : Q * Z :=
  let (u, s1) := unit_draw s in ((u / (1 - u))%Q, s1).

Definition pi : Q := 3.1416%Q.

Definition bhaskara (t : Q) : Q :=
  (16 * t * (pi - t) / (5 * pi * pi - 4 * t * (pi - t)))%Q.

Definition sin (x : Q) : Q :=
  let t := (x - 2 * pi * inject_Z (Qfloor (x / (2 * pi))))%Q in
  if Qle_bool t pi then bhaskara t else (- bhaskara (t - pi))%Q.

Definition numpy : Numpy :=
  {| RandomState := Z;
     seeded := fun k => k mod modulus;
     standard_normal := centred_draw;
     random_sample := unit_draw;
     standard_exponential := odds_draw;
     np_sin := sin;
     np_pi := pi |}.

Definition cos (x : Q) : Q := sin (x + pi / 2).

(** Heron's iteration for the square root, six steps from [(x + 1) / 2]. *)
Definition sqrt (x : Q) : Q :=
  Nat.iter 6 (fun y => Qred ((y + x / y) / 2)) (Qred ((x + 1) / 2)).

Definition math : NumpyMath := {| np_cos := cos; np_sqrt := sqrt |}.

(** 2024-07-01 12:00:00 *)
Definition noon : datetime := 19905 * us_per_day + 43200000000.

(** A world at [noon] with no file on disk, the given live source and
    write permission, and a generator in state 7. *)
Definition world (source : Q * Q -> datetime -> datetime -> Result DataFrame)
  (can_write : string -> bool) : @World numpy :=
  @mkWorld numpy noon ∅ can_write source 7 [] [].

(** A frame of [n] days from [start_date] in which every metric reads [v]. *)
Definition flat_frame (start_date : datetime) (n : nat) (v : option Q) : DataFrame :=
  let c := repeat v n in
  mkDataFrame (map (fun i => start_date + timedelta (Z.of_nat i)) (seq 0 n))
    c c c c c c.

(** A live source that knows nothing. *)
Definition no_data : Q * Q -> datetime -> datetime -> Result DataFrame :=
  fun _ _ _ => Ok empty_frame.

(** A live source with a full window of readings at every point. *)
Definition full_data : Q * Q -> datetime -> datetime -> Result DataFrame :=
  fun _ s e => Ok (flat_frame s (List.length (date_range s e)) (Some 21.5%Q)).

(** A live source with data at Delhi's coordinates only. *)
Definition delhi_only : Q * Q -> datetime -> datetime -> Result DataFrame :=
  fun p s e =>
    if Qeq_bool (fst p) 28.7041 && Qeq_bool (snd p) 77.1025
    then Ok (flat_frame s 3 (Some 30.0%Q))
    else Ok empty_frame.

(** A live source whose one day of readings lacks every metric. *)
Definition gaps_only : Q * Q -> datetime -> datetime -> Result DataFrame :=
  fun _ s _ => Ok (flat_frame s 1 None).

(** A live source with data at Delhi's coordinates only, and every metric
    of its one day missing. *)
Definition delhi_gaps : Q * Q -> datetime -> datetime -> Result DataFrame :=
  fun p s e =>
    if Qeq_bool (fst p) 28.7041 && Qeq_bool (snd p) 77.1025
    then Ok (flat_frame s 1 None)
    else Ok empty_frame.

(** A live source that has no data at Mumbai and fails everywhere else. *)
Definition breaks_nearby : Q * Q -> datetime -> datetime -> Result DataFrame :=
  fun p _ _ =>
    if Qeq_bool (fst p) 19.0760 && Qeq_bool (snd p) 72.8777
    then Ok empty_frame
    else Raise (Exception "HTTP Error 503: Service Unavailable").

(** A frame of [n] days from [start_date] with the columns [tavg], whose
    cell of day [i] reads [20 + i], and [tmin], which reads [v] on every
    day. *)
Definition rising (start_date : datetime) (n : nat) (v : option Q) : Table :=
  mkTable (map (fun i => start_date + timedelta (Z.of_nat i)) (seq 0 n))
    [ ("tavg", map (fun i => Some (inject_Z (20 + Z.of_nat i))) (seq 0 n));
      ("tmin", repeat v n) ].

(** The record of Mumbai in the registry. *)
Definition mumbai : CityInfo := city "Mumbai" 19.0760%Q 72.8777%Q "Maharashtra".

(** What [full_data] answers for a window of [days] days that ends at
    [noon]. *)
Definition window (days : Z) : DataFrame :=
  flat_frame (noon - timedelta days) (Z.to_nat days + 1) (Some 21.5%Q).

End Sample.

(** ** Notions used in the statements *)

(** The record of a successful lookup. *)
Definition found {A : Type} (r : Result A) : option A :=
  match r with Ok a => Some a | Raise _ => None end.

(** A cell holds a value between [lo] and [hi]. *)
Definition in_range (lo hi : Q) (x : option Q) : Prop :=
  match x with Some v => (lo <= v /\ v <= hi)%Q | None => False end.

(** Every cell of the column is missing. *)
Definition all_missing (c : list (option Q)) : Prop := Forall (fun x => x = None) c.

(** A source has no data at a point: it answers, with an empty frame. *)
Definition silent (src : Q * Q -> Result DataFrame) (point : Q * Q) : Prop :=
  exists d, src point = Ok d /\ df_empty d = true.

(** The live source of a world, for a window. *)
Definition source_of `{Numpy} (w : World) (start_date end_date : datetime)
  : Q * Q -> Result DataFrame :=
  fun point => meteostat w point start_date end_date.

(** The live source of the world has no data at a point. *)
Definition quiet `{Numpy} (w : World) (start_date end_date : datetime)
  (point : Q * Q) : Prop :=
  silent (source_of w start_date end_date) point.

(** A sequential search for data over a list of points: the points asked,
    and the answer that ended the search, with the point when it bore data. *)
Fixpoint scan (src : Q * Q -> Result DataFrame) (pts : list (Q * Q))
  (df0 : DataFrame) : list (Q * Q) * Result (DataFrame * option (Q * Q)) :=
  match pts with
  | [] => ([], Ok (df0, None))
  | p :: t =>
      match src p with
      | Raise ex => ([p], Raise ex)
      | Ok d =>
          if df_empty d
          then let (q, r) := scan src t d in (p :: q, r)
          else ([p], Ok (d, Some p))
      end
  end.

(** The nearby points of the loader, in the order of its two loops. *)
Definition grid (info : CityInfo) : list (Q * Q) :=
  flat_map
    (fun lat_offset =>
       map (fun lon_offset => (lat info + lat_offset, lon info + lon_offset)%Q)
           Loader.offsets)
    Loader.offsets.

(** The record of Delhi in the registry, and its point. *)
Definition delhi : CityInfo := city "Delhi" 28.7041%Q 77.1025%Q "Delhi".
Definition delhi_point : Q * Q := (lat delhi, lon delhi).

(** The points of the live tiers of the loader, in order: the city itself,
    the nearby points, Delhi. *)
Definition tiers (info : CityInfo) : list (Q * Q) :=
  (lat info, lon info) :: grid info ++ [delhi_point].

(** The points of the live tiers of the standalone script, in order: the
    point itself, then the four points on its diagonal. *)
Definition standalone_tiers (lat lon : Q) : list (Q * Q) :=
  (lat, lon) :: map (fun offset => (lat + offset, lon + offset)%Q)
                    [0.5; 1.0; -0.5; -1.0]%Q.

(** [clean] is [raw] with its missing cells filled from the neighbouring
    days: the cells that hold a value keep it; a run of missing cells after
    a value takes that value; a run of missing cells at the head of the
    column takes the first value; every cell of [clean] then is a cell of
    [raw]; and a column without any value is filled with [default]. *)
Definition filled_by_neighbours (default : Q) (raw clean : list (option Q)) : Prop :=
  List.length clean = List.length raw
  /\ complete clean = true
  /\ (forall (i : nat) (v : Q),
        raw !! i = Some (Some v) -> clean !! i = Some (Some v))
  /\ (forall (pre gap post : list (option Q)) (v : Q) (i : nat),
        raw = pre ++ Some v :: gap ++ post -> all_missing gap ->
        (i < List.length gap)%nat ->
        clean !! (List.length pre + 1 + i)%nat = Some (Some v))
  /\ (forall (gap post : list (option Q)) (v : Q) (i : nat),
        raw = gap ++ Some v :: post -> all_missing gap ->
        (i < List.length gap)%nat ->
        clean !! i = Some (Some v))
  /\ (notna_any raw = true -> forall x : option Q, In x clean -> In x raw)
  /\ (all_missing raw -> clean = repeat (Some default) (List.length raw)).

(** The check that a display name resolves to a record of this name. *)
Definition round_trips (n : string) : bool :=
  match get_city_info n with
  | Ok info => String.eqb (name info) n
  | Raise _ => false
  end.

(** The world after the points [q] have been asked of the live source. *)
Definition asked `{Numpy} (q : list (Q * Q)) (w : World) : World :=
  set_queries (queries w ++ q) w.

(** The outcome of a nearby-station search that ended at [r] and was entered
    with the tag [tag]. *)
Definition tagged (tag : Source) (r : Result (DataFrame * option (Q * Q)))
  : Result (DataFrame * Source) :=
  match r with
  | Ok (d, Some p) => Ok (d, NearbyStation (fst p) (snd p))
  | Ok (d, None) => Ok (d, tag)
  | Raise ex => Raise ex
  end.

(** The Delhi tier and the synthetic tier, as [Loader.acquire] has them. *)
Definition last_tiers `{Numpy} (city_name : string) (start_date end_date : datetime)
  : M (DataFrame * Source) :=
  st_warning (NoDataUsingDelhi city_name) ;;;
  delhi_info <- lift (get_city_info "Delhi") ;;
  df <- Daily_fetch (lat delhi_info, lon delhi_info) start_date end_date ;;
  if df_empty df then
    st_warning MeteostatUnavailable ;;;
    df <- Loader._generate_synthetic_data city_name start_date end_date ;;
    ret (df, Synthetic city_name)
  else ret (df, DelhiFallback).

(** The computation reads the generator, and the clock when [clock] is set,
    and leaves every part of the world but the generator as it was. *)
Definition rng_only `{Numpy} {A : Type} (clock : bool) (m : M A) : Prop :=
  (forall w, exists s, snd (m w) = set_np_state s w)
  /\ (forall w1 w2,
        (clock = true -> now w1 = now w2) -> np_state w1 = np_state w2 ->
        fst (m w1) = fst (m w2)
        /\ np_state (snd (m w1)) = np_state (snd (m w2))).

(** The computation leaves the clock, the files, the write permissions and
    the live source as they were. *)
Definition keeps_store `{Numpy} {A : Type} (m : M A) : Prop :=
  forall w : World,
    now (snd (m w)) = now w /\ files (snd (m w)) = files w
    /\ writable (snd (m w)) = writable w /\ meteostat (snd (m w)) = meteostat w.

(** What a source tag says of a series [d] acquired for a city in the world
    [w]: a series tagged with the city was the live answer at the city's
    point; one tagged as a nearby station was the live answer at that point
    of the grid, the city and every earlier point of the grid having no
    data; one tagged as the Delhi fallback was the live answer at Delhi, no
    earlier tier having data; a series tagged synthetic is what the
    generator gives for the city, no live tier having data. The tag of the
    cache says nothing of an acquired series. *)
Definition origin `{Numpy} (w : World) (city_name : string) (info : CityInfo)
  (days : Z) (d : DataFrame) (tag : Source) : Prop :=
  let end_date := now w in
  let start_date := end_date - timedelta days in
  let src := source_of w start_date end_date in
  let exact := (lat info, lon info) in
  match tag with
  | Meteostat n la lo =>
      n = city_name /\ (la, lo) = exact /\ src exact = Ok d /\ df_empty d = false
  | NearbyStation la lo =>
      src (la, lo) = Ok d /\ df_empty d = false
      /\ exists pre post,
           grid info = pre ++ (la, lo) :: post /\ Forall (silent src) (exact :: pre)
  | DelhiFallback =>
      src delhi_point = Ok d /\ df_empty d = false
      /\ Forall (silent src) (exact :: grid info)
  | Synthetic n =>
      n = city_name /\ Forall (silent src) (tiers info)
      /\ fst (Loader._generate_synthetic_data city_name start_date end_date w) = Ok d
  | FileCache _ => False
  end.

(** The metric columns that [process_daily_changes] grades, each with the
    threshold of its colours, its column of changes and its column of
    colours. *)
Definition change_columns (df : DataFrame) (ch : Standalone.Changes)
  : list (list (option Q) * Q * list (option Q) * list string) :=
  [ (tavg df, Standalone.TOLERANCE, Standalone.temp_change ch, Standalone.temp_color ch);
    (prcp df, Standalone.TOLERANCE, Standalone.precip_change ch,
     Standalone.precip_color ch);
    (wspd df, Standalone.TOLERANCE, Standalone.wind_change ch, Standalone.wind_color ch);
    (pres df, 2%Q, Standalone.pressure_change ch, Standalone.pressure_color ch) ].

(** A value of [np.random.uniform(low, high, size)]. *)
Definition uniform_value `{Numpy} (low high x : Q) : Prop :=
  exists s, x = (low + (high - low) * fst (random_sample s))%Q.

(** On every day whose three temperatures are known, the minimum is below
    the mean and the mean below the maximum. *)
Definition temperatures_ordered (df : DataFrame) : Prop :=
  forall (i : nat) (lo mid hi : Q),
    tmin df !! i = Some (Some lo) ->
    tavg df !! i = Some (Some mid) ->
    tmax df !! i = Some (Some hi) ->
    (lo < mid /\ mid < hi)%Q.

(** Structural equality of two records of the registry. *)
Definition city_eqb (a b : CityInfo) : bool :=
  String.eqb (name a) (name b)
  && Z.eqb (Qnum (lat a)) (Qnum (lat b)) && Pos.eqb (Qden (lat a)) (Qden (lat b))
  && Z.eqb (Qnum (lon a)) (Qnum (lon b)) && Pos.eqb (Qden (lon a)) (Qden (lon b))
  && String.eqb (state a) (state b).

(** The check that an entry of the registry is what a lookup returns, by
    its key and by its display name. *)
Definition resolves_to_itself (kv : string * CityInfo) : bool :=
  match get_city_info (fst kv), get_city_info (name (snd kv)) with
  | Ok by_key, Ok by_name => city_eqb by_key (snd kv) && city_eqb by_name (snd kv)
  | _, _ => false
  end.

(** The check that a list of names ascends strictly in Python's order. *)
Fixpoint ascending (l : list string) : bool :=
  match l with
  | [] => true
  | a :: t =>
      match t with
      | [] => true
      | b :: _ => String.ltb a b && ascending t
      end
  end.

(** The names of the columns that [create_cyclical_features] writes. *)
Definition cyclical_names : list string :=
  [ "day_of_year"; "month"; "day_of_week";
    "day_of_year_sin"; "day_of_year_cos"; "month_sin"; "month_cos";
    "day_of_week_sin"; "day_of_week_cos" ].

(** A column of [n] cells with no missing cell from row [k] on. *)
Definition settled (n k : nat) (kv : string * list (option Q)) : Prop :=
  List.length (snd kv) = n
  /\ forall i : nat, (k <= i)%nat -> snd kv !! i <> Some None.


(** * Properties *)

(** ** The registry *)

Lemma ascii_lower_upper (c : ascii) : ascii_lower (ascii_upper c) = ascii_lower c.
Proof. destruct c as [[] [] [] [] [] [] [] []]; reflexivity. Qed.

Lemma ascii_lower_lower (c : ascii) : ascii_lower (ascii_lower c) = ascii_lower c.
Proof. destruct c as [[] [] [] [] [] [] [] []]; reflexivity. Qed.

Lemma lower_upper (s : string) : lower (upper s) = lower s.
Proof. induction s as [|c t IH]; simpl; [|rewrite ascii_lower_upper, IH]; reflexivity. Qed.

Lemma lower_lower (s : string) : lower (lower s) = lower s.
Proof. induction s as [|c t IH]; simpl; [|rewrite ascii_lower_lower, IH]; reflexivity. Qed.

Lemma app_nil_l (b : string) : "" +:+ b = b.
Proof. reflexivity. Qed.

Lemma app_cons (x : ascii) (a b : string) : String x a +:+ b = String x (a +:+ b).
Proof. reflexivity. Qed.

Lemma append_assoc (a b c : string) : (a +:+ b) +:+ c = a +:+ (b +:+ c).
Proof.
  induction a as [|x a IH]; [reflexivity|].
  rewrite !app_cons, IH. reflexivity.
Qed.

Lemma lower_app (a b : string) : lower (a +:+ b) = lower a +:+ lower b.
Proof.
  induction a as [|x a IH]; [reflexivity|].
  rewrite app_cons. simpl. rewrite IH, app_cons. reflexivity.
Qed.

Lemma replace_app (old : ascii) (new a b : string) :
  replace old new (a +:+ b) = replace old new a +:+ replace old new b.
Proof.
  induction a as [|x a IH]; [reflexivity|].
  rewrite app_cons. simpl. rewrite IH.
  destruct (Ascii.eqb x old); [rewrite append_assoc | rewrite app_cons]; reflexivity.
Qed.

Lemma city_key_of_upper (q : string) : city_key_of (upper q) = city_key_of q.
Proof. unfold city_key_of. rewrite lower_upper. reflexivity. Qed.

Lemma city_key_of_lower (q : string) : city_key_of (lower q) = city_key_of q.
Proof. unfold city_key_of. rewrite lower_lower. reflexivity. Qed.

Lemma city_key_of_space (a b : string) :
  city_key_of (a +:+ " " +:+ b) = city_key_of (a +:+ b).
Proof.
  unfold city_key_of. rewrite !lower_app, !replace_app.
  change (replace " " "" (lower " ")) with "".
  change (replace "-" "" "") with "".
  rewrite app_nil_l. reflexivity.
Qed.

Lemma city_key_of_hyphen (a b : string) :
  city_key_of (a +:+ "-" +:+ b) = city_key_of (a +:+ b).
Proof.
  unfold city_key_of. rewrite !lower_app, !replace_app.
  change (replace " " "" (lower "-")) with "-".
  change (replace "-" "" "-") with "".
  rewrite app_nil_l. reflexivity.
Qed.

(** The outcome of a lookup is decided by the key of the query. *)
Lemma get_city_info_key (q1 q2 : string) :
  city_key_of q1 = city_key_of q2 ->
  found (get_city_info q1) = found (get_city_info q2).
Proof.
  intros E. unfold get_city_info. rewrite E.
  destruct (find _ INDIAN_CITIES); reflexivity.
Qed.

(** A record that a lookup returns is a record of the registry. *)
Lemma get_city_info_in (q : string) (info : CityInfo) :
  get_city_info q = Ok info -> exists key, In (key, info) INDIAN_CITIES.
Proof.
  unfold get_city_info.
  destruct (find _ INDIAN_CITIES) as [[k i]|] eqn:E; [|discriminate].
  intros [= <-]. exists k. apply find_some in E. exact (proj1 E).
Qed.

(** An unknown city is reported by [ValueError] with the message of the
    source. *)
Lemma get_city_info_raise (q : string) (e : exn) :
  get_city_info q = Raise e -> e = ValueError (not_found_message q).
Proof.
  unfold get_city_info. destruct (find _ INDIAN_CITIES); [discriminate|].
  intros [= <-]. reflexivity.
Qed.

Lemma get_city_list_round_trips : forallb round_trips get_city_list = true.
Proof. vm_compute. reflexivity. Qed.

(** C10. Every display name of [get_city_list] resolves through
    [get_city_info], to a record of the registry that carries this name; and
    the lookup does not see the letter case of the query, nor its spaces and
    hyphens. *)
Theorem registry_round_trip :
  (forall n : string, In n get_city_list ->
     exists info key,
       get_city_info n = Ok info /\ name info = n /\ In (key, info) INDIAN_CITIES)
  /\ (forall q : string,
        found (get_city_info (upper q)) = found (get_city_info q)
        /\ found (get_city_info (lower q)) = found (get_city_info q))
  /\ (forall a b : string,
        found (get_city_info (a +:+ " " +:+ b)) = found (get_city_info (a +:+ b))
        /\ found (get_city_info (a +:+ "-" +:+ b)) = found (get_city_info (a +:+ b))).
Proof.
  split; [|split].
  - intros n Hn.
    pose proof (proj1 (forallb_forall _ _) get_city_list_round_trips n Hn) as R.
    unfold round_trips in R.
    destruct (get_city_info n) as [info|] eqn:E; [|discriminate].
    apply String.eqb_eq in R.
    destruct (get_city_info_in _ _ E) as [key Hk].
    exists info, key. auto.
  - intros q. split; apply get_city_info_key;
      [apply city_key_of_upper | apply city_key_of_lower].
  - intros a b. split; apply get_city_info_key;
      [apply city_key_of_space | apply city_key_of_hyphen].
Qed.

Lemma registry_round_trip_witness :
  In "Port Blair" get_city_list
  /\ exists info key,
       get_city_info "Port Blair" = Ok info /\ name info = "Port Blair"
       /\ In (key, info) INDIAN_CITIES.
Proof.
  assert (H : In "Port Blair" get_city_list).
  { vm_compute. repeat first [left; reflexivity | right]. }
  split; [exact H | exact (proj1 registry_round_trip "Port Blair" H)].
Defined.

(** ** The cache gate *)

Lemma td_days_lt (delta n : Z) : td_days delta < n <-> delta < timedelta n.
Proof.
  unfold td_days, timedelta, us_per_day.
  Z.to_euclidean_division_equations. lia.
Qed.

Section CacheGate.
Context `{Numpy}.
Import Loader.

Variable self : WeatherDataLoader.
Variable city_name : string.

Local Abbreviation path := (cache_file_of self city_name).

Lemma cache_lookup_absent (w : World) :
  files w !! path = None -> cache_lookup self city_name w = (Ok None, w).
Proof.
  intros E. unfold cache_lookup, bind, os_path_exists.
  rewrite E. reflexivity.
Qed.

Lemma cache_lookup_present (w : World) (f : CacheFile) :
  files w !! path = Some f ->
  cache_lookup self city_name w =
    (Ok (if td_days (now w - mtime f) <? cache_days self
         then Some (mkAcquired (content f) (FileCache city_name))
         else None), w).
Proof.
  intros E.
  unfold cache_lookup, bind, os_path_exists, datetime_now, getmtime, read_csv.
  rewrite E. cbn beta iota. rewrite E. cbn beta iota.
  destruct (td_days (now w - mtime f) <? cache_days self);
    [rewrite E|]; reflexivity.
Qed.

Lemma fetch_after_miss (days : Z) (w : World) :
  cache_lookup self city_name w = (Ok None, w) ->
  fetch_historical_data self city_name days w = fetch_fresh self city_name days w.
Proof. intros E. unfold fetch_historical_data, bind. rewrite E. reflexivity. Qed.

Lemma fetch_after_hit (days : Z) (w : World) (r : Acquired) :
  cache_lookup self city_name w = (Ok (Some r), w) ->
  fetch_historical_data self city_name days w = (Ok r, w).
Proof. intros E. unfold fetch_historical_data, bind. rewrite E. reflexivity. Qed.

(** C5. A cache file is served exactly when its age, in whole days since
    its last modification, is below [cache_days]; an older file is reported
    absent whatever it holds, and the call then acquires afresh. *)
Theorem cache_freshness (days : Z) (w : World) (f : CacheFile) :
  files w !! path = Some f ->
  let age := td_days (now w - mtime f) in
  let cached := mkAcquired (content f) (FileCache city_name) in
  (age < cache_days self <-> now w - mtime f < timedelta (cache_days self))
  /\ (age < cache_days self <->
      cache_lookup self city_name w = (Ok (Some cached), w))
  /\ (age < cache_days self ->
      fetch_historical_data self city_name days w = (Ok cached, w))
  /\ (cache_days self <= age ->
      cache_lookup self city_name w = (Ok None, w)
      /\ fetch_historical_data self city_name days w
         = fetch_fresh self city_name days w).
Proof.
  intros E age cached.
  pose proof (cache_lookup_present w f E) as L. fold age in L.
  split; [apply td_days_lt|].
  destruct (age <? cache_days self) eqn:C.
  - apply Z.ltb_lt in C. split; [tauto|]. split; [|lia].
    intros _. apply fetch_after_hit. exact L.
  - apply Z.ltb_ge in C. split; [|split].
    + split; [lia|]. rewrite L. intros [=].
    + lia.
    + intros _. split; [exact L|]. apply fetch_after_miss. exact L.
Qed.

(** The outcome of [fetch_fresh], step by step. *)
Lemma fetch_fresh_unknown (days : Z) (w : World) (e : exn) :
  get_city_info city_name = Raise e ->
  fetch_fresh self city_name days w
  = (Raise (ValueError (not_found_message city_name)), w).
Proof.
  intros E. rewrite (get_city_info_raise _ _ E) in E.
  unfold fetch_fresh, bind, lift. rewrite E. reflexivity.
Qed.

Lemma fetch_fresh_write (days : Z) (w w1 : World) (info : CityInfo)
  (cur : DataFrame * Source) :
  get_city_info city_name = Ok info ->
  acquire city_name info days w = (Ok cur, w1) ->
  fetch_fresh self city_name days w =
    if writable w1 path
    then (Ok (mkAcquired (fst cur) (snd cur)),
          set_files (<[path := mkCacheFile (now w1) (fst cur)]> (files w1)) w1)
    else (Raise (OSError path), w1).
Proof.
  intros E A. unfold fetch_fresh, bind, lift, to_csv. rewrite E, A.
  destruct (writable w1 path); reflexivity.
Qed.

(** A successful fresh acquisition leaves its frame in the cache file,
    written at the time of the call. *)
Lemma fetch_fresh_stores (days : Z) (w w1 : World) (r : Acquired) :
  fetch_fresh self city_name days w = (Ok r, w1) ->
  files w1 !! path = Some (mkCacheFile (now w1) (frame r)).
Proof.
  unfold fetch_fresh, bind, lift, to_csv.
  destruct (get_city_info city_name) as [info|]; [|discriminate].
  destruct (acquire city_name info days w) as [[cur|] w2]; [|discriminate].
  destruct (writable w2 path); [|discriminate].
  intros [= <- <-]. simpl. apply lookup_insert_eq.
Qed.

(** C6. The cache file of a city does not depend on the window: a series
    acquired for [days1] days is what a call for [days2] days returns as
    long as the file is fresh. *)
Theorem cache_ignores_window (days1 days2 : Z) (w w1 : World) (r : Acquired) :
  0 < cache_days self ->
  fetch_historical_data self city_name days1 w = (Ok r, w1) ->
  fetch_historical_data self city_name days2 w1
  = (Ok (mkAcquired (frame r) (FileCache city_name)), w1).
Proof.
  intros Hpos F.
  assert (S : exists f, files w1 !! path = Some f
                        /\ td_days (now w1 - mtime f) < cache_days self
                        /\ content f = frame r).
  { unfold fetch_historical_data, bind in F.
    destruct (files w !! path) as [f|] eqn:E.
    - rewrite (cache_lookup_present w f E) in F.
      destruct (td_days (now w - mtime f) <? cache_days self) eqn:C.
      + injection F as <- <-. exists f. apply Z.ltb_lt in C. auto.
      + apply fetch_fresh_stores in F. eexists. split; [exact F|].
        simpl. rewrite Z.sub_diag. split; [exact Hpos | reflexivity].
    - rewrite (cache_lookup_absent w E) in F.
      apply fetch_fresh_stores in F. eexists. split; [exact F|].
      simpl. rewrite Z.sub_diag. split; [exact Hpos | reflexivity]. }
  destruct S as (f & E & C & <-).
  apply fetch_after_hit. rewrite (cache_lookup_present w1 f E).
  apply Z.ltb_lt in C. rewrite C. reflexivity.
Qed.

(** C7, as the loader has it. After a cache miss and a successful
    acquisition, the call returns the acquired series when the cache file
    can be written, and raises the write error, returning nothing, when it
    cannot. *)
Theorem cache_write_outcome (days : Z) (w w1 : World) (info : CityInfo)
  (cur : DataFrame * Source) :
  cache_lookup self city_name w = (Ok None, w) ->
  get_city_info city_name = Ok info ->
  acquire city_name info days w = (Ok cur, w1) ->
  (writable w1 path = true ->
   fetch_historical_data self city_name days w
   = (Ok (mkAcquired (fst cur) (snd cur)),
      set_files (<[path := mkCacheFile (now w1) (fst cur)]> (files w1)) w1))
  /\ (writable w1 path = false ->
      fetch_historical_data self city_name days w = (Raise (OSError path), w1)).
Proof.
  intros L E A. rewrite (fetch_after_miss days w L).
  rewrite (fetch_fresh_write days w w1 info cur E A).
  split; intros ->; reflexivity.
Qed.

(** C4, as the loader has it. For a city that the registry does not know,
    the call raises the not-found [ValueError], with the world untouched,
    when the cache file is absent or stale; a fresh cache file at the path
    of the name is served without the name being resolved. *)
Theorem unknown_city_outcome (days : Z) (w : World) (e : exn) :
  get_city_info city_name = Raise e ->
  (files w !! path = None ->
   fetch_historical_data self city_name days w
   = (Raise (ValueError (not_found_message city_name)), w))
  /\ (forall f : CacheFile,
        files w !! path = Some f ->
        cache_days self <= td_days (now w - mtime f) ->
        fetch_historical_data self city_name days w
        = (Raise (ValueError (not_found_message city_name)), w))
  /\ (forall f : CacheFile,
        files w !! path = Some f ->
        td_days (now w - mtime f) < cache_days self ->
        fetch_historical_data self city_name days w
        = (Ok (mkAcquired (content f) (FileCache city_name)), w)).
Proof.
  intros E. split; [|split].
  - intros A. rewrite (fetch_after_miss days w (cache_lookup_absent w A)).
    apply (fetch_fresh_unknown days w e E).
  - intros f A C. apply Z.ltb_ge in C.
    pose proof (cache_lookup_present w f A) as L. rewrite C in L.
    rewrite (fetch_after_miss days w L).
    apply (fetch_fresh_unknown days w e E).
  - intros f A C. apply Z.ltb_lt in C.
    pose proof (cache_lookup_present w f A) as L. rewrite C in L.
    apply fetch_after_hit. exact L.
Qed.

End CacheGate.

(** *** Concrete runs of the cache gate *)

Lemma run_eq {A B : Type} (x : A * B) (a : A) : fst x = a -> x = (a, snd x).
Proof. destruct x. simpl. intros ->. reflexivity. Qed.

Lemma cache_freshness_witness :
  let path := "data/raw/mumbai_30days.csv" in
  let young := mkCacheFile (Sample.noon - 3600000000) (Sample.flat_frame 0 2 (Some 20.0%Q)) in
  let w := @mkWorld Sample.numpy Sample.noon (<[path := young]> ∅)
             (fun _ => true) Sample.no_data 7 [] [] in
  files w !! path = Some young
  /\ @Loader.fetch_historical_data Sample.numpy Loader.default_loader "Mumbai" 30 w
     = (Ok (Loader.mkAcquired (content young) (FileCache "Mumbai")), w).
Proof.
  intros path young w.
  assert (E : files w !! path = Some young) by (vm_compute; reflexivity).
  split; [exact E|].
  apply (proj1 (proj2 (proj2
    (@cache_freshness Sample.numpy Loader.default_loader "Mumbai" 30 w young E)))).
  vm_compute. reflexivity.
Defined.

Lemma cache_ignores_window_witness :
  let w0 := Sample.world Sample.full_data (fun _ => true) in
  let first :=
    @Loader.fetch_historical_data Sample.numpy Loader.default_loader "Mumbai" 7 w0 in
  let r := Loader.mkAcquired (Sample.window 7) (Meteostat "Mumbai" 19.0760 72.8777) in
  fst first = Ok r
  /\ df_len (Loader.frame r) = 8%nat
  /\ @Loader.fetch_historical_data Sample.numpy Loader.default_loader "Mumbai" 30
       (snd first)
     = (Ok (Loader.mkAcquired (Loader.frame r) (FileCache "Mumbai")), snd first).
Proof.
  intros w0 first r.
  assert (E : fst first = Ok r) by (vm_compute; reflexivity).
  split; [exact E|]. split; [vm_compute; reflexivity|].
  apply (@cache_ignores_window Sample.numpy Loader.default_loader "Mumbai" 7 30
           w0 (snd first) r).
  - vm_compute. reflexivity.
  - apply run_eq. exact E.
Defined.

(** C7, as the claim states it, fails: the acquisition succeeds, the cache
    file cannot be written, and the call raises instead of returning the
    series. *)
Lemma cache_write_failure_counterexample :
  let w := Sample.world Sample.full_data (fun _ => false) in
  get_city_info "Mumbai" = Ok Sample.mumbai
  /\ fst (@Loader.acquire Sample.numpy "Mumbai" Sample.mumbai 30 w)
     = Ok (Sample.window 30, Meteostat "Mumbai" 19.0760 72.8777)
  /\ fst (@Loader.fetch_historical_data Sample.numpy Loader.default_loader "Mumbai" 30 w)
     = Raise (OSError "data/raw/mumbai_30days.csv").
Proof.
  intros w. split; [|split]; vm_compute; reflexivity.
Qed.

Lemma cache_write_outcome_witness :
  let w := Sample.world Sample.full_data (fun _ => false) in
  let cur := (Sample.window 30, Meteostat "Mumbai" 19.0760 72.8777) in
  let acquired := @Loader.acquire Sample.numpy "Mumbai" Sample.mumbai 30 w in
  let path := Loader.cache_file_of Loader.default_loader "Mumbai" in
  fst acquired = Ok cur
  /\ path = "data/raw/mumbai_30days.csv"
  /\ @Loader.fetch_historical_data Sample.numpy Loader.default_loader "Mumbai" 30 w
     = (Raise (OSError path), snd acquired).
Proof.
  intros w cur acquired path.
  assert (A : fst acquired = Ok cur) by (vm_compute; reflexivity).
  assert (L : @Loader.cache_lookup Sample.numpy Loader.default_loader "Mumbai" w
              = (Ok None, w))
    by (apply cache_lookup_absent; vm_compute; reflexivity).
  assert (E : get_city_info "Mumbai" = Ok Sample.mumbai) by (vm_compute; reflexivity).
  assert (W : writable (snd acquired) path = false) by (vm_compute; reflexivity).
  split; [exact A|]. split; [vm_compute; reflexivity|].
  exact (proj2 (@cache_write_outcome Sample.numpy Loader.default_loader "Mumbai" 30
                  w (snd acquired) Sample.mumbai cur L E (run_eq acquired _ A)) W).
Defined.

(** C4, as the claim states it, fails: after a call for "Port Blair" has
    filled the cache, the name "port_blair", which the registry does not
    resolve, is served that file. *)
Lemma unknown_city_counterexample :
  let w0 := Sample.world Sample.full_data (fun _ => true) in
  let w1 :=
    snd (@Loader.fetch_historical_data Sample.numpy Loader.default_loader
           "Port Blair" 30 w0) in
  get_city_info "port_blair"
  = Raise (ValueError "City 'port_blair' not found in database")
  /\ fst (@Loader.fetch_historical_data Sample.numpy Loader.default_loader
            "port_blair" 30 w1)
     = Ok (Loader.mkAcquired (Sample.window 30) (FileCache "port_blair")).
Proof.
  intros w0 w1. split; vm_compute; reflexivity.
Qed.

Lemma unknown_city_outcome_witness :
  let w := Sample.world Sample.full_data (fun _ => true) in
  let w1 :=
    snd (@Loader.fetch_historical_data Sample.numpy Loader.default_loader
           "Port Blair" 30 w) in
  get_city_info "Atlantis" = Raise (ValueError "City 'Atlantis' not found in database")
  /\ @Loader.fetch_historical_data Sample.numpy Loader.default_loader "Atlantis" 30 w
     = (Raise (ValueError "City 'Atlantis' not found in database"), w)
  /\ get_city_info "port_blair"
     = Raise (ValueError "City 'port_blair' not found in database")
  /\ @Loader.fetch_historical_data Sample.numpy Loader.default_loader "port_blair" 30 w1
     = (Ok (Loader.mkAcquired (Sample.window 30) (FileCache "port_blair")), w1).
Proof.
  intros w w1.
  assert (E : get_city_info "Atlantis"
              = Raise (ValueError "City 'Atlantis' not found in database"))
    by (vm_compute; reflexivity).
  assert (E1 : get_city_info "port_blair"
               = Raise (ValueError "City 'port_blair' not found in database"))
    by (vm_compute; reflexivity).
  split; [exact E|]. split; [|split; [exact E1|]].
  - apply (proj1 (@unknown_city_outcome Sample.numpy Loader.default_loader "Atlantis"
                    30 w _ E)).
    vm_compute. reflexivity.
  - apply (proj2 (proj2 (@unknown_city_outcome Sample.numpy Loader.default_loader
                           "port_blair" 30 w1 _ E1))
             (mkCacheFile Sample.noon (Sample.window 30))).
    + vm_compute. reflexivity.
    + vm_compute. reflexivity.
Defined.

(** ** The live tiers of the loader *)

Section Scan.
Variable src : Q * Q -> Result DataFrame.

Lemma scan_app (l1 l2 : list (Q * Q)) (df0 : DataFrame) :
  scan src (l1 ++ l2) df0 =
    let (q1, r1) := scan src l1 df0 in
    match r1 with
    | Ok (d, None) => let (q2, r2) := scan src l2 d in (q1 ++ q2, r2)
    | _ => (q1, r1)
    end.
Proof.
  revert df0. induction l1 as [|p t IH]; intros df0; simpl.
  - destruct (scan src l2 df0). reflexivity.
  - destruct (src p) as [d|ex]; [|reflexivity].
    destruct (df_empty d); [|reflexivity].
    rewrite IH. destruct (scan src t d) as [q1 [[d1 [p1|]]|ex1]]; try reflexivity.
    destruct (scan src l2 d1). reflexivity.
Qed.

Lemma scan_silent (pts : list (Q * Q)) (df0 : DataFrame) :
  Forall (silent src) pts -> df_empty df0 = true ->
  exists d, scan src pts df0 = (pts, Ok (d, None)) /\ df_empty d = true.
Proof.
  intros Hq. revert df0. induction Hq as [|p t (d & Hd & He) _ IH]; intros df0 H0.
  - exists df0. auto.
  - simpl. rewrite Hd, He. destruct (IH d He) as (d' & -> & He').
    exists d'. auto.
Qed.

Lemma scan_spec (pts : list (Q * Q)) (df0 : DataFrame) :
  df_empty df0 = true ->
  match scan src pts df0 with
  | (q, Ok (d, None)) => q = pts /\ Forall (silent src) pts /\ df_empty d = true
  | (q, Ok (d, Some p)) =>
      exists pre post,
        pts = pre ++ p :: post /\ q = pre ++ [p] /\ Forall (silent src) pre
        /\ src p = Ok d /\ df_empty d = false
  | (q, Raise ex) =>
      exists pre p post,
        pts = pre ++ p :: post /\ q = pre ++ [p] /\ Forall (silent src) pre
        /\ src p = Raise ex
  end.
Proof.
  revert df0. induction pts as [|p t IH]; intros df0 H0; simpl.
  - auto.
  - destruct (src p) as [d|ex] eqn:Hp.
    + destruct (df_empty d) eqn:He.
      * assert (Sp : silent src p) by (exists d; auto).
        specialize (IH d He).
        destruct (scan src t d) as [q [[d1 [p1|]]|ex1]].
        -- destruct IH as (pre & post & -> & -> & Hpre & Hs & Hn).
           exists (p :: pre), post. auto.
        -- destruct IH as (-> & Hall & Hd1). auto.
        -- destruct IH as (pre & p1 & post & -> & -> & Hpre & Hs).
           exists (p :: pre), p1, post. auto.
      * exists [], t. auto.
    + exists [], p, t. auto.
Qed.

End Scan.

Lemma get_city_info_delhi : get_city_info "Delhi" = Ok delhi.
Proof. vm_compute. reflexivity. Qed.

Section Tiers.
Context `{Numpy}.
Import Loader.

Variable info : CityInfo.
Variables start_date end_date : datetime.

Local Abbreviation src w := (source_of w start_date end_date).

Lemma asked_nil (w : World) : asked [] w = w.
Proof. destruct w. unfold asked, set_queries. simpl. rewrite app_nil_r. reflexivity. Qed.

Lemma asked_asked (q1 q2 : list (Q * Q)) (w : World) :
  asked q2 (asked q1 w) = asked (q1 ++ q2) w.
Proof. unfold asked, set_queries. simpl. rewrite app_assoc. reflexivity. Qed.

Lemma source_of_asked (q : list (Q * Q)) (w : World) :
  source_of (asked q w) start_date end_date = source_of w start_date end_date.
Proof. reflexivity. Qed.

Lemma Daily_fetch_run (p : Q * Q) (w : World) :
  Daily_fetch p start_date end_date w = (src w p, asked [p] w).
Proof. reflexivity. Qed.

Lemma search_lon_scan (lat_offset : Q) (lon_offsets : list Q)
  (cur : DataFrame * Source) (w : World) :
  search_lon info start_date end_date lat_offset lon_offsets cur w =
    let (q, r) :=
      scan (src w)
        (map (fun lon_offset => (lat info + lat_offset, lon info + lon_offset)%Q)
             lon_offsets)
        (fst cur) in
    (tagged (snd cur) r, asked q w).
Proof.
  revert cur w. induction lon_offsets as [|lo rest IH]; intros [df tag] w.
  - simpl. rewrite asked_nil. reflexivity.
  - cbn [search_lon map scan]. unfold bind. rewrite Daily_fetch_run.
    destruct (src w (lat info + lat_offset, lon info + lo)%Q) as [d|ex];
      [|reflexivity].
    destruct (df_empty d); cbn [negb]; [|reflexivity].
    rewrite IH, source_of_asked. cbn [fst snd].
    destruct (scan _ _ d) as [q r]. rewrite asked_asked. reflexivity.
Qed.

Lemma search_lat_scan (lat_offsets : list Q) (cur : DataFrame * Source)
  (w : World) :
  df_empty (fst cur) = true ->
  search_lat info start_date end_date lat_offsets cur w =
    let (q, r) :=
      scan (src w)
        (flat_map
           (fun lat_offset =>
              map (fun lon_offset =>
                     (lat info + lat_offset, lon info + lon_offset)%Q) offsets)
           lat_offsets)
        (fst cur) in
    (tagged (snd cur) r, asked q w).
Proof.
  revert cur w. induction lat_offsets as [|la rest IH]; intros [df tag] w H0.
  - simpl. rewrite asked_nil. reflexivity.
  - cbn [search_lat flat_map]. unfold bind. rewrite search_lon_scan, scan_app.
    cbn [fst snd] in *.
    pose proof (scan_spec (src w)
      (map (fun lon_offset => (lat info + la, lon info + lon_offset)%Q) offsets)
      df H0) as S.
    destruct (scan (src w) (map _ offsets) df) as [q1 [[d1 [p1|]]|ex1]];
      cbn [tagged].
    + destruct S as (_ & _ & _ & _ & _ & _ & Hn). cbn [fst]. rewrite Hn. reflexivity.
    + destruct S as (_ & _ & He). cbn [fst]. rewrite He. cbn [negb].
      rewrite (IH (d1, tag) (asked q1 w) He), source_of_asked. cbn [fst snd].
      destruct (scan _ _ d1) as [q2 r2]. rewrite asked_asked. reflexivity.
    + reflexivity.
Qed.

End Tiers.

(** ** Computations that only draw random numbers *)

Section RngOnly.
Context `{Numpy}.

Lemma set_np_state_id (w : World) : set_np_state (np_state w) w = w.
Proof. destruct w. reflexivity. Qed.

Lemma rng_only_ret {A : Type} (clock : bool) (a : A) : rng_only clock (ret a).
Proof.
  split.
  - intros w. exists (np_state w). symmetry. apply set_np_state_id.
  - intros w1 w2 _ E. simpl. auto.
Qed.

Lemma rng_only_lift {A : Type} (clock : bool) (r : Result A) : rng_only clock (lift r).
Proof.
  split.
  - intros w. exists (np_state w). symmetry. apply set_np_state_id.
  - intros w1 w2 _ E. simpl. auto.
Qed.

Lemma rng_only_now : rng_only true datetime_now.
Proof.
  split.
  - intros w. exists (np_state w). symmetry. apply set_np_state_id.
  - intros w1 w2 E1 E2. simpl. rewrite (E1 eq_refl). auto.
Qed.

Lemma rng_only_seed (clock : bool) (k : Z) : rng_only clock (np_random_seed k).
Proof.
  split.
  - intros w. exists (seeded k). reflexivity.
  - intros w1 w2 _ _. simpl. auto.
Qed.

Lemma rng_only_random (clock : bool) (gen : RandomState -> Q * RandomState)
  (f : Q -> Q) (size : Z) : rng_only clock (np_random gen f size).
Proof.
  split.
  - intros w. unfold np_random. destruct (size <? 0).
    + exists (np_state w). symmetry. apply set_np_state_id.
    + destruct (draws gen (Z.to_nat size) (np_state w)) as [xs s].
      exists s. reflexivity.
  - intros w1 w2 _ E. unfold np_random. rewrite E.
    destruct (size <? 0); [simpl; auto|].
    destruct (draws gen (Z.to_nat size) (np_state w2)) as [xs s].
    simpl. auto.
Qed.

Lemma rng_only_bind {A B : Type} (clock : bool) (m : M A) (k : A -> M B) :
  rng_only clock m -> (forall a, rng_only clock (k a)) -> rng_only clock (bind m k).
Proof.
  intros [Fm Dm] Hk. split.
  - intros w. unfold bind. destruct (Fm w) as [s Es].
    destruct (m w) as [[a|ex] w']; simpl in Es; subst w'.
    + destruct (proj1 (Hk a) (set_np_state s w)) as [s' Es'].
      exists s'. rewrite Es'. reflexivity.
    + exists s. reflexivity.
  - intros w1 w2 E1 E2. unfold bind.
    destruct (Dm w1 w2 E1 E2) as [Er Es].
    destruct (Fm w1) as [s1 F1]. destruct (Fm w2) as [s2 F2].
    destruct (m w1) as [r1 w1']. destruct (m w2) as [r2 w2'].
    simpl in *. subst r2 w1' w2'.
    destruct r1 as [a|ex]; [|simpl; auto].
    apply (proj2 (Hk a)); [exact E1 | exact Es].
Qed.

(** Such a computation leaves the log of queries alone. *)
Lemma rng_only_queries {A : Type} (clock : bool) (m : M A) (w : World) :
  rng_only clock m -> queries (snd (m w)) = queries w.
Proof. intros [F _]. destruct (F w) as [s ->]. reflexivity. Qed.

(** Once the generator is seeded, the outcome no longer depends on the
    world the computation starts in. *)
Lemma seeded_run {A : Type} (clock : bool) (seed : Z) (k : unit -> M A)
  (w1 w2 : World) :
  rng_only clock (k tt) ->
  (clock = true -> now w1 = now w2) ->
  fst (bind (np_random_seed seed) k w1) = fst (bind (np_random_seed seed) k w2).
Proof.
  intros [_ D] E. unfold bind, np_random_seed.
  apply (proj1 (D (set_np_state (seeded seed) w1) (set_np_state (seeded seed) w2)
                  E eq_refl)).
Qed.

End RngOnly.

Ltac rng_only_step :=
  lazymatch goal with
  | |- rng_only _ (bind _ _) => apply rng_only_bind; [|intros ?]
  | |- rng_only _ (ret _) => apply rng_only_ret
  | |- rng_only _ (lift _) => apply rng_only_lift
  | |- rng_only true datetime_now => apply rng_only_now
  | |- rng_only _ (np_random_seed _) => apply rng_only_seed
  | |- rng_only _ (np_random_normal _ _ _) => apply rng_only_random
  | |- rng_only _ (np_random_uniform _ _ _) => apply rng_only_random
  | |- rng_only _ (np_random_exponential _ _) => apply rng_only_random
  | |- rng_only _ (let '(_, _) := ?p in _) => destruct p
  end.

Section Generators.
Context `{Numpy}.

Lemma loader_synthetic_rng_only (city_name : string) (start_date end_date : datetime) :
  rng_only false (Loader._generate_synthetic_data city_name start_date end_date).
Proof. unfold Loader._generate_synthetic_data. repeat rng_only_step. Qed.

Lemma standalone_synthetic_rng_only (lat lon : Q) (days : Z) :
  rng_only true (Standalone._generate_synthetic_history lat lon days).
Proof. unfold Standalone._generate_synthetic_history. repeat rng_only_step. Qed.

(** C3. The synthetic generators are deterministic. The standalone one
    seeds numpy itself: for one location, window length and clock reading
    it returns one series, whatever the state of the generator before the
    call. The loader's draws from the global generator: seeded with one
    value before each call, it returns one series for one city and date
    window. *)
Theorem synthetic_deterministic :
  (forall (lat lon : Q) (days : Z) (w1 w2 : World),
      now w1 = now w2 ->
      fst (Standalone._generate_synthetic_history lat lon days w1)
      = fst (Standalone._generate_synthetic_history lat lon days w2))
  /\ (forall (city_name : string) (start_date end_date : datetime) (seed : Z)
             (w1 w2 : World),
        fst ((np_random_seed seed ;;;
              Loader._generate_synthetic_data city_name start_date end_date) w1)
        = fst ((np_random_seed seed ;;;
                Loader._generate_synthetic_data city_name start_date end_date) w2)).
Proof.
  split.
  - intros lat lon days w1 w2 E.
    unfold Standalone._generate_synthetic_history.
    apply (seeded_run true); [repeat rng_only_step | intros _; exact E].
  - intros city_name start_date end_date seed w1 w2.
    apply (seeded_run false);
      [apply loader_synthetic_rng_only | intros [=]].
Qed.

End Generators.

(** ** The order of the live tiers *)

Section TierOrder.
Context `{Numpy}.
Import Loader.

Variable city_name : string.
Variable info : CityInfo.
Variable days : Z.

Lemma bind_ok {A B : Type} (m : M A) (k : A -> M B) (w w' : World) (a : A) :
  m w = (Ok a, w') -> bind m k w = k a w'.
Proof. intros E. unfold bind. rewrite E. reflexivity. Qed.

Lemma bind_raise {A B : Type} (m : M A) (k : A -> M B) (w w' : World) (ex : exn) :
  m w = (Raise ex, w') -> bind m k w = (Raise ex, w').
Proof. intros E. unfold bind. rewrite E. reflexivity. Qed.

Lemma acquire_run (w : World) :
  let end_date := now w in
  let start_date := end_date - timedelta days in
  let exact := (lat info, lon info) in
  acquire city_name info days w =
    match source_of w start_date end_date exact with
    | Raise ex => (Raise ex, asked [exact] w)
    | Ok df =>
        if df_empty df then
          let (q, r) := scan (source_of w start_date end_date) (grid info) df in
          match r with
          | Ok (d, Some p) =>
              (Ok (d, NearbyStation (fst p) (snd p)), asked (exact :: q) w)
          | Ok (d, None) =>
              last_tiers city_name start_date end_date (asked (exact :: q) w)
          | Raise ex => (Raise ex, asked (exact :: q) w)
          end
        else (Ok (df, Meteostat city_name (lat info) (lon info)), asked [exact] w)
    end.
Proof.
  intros end_date start_date exact.
  unfold acquire.
  rewrite (bind_ok datetime_now _ w w end_date eq_refl).
  fold end_date. fold start_date. fold exact.
  destruct (source_of w start_date end_date exact) as [df|ex] eqn:E0.
  - rewrite (bind_ok _ _ w (asked [exact] w) df)
      by (rewrite Daily_fetch_run; rewrite E0; reflexivity).
    destruct (df_empty df) eqn:He.
    + pose proof (scan_spec (source_of w start_date end_date) (grid info) df He) as S.
      pose proof (search_lat_scan info start_date end_date offsets
                    (df, Meteostat city_name (lat info) (lon info))
                    (asked [exact] w) He) as L.
      rewrite source_of_asked in L. cbn [fst snd] in L. fold (grid info) in L.
      destruct (scan (source_of w start_date end_date) (grid info) df)
        as [q [[d [p|]]|ex]]; cbn [tagged] in L; rewrite asked_asked in L.
      * destruct S as (_ & _ & _ & _ & _ & _ & Hn).
        rewrite (bind_ok _ _ _ _ _ L). cbn [fst]. rewrite Hn. reflexivity.
      * destruct S as (_ & _ & Hd).
        rewrite (bind_ok _ _ _ _ _ L). cbn [fst]. rewrite Hd. reflexivity.
      * rewrite (bind_raise _ _ _ _ _ L). reflexivity.
    + rewrite (bind_ok _ _ (asked [exact] w) (asked [exact] w)
                 (df, Meteostat city_name (lat info) (lon info)) eq_refl).
      cbn [fst]. rewrite He. reflexivity.
  - rewrite (bind_raise _ _ w (asked [exact] w) ex)
      by (rewrite Daily_fetch_run; rewrite E0; reflexivity).
    reflexivity.
Qed.

Lemma last_tiers_hit (start_date end_date : datetime) (w : World) (dd : DataFrame) :
  source_of w start_date end_date delhi_point = Ok dd ->
  df_empty dd = false ->
  last_tiers city_name start_date end_date w
  = (Ok (dd, DelhiFallback),
     asked [delhi_point]
       (set_warnings (warnings w ++ [NoDataUsingDelhi city_name]) w)).
Proof.
  intros E He. unfold last_tiers.
  rewrite (bind_ok (st_warning (NoDataUsingDelhi city_name)) _ w _ tt eq_refl).
  rewrite (bind_ok (lift (get_city_info "Delhi")) _ _ _ delhi)
    by (unfold lift; rewrite get_city_info_delhi; reflexivity).
  rewrite (bind_ok _ _ _ _ dd)
    by (rewrite Daily_fetch_run; apply (f_equal2 pair); [exact E | reflexivity]).
  rewrite He. reflexivity.
Qed.

Lemma last_tiers_queries (start_date end_date : datetime) (w : World) :
  queries (snd (last_tiers city_name start_date end_date w)) = queries w ++ [delhi_point].
Proof.
  unfold last_tiers.
  rewrite (bind_ok (st_warning (NoDataUsingDelhi city_name)) _ w _ tt eq_refl).
  rewrite (bind_ok (lift (get_city_info "Delhi")) _ _ _ delhi)
    by (unfold lift; rewrite get_city_info_delhi; reflexivity).
  set (w1 := set_warnings (warnings w ++ [NoDataUsingDelhi city_name]) w).
  destruct (source_of w1 start_date end_date delhi_point) as [dd|ex] eqn:E.
  - rewrite (bind_ok _ _ w1 (asked [delhi_point] w1) dd)
      by (rewrite Daily_fetch_run; apply (f_equal2 pair); [exact E | reflexivity]).
    destruct (df_empty dd); [|reflexivity].
    rewrite (bind_ok (st_warning MeteostatUnavailable) _ _ _ tt eq_refl).
    pose proof (loader_synthetic_rng_only city_name start_date end_date) as R.
    match goal with
    | |- queries (snd (bind _ _ ?w2)) = _ =>
        pose proof (rng_only_queries false _ w2 R) as Q;
        destruct (proj1 R w2) as [s F]
    end.
    unfold bind.
    destruct (_generate_synthetic_data city_name start_date end_date _)
      as [[df|ex] w3]; simpl in Q |- *; rewrite Q; reflexivity.
  - rewrite (bind_raise _ _ w1 (asked [delhi_point] w1) ex)
      by (rewrite Daily_fetch_run; apply (f_equal2 pair); [exact E | reflexivity]).
    reflexivity.
Qed.

(** The live tiers of [acquire]. When the live source has no data at the
    city and at every nearby point but has data at Delhi, the tiers return
    the Delhi series with the Delhi-fallback tag, after asking every tier
    in order and raising the fallback notice. In every run the points
    asked are an initial part of the tier list (the city, the nearby
    points, Delhi); every point asked but the last had no data; the
    search stops before the end of the list only where the source did not
    answer with an empty frame; and data found at the last point asked is
    what the tiers return. *)
Lemma acquire_tiers (w : World) :
  let end_date := now w in
  let start_date := end_date - timedelta days in
  (forall delhi_df : DataFrame,
      Forall (quiet w start_date end_date) ((lat info, lon info) :: grid info) ->
      meteostat w delhi_point start_date end_date = Ok delhi_df ->
      df_empty delhi_df = false ->
      acquire city_name info days w
      = (Ok (delhi_df, DelhiFallback),
         set_warnings (warnings w ++ [NoDataUsingDelhi city_name])
           (set_queries (queries w ++ tiers info) w)))
  /\ (exists pre p post,
        tiers info = pre ++ p :: post
        /\ queries (snd (acquire city_name info days w)) = queries w ++ pre ++ [p]
        /\ Forall (quiet w start_date end_date) pre
        /\ (post <> [] -> ~ quiet w start_date end_date p)
        /\ (forall d : DataFrame,
              meteostat w p start_date end_date = Ok d ->
              df_empty d = false ->
              exists tag, fst (acquire city_name info days w) = Ok (d, tag))).
Proof.
  intros end_date start_date.
  pose proof (acquire_run w) as R. cbv zeta in R.
  fold end_date in R. fold start_date in R.
  set (exact := (lat info, lon info)) in *.
  set (src := source_of w start_date end_date) in *.
  split.
  - intros delhi_df Hq Hd Hn.
    apply Forall_cons_iff in Hq. destruct Hq as [(d0 & E0 & He0) Hg].
    destruct (scan_silent src (grid info) d0 Hg He0) as (d1 & Sc & He1).
    fold src in E0. rewrite E0, He0, Sc in R. rewrite R.
    rewrite (last_tiers_hit start_date end_date (asked (exact :: grid info) w)
               delhi_df Hd Hn).
    apply (f_equal2 pair); [reflexivity|].
    unfold asked, set_warnings, set_queries, tiers. simpl.
    rewrite <- app_assoc. reflexivity.
  - destruct (src exact) as [df|ex] eqn:E0.
    + destruct (df_empty df) eqn:He.
      * pose proof (scan_spec src (grid info) df He) as S.
        destruct (scan src (grid info) df) as [q [[d [p|]]|ex]].
        -- destruct S as (pre & post & Eg & -> & Hpre & Ep & Hn).
           exists (exact :: pre), p, (post ++ [delhi_point]).
           rewrite R. unfold tiers. fold exact. rewrite Eg.
           split; [simpl; rewrite <- app_assoc; reflexivity|].
           split; [reflexivity|].
           split; [constructor; [exists df; auto | exact Hpre]|].
           split.
           ++ intros _ (d' & Ed' & He'). change (src p = Ok d') in Ed'.
              congruence.
           ++ intros d' Ed' _. change (src p = Ok d') in Ed'. exists (NearbyStation (fst p) (snd p)).
              simpl. congruence.
        -- destruct S as (-> & Hall & Hd).
           exists (exact :: grid info), delhi_point, [].
           rewrite R. split; [reflexivity|].
           split; [rewrite last_tiers_queries; simpl; rewrite <- app_assoc; reflexivity|].
           split; [constructor; [exists df; auto | exact Hall]|].
           split; [intros C; contradiction|].
           intros d' Ed' Hn'. exists DelhiFallback.
           rewrite (last_tiers_hit start_date end_date (asked (exact :: grid info) w)
                      d' Ed' Hn').
           reflexivity.
        -- destruct S as (pre & p & post & Eg & -> & Hpre & Ep).
           exists (exact :: pre), p, (post ++ [delhi_point]).
           rewrite R. unfold tiers. fold exact. rewrite Eg.
           split; [simpl; rewrite <- app_assoc; reflexivity|].
           split; [reflexivity|].
           split; [constructor; [exists df; auto | exact Hpre]|].
           split.
           ++ intros _ (d' & Ed' & He'). change (src p = Ok d') in Ed'.
              congruence.
           ++ intros d' Ed' _. change (src p = Ok d') in Ed'. congruence.
      * exists [], exact, (grid info ++ [delhi_point]). rewrite R.
        split; [reflexivity|]. split; [reflexivity|]. split; [constructor|].
        split.
        -- intros _ (d' & Ed' & He'). change (src exact = Ok d') in Ed'.
           congruence.
        -- intros d' Ed' _. change (src exact = Ok d') in Ed'.
           exists (Meteostat city_name (lat info) (lon info)). simpl. congruence.
    + exists [], exact, (grid info ++ [delhi_point]). rewrite R.
      split; [reflexivity|]. split; [reflexivity|]. split; [constructor|].
      split.
      * intros _ (d' & Ed' & He'). change (src exact = Ok d') in Ed'.
        congruence.
      * intros d' Ed' _. change (src exact = Ok d') in Ed'. congruence.
Qed.

End TierOrder.

(** ** The synthetic generators *)

Lemma clip_range (lo hi x : Q) :
  (lo <= hi)%Q -> (lo <= clip lo hi x /\ clip lo hi x <= hi)%Q.
Proof.
  intros Hb. unfold clip, Qltb.
  destruct (Qle_bool lo x) eqn:E1; simpl.
  - apply Qle_bool_iff in E1.
    destruct (Qle_bool x hi) eqn:E2; simpl.
    + apply Qle_bool_iff in E2. auto.
    + split; [exact Hb | apply Qle_refl].
  - split; [apply Qle_refl | exact Hb].
Qed.

Lemma rint_range (a b : Z) (q : Q) :
  (inject_Z a <= q)%Q -> (q <= inject_Z b)%Q -> a <= rint q <= b.
Proof.
  intros Ha Hb.
  assert (Hfa : a <= Qfloor q).
  { rewrite <- (Qfloor_Z a). apply Qfloor_resp_le. exact Ha. }
  assert (Hfb : Qfloor q <= b).
  { rewrite <- (Qfloor_Z b). apply Qfloor_resp_le. exact Hb. }
  assert (Hup : (0 < q - inject_Z (Qfloor q))%Q -> Qfloor q + 1 <= b).
  { intros Hpos.
    assert (Hlt : (inject_Z (Qfloor q) < inject_Z b)%Q).
    { apply Qlt_le_trans with q; [|exact Hb]. lra. }
    rewrite <- Zlt_Qlt in Hlt. lia. }
  unfold rint.
  destruct (Qcompare (q - inject_Z (Qfloor q)) (1 # 2)) eqn:C.
  - apply Qeq_alt in C.
    destruct (Z.even (Qfloor q)); [lia|].
    split; [lia|]. apply Hup. rewrite C. reflexivity.
  - lia.
  - apply Qgt_alt in C. split; [lia|]. apply Hup. lra.
Qed.

Lemma round1_range (a b : Z) (x : Q) :
  (inject_Z a <= x * 10)%Q -> (x * 10 <= inject_Z b)%Q ->
  (inject_Z a <= round1 x * 10 /\ round1 x * 10 <= inject_Z b)%Q.
Proof.
  intros Ha Hb. unfold round1, Qdiv. change (/ 10)%Q with (1 # 10)%Q.
  destruct (rint_range a b (x * 10)%Q Ha Hb) as [H1 H2].
  rewrite Zle_Qle in H1, H2. split; lra.
Qed.

(** A rounded clipped value stays between bounds that are whole numbers. *)
Lemma rounded_clip_in_range (lo hi : Z) (raw : list Q) :
  lo <= hi ->
  Forall (in_range (inject_Z lo) (inject_Z hi))
    (rounded (map (clip (inject_Z lo) (inject_Z hi)) raw)).
Proof.
  intros Hb. unfold rounded. rewrite map_map. apply Forall_map.
  apply Forall_forall. intros x _. simpl.
  assert (Hq : (inject_Z lo <= inject_Z hi)%Q) by (rewrite <- Zle_Qle; exact Hb).
  destruct (clip_range (inject_Z lo) (inject_Z hi) x Hq) as [C1 C2].
  destruct (round1_range (lo * 10) (hi * 10) (clip (inject_Z lo) (inject_Z hi) x))
    as [R1 R2].
  - rewrite inject_Z_mult. change (inject_Z 10) with 10%Q. lra.
  - rewrite inject_Z_mult. change (inject_Z 10) with 10%Q. lra.
  - rewrite inject_Z_mult in R1, R2. change (inject_Z 10) with 10%Q in R1, R2.
    split; lra.
Qed.

Lemma draws_length {S : Type} (gen : S -> Q * S) (n : nat) (s : S) :
  List.length (fst (draws gen n s)) = n.
Proof.
  revert s. induction n as [|n IH]; intros s; simpl; [reflexivity|].
  destruct (gen s) as [x s1]. specialize (IH s1).
  destruct (draws gen n s1) as [xs s2]. simpl in *. rewrite IH. reflexivity.
Qed.

Lemma zip_with_length {A B C : Type} (f : A -> B -> C) (l1 : list A) (l2 : list B)
  (n : nat) :
  List.length l1 = n -> List.length l2 = n -> List.length (zip_with f l1 l2) = n.
Proof.
  intros E1 E2. unfold zip_with.
  rewrite length_map, length_combine, E1, E2. apply Nat.min_id.
Qed.

Lemma rounded_length (a : list Q) : List.length (rounded a) = List.length a.
Proof. unfold rounded. apply length_map. Qed.

Lemma rounded_complete (a : list Q) : complete (rounded a) = true.
Proof. unfold rounded, complete. induction a; simpl; auto. Qed.

Lemma date_range_window (end_date days : Z) :
  0 <= days ->
  date_range (end_date - timedelta days) end_date
  = map (fun i => end_date - timedelta days + timedelta (Z.of_nat i))
        (seq 0 (Z.to_nat days + 1)).
Proof.
  intros Hd. unfold date_range.
  assert (Hle : (end_date <? end_date - timedelta days) = false).
  { apply Z.ltb_ge. unfold timedelta, us_per_day. lia. }
  rewrite Hle.
  replace ((end_date - (end_date - timedelta days)) / us_per_day) with days;
    [reflexivity|].
  unfold timedelta. replace (end_date - (end_date - days * us_per_day))
    with (days * us_per_day) by lia.
  symmetry. apply Z.div_mul. discriminate.
Qed.

Section GeneratorShape.
Context `{Numpy}.

Lemma np_random_ok (gen : RandomState -> Q * RandomState) (f : Q -> Q)
  (size : Z) (w : World) :
  0 <= size ->
  exists xs s,
    np_random gen f size w = (Ok xs, set_np_state s w)
    /\ List.length xs = Z.to_nat size.
Proof.
  intros Hs. unfold np_random.
  assert (E : (size <? 0) = false) by (apply Z.ltb_ge; exact Hs). rewrite E.
  pose proof (draws_length gen (Z.to_nat size) (np_state w)) as L.
  destruct (draws gen (Z.to_nat size) (np_state w)) as [xs s].
  exists (map f xs), s. split; [reflexivity|].
  rewrite length_map. exact L.
Qed.

Lemma np_random_negative (gen : RandomState -> Q * RandomState) (f : Q -> Q)
  (size : Z) (w : World) :
  size < 0 ->
  np_random gen f size w
  = (Raise (ValueError "negative dimensions are not allowed"), w).
Proof.
  intros Hs. unfold np_random.
  assert (E : (size <? 0) = true) by (apply Z.ltb_lt; exact Hs). rewrite E.
  reflexivity.
Qed.

End GeneratorShape.

(** One draw of [size] numbers, named, with its length. *)
Ltac draw_with xs L c size k w :=
  let s := fresh "s" in
  let E := fresh "E" in
  assert (exists xs s,
             c w = (Ok xs, set_np_state s w) /\ List.length xs = Z.to_nat size)
    as (xs & s & E & L) by (apply np_random_ok; lia);
  rewrite (bind_ok c k w _ xs E).

Ltac draw_step xs L :=
  cbv beta zeta;
  lazymatch goal with
  | |- context [bind (np_random_normal ?a ?b ?size) ?k ?w] =>
      draw_with xs L (np_random_normal a b size) size k w
  | |- context [bind (np_random_uniform ?a ?b ?size) ?k ?w] =>
      draw_with xs L (np_random_uniform a b size) size k w
  | |- context [bind (np_random_exponential ?a ?size) ?k ?w] =>
      draw_with xs L (np_random_exponential a size) size k w
  end.

Ltac solve_lengths :=
  repeat first
    [ assumption | reflexivity | rewrite length_map | apply zip_with_length ].

Section GeneratorOutput.
Context `{Numpy}.

(** The frame that the loader's generator builds for a city it knows. *)
Lemma loader_synthetic_shape (city_name : string) (info : CityInfo)
  (start_date end_date : datetime) (w : World) :
  get_city_info city_name = Ok info ->
  let n := List.length (date_range start_date end_date) in
  exists a_avg a_min a_max raw a_wind a_pres w',
    Loader._generate_synthetic_data city_name start_date end_date w
    = (Ok (mkDataFrame (date_range start_date end_date)
             (rounded a_avg) (rounded a_min) (rounded a_max)
             (rounded (map (clip 0 150) raw)) (rounded a_wind) (rounded a_pres)),
       w')
    /\ List.length a_avg = n /\ List.length a_min = n /\ List.length a_max = n
    /\ List.length raw = n /\ List.length a_wind = n /\ List.length a_pres = n.
Proof.
  intros E n. unfold Loader._generate_synthetic_data.
  rewrite (bind_ok (lift (get_city_info city_name)) _ w w info)
    by (unfold lift; rewrite E; reflexivity).
  destruct (Loader.climate_zone _ _) as [base_temp temp_variation].
  fold n.
  draw_step x_noise Ln. draw_step x_up Lu. draw_step x_down Ld.
  draw_step x_exp Le. draw_step x_wind Lw. draw_step x_pres Lp.
  rewrite Nat2Z.id in *.
  do 7 eexists. split; [reflexivity|].
  repeat split; solve_lengths.
Qed.

Lemma loader_synthetic_unknown (city_name : string) (e : exn)
  (start_date end_date : datetime) (w : World) :
  get_city_info city_name = Raise e ->
  Loader._generate_synthetic_data city_name start_date end_date w = (Raise e, w).
Proof.
  intros E. unfold Loader._generate_synthetic_data.
  apply bind_raise. unfold lift. rewrite E. reflexivity.
Qed.

Lemma range_down_length (days : Z) : List.length (range_down days) = Z.to_nat days.
Proof. unfold range_down. rewrite length_map, length_seq. reflexivity. Qed.

(** The frame that the standalone generator builds. *)
Lemma standalone_synthetic_shape (lat lon : Q) (days : Z) (w : World) :
  0 <= days ->
  let n := Z.to_nat days in
  exists a_avg a_min a_max raw a_wind a_pres w',
    Standalone._generate_synthetic_history lat lon days w
    = (Ok (mkDataFrame (map (fun i => now w - timedelta i) (range_down days))
             (rounded a_avg) (rounded a_min) (rounded a_max)
             (rounded (map (clip 0 50) raw)) (rounded a_wind) (rounded a_pres)),
       w')
    /\ List.length a_avg = n /\ List.length a_min = n /\ List.length a_max = n
    /\ List.length raw = n /\ List.length a_wind = n /\ List.length a_pres = n.
Proof.
  intros Hd n. unfold Standalone._generate_synthetic_history.
  rewrite (bind_ok (np_random_seed 42) _ w _ tt eq_refl).
  destruct (Standalone.climate_zone lat) as [base_temp temp_variation].
  cbv beta.
  rewrite (bind_ok datetime_now _ (set_np_state (seeded 42) w) _ (now w) eq_refl).
  draw_step x_steps Ls. draw_step x_noise Ln. draw_step x_down Ld.
  draw_step x_up Lu. draw_step x_exp Le. draw_step x_uni Lw.
  draw_step x_gauss Lg. draw_step x_pres Lp.
  fold n in Ls, Ln, Ld, Lu, Le, Lw, Lg, Lp.
  pose proof (range_down_length days) as Lr. fold n in Lr.
  do 7 eexists. split; [reflexivity|].
  repeat split; solve_lengths.
  all: unfold cumsum.
  all: try (clear - Ls; revert Ls; generalize 0%Q; generalize n;
            induction x_steps as [|x t IH]; intros m q <-; simpl;
            [reflexivity | rewrite (IH _ (q + x)%Q eq_refl); reflexivity]).
Qed.

Lemma standalone_synthetic_negative (lat lon : Q) (days : Z) (w : World) :
  days < 0 ->
  fst (Standalone._generate_synthetic_history lat lon days w)
  = Raise (ValueError "negative dimensions are not allowed").
Proof.
  intros Hd. unfold Standalone._generate_synthetic_history.
  rewrite (bind_ok (np_random_seed 42) _ w _ tt eq_refl).
  destruct (Standalone.climate_zone lat) as [base_temp temp_variation].
  cbv beta.
  rewrite (bind_ok datetime_now _ (set_np_state (seeded 42) w) _ (now w) eq_refl).
  cbv beta zeta.
  erewrite bind_raise; [reflexivity|].
  apply np_random_negative. exact Hd.
Qed.

Lemma metrics_complete (dates : list datetime) (a1 a2 a3 a4 a5 a6 : list Q)
  (n : nat) :
  List.length dates = n ->
  List.length a1 = n -> List.length a2 = n -> List.length a3 = n ->
  List.length a4 = n -> List.length a5 = n -> List.length a6 = n ->
  let df := mkDataFrame dates (rounded a1) (rounded a2) (rounded a3)
              (rounded a4) (rounded a5) (rounded a6) in
  df_len df = n
  /\ Forall (fun c => List.length c = df_len df /\ complete c = true) (metrics df).
Proof.
  intros L0 L1 L2 L3 L4 L5 L6 df. split; [exact L0|].
  unfold metrics, df_len. simpl. rewrite L0.
  repeat constructor; try apply rounded_complete;
    rewrite rounded_length; assumption.
Qed.

(** C2, as the code has it. For a city of the registry and a window of
    [days] days, the loader's generator returns one row for each day of
    [end_date - days .. end_date], both ends included, which makes
    [days + 1] rows; the standalone generator returns [days] rows, one
    for each of the [days] days that end now. In both, no metric of any
    row is missing. *)
Theorem synthetic_row_count :
  (forall (city_name : string) (info : CityInfo) (end_date days : Z) (w : World),
      get_city_info city_name = Ok info ->
      0 < days ->
      exists df w',
        Loader._generate_synthetic_data city_name
          (end_date - timedelta days) end_date w = (Ok df, w')
        /\ df_len df = (Z.to_nat days + 1)%nat
        /\ time df
           = map (fun i => end_date - timedelta days + timedelta (Z.of_nat i))
                 (seq 0 (Z.to_nat days + 1))
        /\ Forall (fun c => List.length c = df_len df /\ complete c = true)
             (metrics df))
  /\ (forall (lat lon : Q) (days : Z) (w : World),
        0 < days ->
        exists df w',
          Standalone._generate_synthetic_history lat lon days w = (Ok df, w')
          /\ df_len df = Z.to_nat days
          /\ time df
             = map (fun i => now w - timedelta (days - 1 - Z.of_nat i))
                   (seq 0 (Z.to_nat days))
          /\ Forall (fun c => List.length c = df_len df /\ complete c = true)
               (metrics df)).
Proof.
  split.
  - intros city_name info end_date days w E Hd.
    destruct (loader_synthetic_shape city_name info
                (end_date - timedelta days) end_date w E)
      as (a1 & a2 & a3 & raw & a5 & a6 & w' & R & L1 & L2 & L3 & L4 & L5 & L6).
    assert (Ln : List.length (date_range (end_date - timedelta days) end_date)
                 = (Z.to_nat days + 1)%nat).
    { rewrite date_range_window by lia. rewrite length_map, length_seq. reflexivity. }
    rewrite Ln in L1, L2, L3, L4, L5, L6.
    rewrite <- (length_map (clip 0 150)) in L4.
    destruct (metrics_complete _ _ _ _ _ _ _ _ Ln L1 L2 L3 L4 L5 L6) as [D M].
    eexists. exists w'. split; [exact R|]. split; [exact D|].
    split; [|exact M]. simpl. apply date_range_window. lia.
  - intros lat lon days w Hd.
    destruct (standalone_synthetic_shape lat lon days w ltac:(lia))
      as (a1 & a2 & a3 & raw & a5 & a6 & w' & R & L1 & L2 & L3 & L4 & L5 & L6).
    pose proof (range_down_length days) as Lr.
    rewrite <- (length_map (fun i => now w - timedelta i)) in Lr.
    rewrite <- (length_map (clip 0 50)) in L4.
    destruct (metrics_complete _ _ _ _ _ _ _ _ Lr L1 L2 L3 L4 L5 L6) as [D M].
    eexists. exists w'. split; [exact R|]. split; [exact D|].
    split; [|exact M]. simpl. unfold range_down. rewrite map_map. reflexivity.
Qed.

(** C9. Every precipitation value of a synthetic series lies in
    [[0, 150]], in the loader's generator and in the standalone one. *)
Theorem synthetic_precipitation_range :
  (forall (city_name : string) (start_date end_date : datetime)
          (w w' : World) (df : DataFrame),
      Loader._generate_synthetic_data city_name start_date end_date w = (Ok df, w') ->
      Forall (in_range 0 150) (prcp df))
  /\ (forall (lat lon : Q) (days : Z) (w w' : World) (df : DataFrame),
        Standalone._generate_synthetic_history lat lon days w = (Ok df, w') ->
        Forall (in_range 0 150) (prcp df)).
Proof.
  split.
  - intros city_name start_date end_date w w' df R.
    destruct (get_city_info city_name) as [info|e] eqn:E.
    + destruct (loader_synthetic_shape city_name info start_date end_date w E)
        as (a1 & a2 & a3 & raw & a5 & a6 & w1 & R1 & _).
      rewrite R1 in R. injection R as <- _. simpl.
      apply (rounded_clip_in_range 0 150). lia.
    + rewrite (loader_synthetic_unknown city_name e start_date end_date w E) in R.
      discriminate.
  - intros lat lon days w w' df R.
    destruct (Z.lt_ge_cases days 0) as [Hn|Hp].
    + pose proof (standalone_synthetic_negative lat lon days w Hn) as N.
      rewrite R in N. discriminate.
    + destruct (standalone_synthetic_shape lat lon days w Hp)
        as (a1 & a2 & a3 & raw & a5 & a6 & w1 & R1 & _).
      rewrite R1 in R. injection R as <- _. simpl.
      apply (@List.Forall_impl _ (in_range 0 50) (in_range 0 150));
        [|apply (rounded_clip_in_range 0 50); lia].
      intros [v|]; simpl; [|tauto].
      intros [A B]. split; [exact A|]. lra.
Qed.

End GeneratorOutput.

(** ** Filling the missing values of a column *)

Lemma fillna_length (d : Q) (c : list (option Q)) :
  List.length (fillna d c) = List.length c.
Proof. unfold fillna. apply length_map. Qed.

Lemma ffill_from_length (last : option Q) (c : list (option Q)) :
  List.length (ffill_from last c) = List.length c.
Proof.
  revert last. induction c as [|[v|] t IH]; intros last; simpl;
    [reflexivity | rewrite IH; reflexivity | rewrite IH; reflexivity].
Qed.

Lemma bfill_length (c : list (option Q)) : List.length (bfill c) = List.length c.
Proof.
  induction c as [|[v|] t IH]; simpl; [reflexivity | rewrite IH; reflexivity |].
  rewrite IH. reflexivity.
Qed.

Lemma fillna_complete (d : Q) (c : list (option Q)) : complete (fillna d c) = true.
Proof. induction c as [|[v|] t IH]; simpl; auto. Qed.

Lemma fillna_keep (d : Q) (c : list (option Q)) (i : nat) (v : Q) :
  c !! i = Some (Some v) -> fillna d c !! i = Some (Some v).
Proof.
  revert i. induction c as [|x t IH]; intros [|i]; simpl; try discriminate.
  - intros [= ->]. reflexivity.
  - apply IH.
Qed.

Lemma fillna_missing (d : Q) (c : list (option Q)) (i : nat) :
  c !! i = Some None -> fillna d c !! i = Some (Some d).
Proof.
  revert i. induction c as [|x t IH]; intros [|i]; simpl; try discriminate.
  - intros [= ->]. reflexivity.
  - apply IH.
Qed.

Lemma ffill_from_keep (last : option Q) (c : list (option Q)) (i : nat) (v : Q) :
  c !! i = Some (Some v) -> ffill_from last c !! i = Some (Some v).
Proof.
  revert last i. induction c as [|[x|] t IH]; intros last [|i]; simpl;
    try discriminate; try (intros [= ->]; reflexivity); apply IH.
Qed.

Lemma bfill_keep (c : list (option Q)) (i : nat) (v : Q) :
  c !! i = Some (Some v) -> bfill c !! i = Some (Some v).
Proof.
  revert i. induction c as [|[x|] t IH]; intros [|i]; simpl;
    try discriminate; try (intros [= ->]; reflexivity); apply IH.
Qed.

Lemma repeat_lookup {A : Type} (x : A) (n i : nat) (l : list A) :
  (i < n)%nat -> (repeat x n ++ l) !! i = Some x.
Proof.
  revert i. induction n as [|n IH]; intros i Hi; [lia|].
  destruct i as [|i]; simpl; [reflexivity|]. apply IH. lia.
Qed.

Lemma all_missing_repeat (c : list (option Q)) :
  all_missing c -> c = repeat None (List.length c).
Proof.
  induction 1 as [|x t -> _ IH]; simpl; [reflexivity|]. rewrite <- IH. reflexivity.
Qed.

Lemma ffill_gap (last : option Q) (gap post : list (option Q)) :
  all_missing gap ->
  ffill_from last (gap ++ post)
  = repeat last (List.length gap) ++ ffill_from last post.
Proof.
  induction 1 as [|x t -> _ IH]; simpl; [reflexivity|]. rewrite IH. reflexivity.
Qed.

Lemma bfill_gap (gap t : list (option Q)) (v : Q) :
  all_missing gap ->
  bfill (gap ++ Some v :: t) = repeat (Some v) (List.length gap) ++ Some v :: bfill t.
Proof.
  induction 1 as [|x g -> _ IH]; simpl; [reflexivity|].
  rewrite IH. destruct (List.length g); reflexivity.
Qed.

Lemma all_missing_repeat_none (n : nat) : all_missing (repeat (@None Q) n).
Proof. induction n; simpl; constructor; auto. Qed.

Lemma repeat_length_eq {A : Type} (x : A) (n : nat) : List.length (repeat x n) = n.
Proof. induction n; simpl; auto. Qed.

Lemma ffill_from_some_complete (v : Q) (c : list (option Q)) :
  complete (ffill_from (Some v) c) = true.
Proof.
  revert v. induction c as [|[x|] t IH]; intros v; simpl; auto.
Qed.

Lemma bfill_complete_id (c : list (option Q)) : complete c = true -> bfill c = c.
Proof.
  induction c as [|[x|] t IH]; simpl; intros Hc; try discriminate; [reflexivity|].
  rewrite (IH Hc). reflexivity.
Qed.

Lemma fillna_complete_id (d : Q) (c : list (option Q)) :
  complete c = true -> fillna d c = c.
Proof.
  induction c as [|[x|] t IH]; simpl; intros Hc; try discriminate; [reflexivity|].
  rewrite (IH Hc). reflexivity.
Qed.

Lemma complete_app (l1 l2 : list (option Q)) :
  complete l1 = true -> complete l2 = true -> complete (l1 ++ l2) = true.
Proof. unfold complete. intros H1 H2. rewrite forallb_app, H1, H2. reflexivity. Qed.

Lemma complete_repeat (v : Q) (n : nat) : complete (repeat (Some v) n) = true.
Proof. induction n; simpl; auto. Qed.

(** A column with a value splits at its first value. *)
Lemma first_observed (c : list (option Q)) :
  notna_any c = true ->
  exists gap v post, c = gap ++ Some v :: post /\ all_missing gap.
Proof.
  induction c as [|[x|] t IH]; simpl; intros Hn; try discriminate.
  - exists [], x, t. split; [reflexivity | constructor].
  - destruct (IH Hn) as (gap & v & post & -> & Hg).
    exists (None :: gap), v, post. split; [reflexivity | constructor; auto].
Qed.

Lemma notna_any_all_missing (c : list (option Q)) :
  all_missing c -> notna_any c = false.
Proof. induction 1 as [|x t -> _ IH]; simpl; auto. Qed.

(** Forward then backward filling of a column that has a value. *)
Lemma bfill_ffill_observed (gap post : list (option Q)) (v : Q) :
  all_missing gap ->
  bfill (ffill (gap ++ Some v :: post))
  = repeat (Some v) (List.length gap) ++ Some v :: ffill_from (Some v) post.
Proof.
  intros Hg. unfold ffill. rewrite (ffill_gap None gap _ Hg). simpl.
  rewrite (bfill_gap (repeat None (List.length gap)) _ v (all_missing_repeat_none _)).
  rewrite repeat_length_eq.
  rewrite (bfill_complete_id _ (ffill_from_some_complete v post)). reflexivity.
Qed.

Lemma bfill_ffill_complete (c : list (option Q)) :
  notna_any c = true -> complete (bfill (ffill c)) = true.
Proof.
  intros Hn. destruct (first_observed c Hn) as (gap & v & post & -> & Hg).
  rewrite (bfill_ffill_observed gap post v Hg).
  apply complete_app; [apply complete_repeat|].
  simpl. apply ffill_from_some_complete.
Qed.

Lemma bfill_ffill_all_missing (c : list (option Q)) :
  all_missing c -> bfill (ffill c) = c.
Proof.
  intros Hc. unfold ffill.
  pose proof (ffill_gap None c [] Hc) as F. simpl in F.
  rewrite !app_nil_r in F. rewrite F, <- (all_missing_repeat c Hc).
  clear F. induction Hc as [|x t -> Ht IH]; simpl; [reflexivity|].
  rewrite IH. destruct Ht as [|y t' -> _]; reflexivity.
Qed.

Lemma ffill_from_in (last : option Q) (c : list (option Q)) (x : option Q) :
  In x (ffill_from last c) -> x = last \/ In x c.
Proof.
  revert last. induction c as [|[v|] t IH]; intros last; simpl; [tauto| |].
  - intros [<-|Hx]; [auto|]. destruct (IH _ Hx) as [->|Ht]; auto.
  - intros [<-|Hx]; [auto|]. destruct (IH _ Hx) as [->|Ht]; auto.
Qed.

Lemma carry_forward (pre gap post : list (option Q)) (v : Q) (last : option Q)
  (i : nat) :
  all_missing gap -> (i < List.length gap)%nat ->
  ffill_from last (pre ++ Some v :: gap ++ post) !! (List.length pre + 1 + i)%nat
  = Some (Some v).
Proof.
  intros Hg Hi. revert last. induction pre as [|[x|] pre IH]; intros last.
  - simpl. rewrite (ffill_gap (Some v) gap post Hg). apply repeat_lookup. exact Hi.
  - simpl. apply IH.
  - simpl. apply IH.
Qed.

(** What [fillna d (bfill (ffill c))] does to a column, but for the value
    that fills a column without any value. *)
Lemma fill_neighbours (d d' : Q) (c : list (option Q)) :
  (all_missing c -> d = d') ->
  filled_by_neighbours d' c (fillna d (bfill (ffill c))).
Proof.
  intros Hd. unfold filled_by_neighbours.
  split; [rewrite fillna_length, bfill_length; apply ffill_from_length|].
  split; [apply fillna_complete|].
  split; [intros i v E; apply fillna_keep, bfill_keep, ffill_from_keep; exact E|].
  split.
  { intros pre gap post v i -> Hg Hi.
    apply fillna_keep, bfill_keep. apply carry_forward; assumption. }
  split.
  { intros gap post v i -> Hg Hi. apply fillna_keep.
    rewrite (bfill_ffill_observed gap post v Hg). apply repeat_lookup. exact Hi. }
  split.
  { intros Hn x Hx.
    rewrite (fillna_complete_id d _ (bfill_ffill_complete c Hn)) in Hx.
    destruct (first_observed c Hn) as (gap & v & post & -> & Hg).
    rewrite (bfill_ffill_observed gap post v Hg) in Hx.
    apply in_app_iff in Hx. apply in_app_iff.
    destruct Hx as [Hx|[<-|Hx]].
    - apply repeat_spec in Hx. subst x. right. left. reflexivity.
    - right. left. reflexivity.
    - apply ffill_from_in in Hx. destruct Hx as [->|Hx];
        right; [left; reflexivity | right; exact Hx]. }
  intros Hc. rewrite (bfill_ffill_all_missing c Hc), (Hd Hc).
  clear Hd. induction Hc as [|x t -> _ IH]; simpl; [reflexivity|].
  rewrite IH. reflexivity.
Qed.

Lemma fill_temperature_spec (c : list (option Q)) :
  filled_by_neighbours 25.0 c (Standalone.fill_temperature c).
Proof. apply fill_neighbours. reflexivity. Qed.

Lemma fill_wind_pressure_spec (default : Q) (c : list (option Q)) :
  filled_by_neighbours default c (Standalone.fill_wind_pressure default c).
Proof.
  unfold Standalone.fill_wind_pressure. apply fill_neighbours.
  intros Hc. rewrite (bfill_ffill_all_missing c Hc).
  rewrite (notna_any_all_missing c Hc). reflexivity.
Qed.

Lemma scan_hit (src : Q * Q -> Result DataFrame) (pre post : list (Q * Q))
  (p : Q * Q) (d df0 : DataFrame) :
  Forall (silent src) pre -> src p = Ok d -> df_empty d = false ->
  scan src (pre ++ p :: post) df0 = (pre ++ [p], Ok (d, Some p)).
Proof.
  intros Hpre Hp Hn. revert df0.
  induction Hpre as [|x t (dx & Ex & Hx) _ IH]; intros df0; simpl.
  - rewrite Hp, Hn. reflexivity.
  - rewrite Ex, Hx, IH. reflexivity.
Qed.

Section StandaloneFetch.
Context `{Numpy}.

Lemma try_except_ok {A : Type} (m : M A) (h : exn -> M A) (w w' : World) (a : A) :
  m w = (Ok a, w') -> try_except m h w = (Ok a, w').
Proof. intros E. unfold try_except. rewrite E. reflexivity. Qed.

Lemma try_nearby_scan (lat lon : Q) (start_date end_date : datetime)
  (offs : list Q) (df : DataFrame) (w : World) :
  Standalone.try_nearby lat lon start_date end_date offs df w =
    let (q, r) :=
      scan (source_of w start_date end_date)
        (map (fun offset => (lat + offset, lon + offset)%Q) offs) df in
    (match r with Ok (d, _) => Ok d | Raise ex => Raise ex end, asked q w).
Proof.
  revert df w. induction offs as [|o rest IH]; intros df w.
  - simpl. rewrite asked_nil. reflexivity.
  - cbn [Standalone.try_nearby map scan]. unfold bind.
    rewrite Daily_fetch_run.
    destruct (source_of w start_date end_date (lat + o, lon + o)%Q) as [d|ex];
      [|reflexivity].
    destruct (df_empty d); cbn [negb]; [|reflexivity].
    rewrite IH, source_of_asked.
    destruct (scan _ _ d) as [q r]. rewrite asked_asked. reflexivity.
Qed.

(** The standalone acquisition returns the filled frame of the first tier
    that has data. *)
Lemma standalone_fetch_live (lat lon : Q) (days : Z) (w : World)
  (pre post : list (Q * Q)) (p : Q * Q) (d : DataFrame) :
  let end_date := now w in
  let start_date := end_date - timedelta days in
  standalone_tiers lat lon = pre ++ p :: post ->
  Forall (quiet w start_date end_date) pre ->
  meteostat w p start_date end_date = Ok d ->
  df_empty d = false ->
  fst (Standalone._fetch_from_meteostat lat lon days w)
  = Ok (Standalone.fill_missing d).
Proof.
  intros end_date start_date Et Hpre Hp Hn.
  unfold Standalone._fetch_from_meteostat.
  set (src := source_of w start_date end_date).
  match goal with
  | |- fst (try_except ?m ?h w) = _ =>
      assert (R : exists w', m w = (Ok (Standalone.fill_missing d), w'))
  end.
  { rewrite (bind_ok datetime_now _ w w end_date eq_refl).
    fold start_date.
    destruct pre as [|p0 pre'].
    - injection Et as <- _.
      rewrite (bind_ok _ _ w (asked [(lat, lon)] w) d)
        by (rewrite Daily_fetch_run; apply (f_equal2 pair); [exact Hp | reflexivity]).
      rewrite Hn.
      rewrite (bind_ok (ret d) _ _ _ d eq_refl). rewrite Hn.
      eexists. reflexivity.
    - injection Et as <- Et.
      apply Forall_cons_iff in Hpre. destruct Hpre as [(d0 & E0 & He0) Hpre].
      rewrite (bind_ok _ _ w (asked [(lat, lon)] w) d0)
        by (rewrite Daily_fetch_run; apply (f_equal2 pair); [exact E0 | reflexivity]).
      rewrite He0.
      pose proof (try_nearby_scan lat lon start_date end_date
                    [0.5; 1.0; -0.5; -1.0]%Q d0 (asked [(lat, lon)] w)) as T.
      rewrite source_of_asked in T. fold src in T. cbn [map] in T.
      rewrite Et in T.
      rewrite (scan_hit src pre' post p d d0 Hpre Hp Hn) in T.
      rewrite (bind_ok _ _ _ _ _ T). rewrite Hn.
      eexists. reflexivity. }
  destruct R as [w' R]. rewrite (try_except_ok _ _ w w' _ R). reflexivity.
Qed.

End StandaloneFetch.

(** C8, as the code has it. The standalone acquisition fills the frame of
    whichever live tier has data: a missing precipitation becomes 0; a
    missing temperature takes the value of the days around it, and 25.0 only
    in a column without any value; a missing wind speed or pressure is
    filled the same way, with 10.0 and 1013.0 for a column without any
    value. *)
Theorem standalone_cleanup `{Numpy} :
  (forall raw : DataFrame,
      let clean := Standalone.fill_missing raw in
      time clean = time raw
      /\ (forall i : nat, prcp raw !! i = Some None -> prcp clean !! i = Some (Some 0%Q))
      /\ (forall (i : nat) (v : Q),
            prcp raw !! i = Some (Some v) -> prcp clean !! i = Some (Some v))
      /\ filled_by_neighbours 25.0 (tavg raw) (tavg clean)
      /\ filled_by_neighbours 25.0 (tmin raw) (tmin clean)
      /\ filled_by_neighbours 25.0 (tmax raw) (tmax clean)
      /\ filled_by_neighbours 10.0 (wspd raw) (wspd clean)
      /\ filled_by_neighbours 1013.0 (pres raw) (pres clean))
  /\ (forall (lat lon : Q) (days : Z) (w : World) (pre post : list (Q * Q))
            (p : Q * Q) (d : DataFrame),
        standalone_tiers lat lon = pre ++ p :: post ->
        Forall (quiet w (now w - timedelta days) (now w)) pre ->
        meteostat w p (now w - timedelta days) (now w) = Ok d ->
        df_empty d = false ->
        fst (Standalone._fetch_from_meteostat lat lon days w)
        = Ok (Standalone.fill_missing d)).
Proof.
  split.
  - intros raw clean. unfold clean, Standalone.fill_missing. simpl.
    split; [reflexivity|].
    split; [intros i; apply fillna_missing|].
    split; [intros i v; apply fillna_keep|].
    repeat split;
      first [apply fill_temperature_spec | apply fill_wind_pressure_spec].
  - intros lat lon days w pre post p d.
    apply (standalone_fetch_live lat lon days w pre post p d).
Qed.

(** ** Concrete runs of the acquisition *)

(** C2, as the claim states it, fails on the loader: with no live data
    anywhere, a request for 3 days is answered by a synthetic series of 4
    rows. *)
Lemma synthetic_row_count_counterexample :
  let w := Sample.world Sample.no_data (fun _ => true) in
  match fst (@Loader.fetch_historical_data Sample.numpy Loader.default_loader
               "Delhi" 3 w) with
  | Ok r =>
      Loader.meteostat_source r = Synthetic "Delhi"
      /\ df_len (Loader.frame r) = 4%nat
  | Raise _ => False
  end.
Proof. vm_compute. split; reflexivity. Qed.

Lemma synthetic_row_count_witness :
  let w := Sample.world Sample.no_data (fun _ => true) in
  get_city_info "Delhi" = Ok delhi
  /\ (exists df w',
        @Loader._generate_synthetic_data Sample.numpy "Delhi"
          (Sample.noon - timedelta 3) Sample.noon w = (Ok df, w')
        /\ df_len df = 4%nat)
  /\ (exists df w',
        @Standalone._generate_synthetic_history Sample.numpy 28.7041 77.1025 3 w
        = (Ok df, w')
        /\ df_len df = 3%nat).
Proof.
  intros w. split; [exact get_city_info_delhi|]. split.
  - destruct (proj1 (@synthetic_row_count Sample.numpy) "Delhi" delhi Sample.noon 3 w
                get_city_info_delhi ltac:(lia)) as (df & w' & R & L & _).
    exists df, w'. split; [exact R | exact L].
  - destruct (proj2 (@synthetic_row_count Sample.numpy) 28.7041%Q 77.1025%Q 3 w
                ltac:(lia)) as (df & w' & R & L & _).
    exists df, w'. split; [exact R | exact L].
Defined.

Lemma synthetic_deterministic_witness :
  let w1 := Sample.world Sample.no_data (fun _ => true) in
  let w2 := @mkWorld Sample.numpy Sample.noon ∅ (fun _ => false) Sample.full_data
              99 [] [] in
  np_state w1 <> np_state w2
  /\ now w1 = now w2
  /\ fst (@Standalone._generate_synthetic_history Sample.numpy 28.7041 77.1025 30 w1)
     = fst (@Standalone._generate_synthetic_history Sample.numpy 28.7041 77.1025 30 w2).
Proof.
  intros w1 w2. split; [discriminate|]. split; [reflexivity|].
  apply (proj1 (@synthetic_deterministic Sample.numpy)). reflexivity.
Defined.

(** The loader's generator does not seed numpy: called twice in a row on the
    same city and window, it draws on from where the first call stopped and
    returns another series. *)
Example loader_synthetic_draws_on :
  let w := Sample.world Sample.no_data (fun _ => true) in
  let first := @Loader._generate_synthetic_data Sample.numpy "Delhi"
                 (Sample.noon - timedelta 3) Sample.noon w in
  let second := @Loader._generate_synthetic_data Sample.numpy "Delhi"
                  (Sample.noon - timedelta 3) Sample.noon (snd first) in
  fst first <> fst second.
Proof. vm_compute. discriminate. Qed.

Lemma synthetic_precipitation_range_witness :
  let w := Sample.world Sample.no_data (fun _ => true) in
  let run := @Loader._generate_synthetic_data Sample.numpy "Cherrapunji"
               (Sample.noon - timedelta 3) Sample.noon w in
  let df := match fst run with Ok d => d | Raise _ => empty_frame end in
  fst run = Ok df
  /\ df_len df = 4%nat
  /\ Forall (in_range 0 150) (prcp df).
Proof.
  intros w run df.
  assert (E : fst run = Ok df) by (vm_compute; reflexivity).
  split; [exact E|]. split; [vm_compute; reflexivity|].
  apply (proj1 (@synthetic_precipitation_range Sample.numpy) "Cherrapunji"
           (Sample.noon - timedelta 3) Sample.noon w (snd run) df).
  apply run_eq. exact E.
Defined.

(** C8, as the claim states it, fails on the loader: the series of the live
    tier that has data, be it the city itself or Delhi, is returned, and
    cached, as it was fetched, with its missing precipitation and
    temperature still missing. *)
Lemma live_series_not_cleaned_counterexample :
  let at_city := Sample.world Sample.gaps_only (fun _ => true) in
  let at_delhi := Sample.world Sample.delhi_gaps (fun _ => true) in
  match fst (@Loader.fetch_historical_data Sample.numpy Loader.default_loader
               "Mumbai" 30 at_city) with
  | Ok r =>
      Loader.meteostat_source r = Meteostat "Mumbai" 19.0760 72.8777
      /\ prcp (Loader.frame r) = [None]
      /\ tavg (Loader.frame r) = [None]
  | Raise _ => False
  end
  /\ match fst (@Loader.fetch_historical_data Sample.numpy Loader.default_loader
                  "Mumbai" 30 at_delhi) with
     | Ok r =>
         Loader.meteostat_source r = DelhiFallback
         /\ prcp (Loader.frame r) = [None]
         /\ tavg (Loader.frame r) = [None]
     | Raise _ => False
     end.
Proof. vm_compute. split; (split; [|split]; reflexivity). Qed.

Lemma standalone_cleanup_witness :
  let raw :=
    mkDataFrame [0; timedelta 1; timedelta 2; timedelta 3]
      [None; Some 20.0%Q; None; Some 22.5%Q]
      [None; None; None; None]
      [Some 30.0%Q; None; None; None]
      [Some 1.5%Q; None; Some 0.0%Q; None]
      [None; None; None; None]
      [None; Some 1009.0%Q; None; None] in
  let w := Sample.world Sample.gaps_only (fun _ => true) in
  let gaps := Sample.flat_frame (Sample.noon - timedelta 30) 1 None in
  (prcp raw !! 1%nat = Some None
   /\ prcp (Standalone.fill_missing raw) !! 1%nat = Some (Some 0%Q))
  /\ Standalone.fill_missing raw
     = mkDataFrame [0; timedelta 1; timedelta 2; timedelta 3]
         [Some 20.0%Q; Some 20.0%Q; Some 20.0%Q; Some 22.5%Q]
         [Some 25.0%Q; Some 25.0%Q; Some 25.0%Q; Some 25.0%Q]
         [Some 30.0%Q; Some 30.0%Q; Some 30.0%Q; Some 30.0%Q]
         [Some 1.5%Q; Some 0%Q; Some 0.0%Q; Some 0%Q]
         [Some 10.0%Q; Some 10.0%Q; Some 10.0%Q; Some 10.0%Q]
         [Some 1009.0%Q; Some 1009.0%Q; Some 1009.0%Q; Some 1009.0%Q]
  /\ (meteostat w (19.0760%Q, 72.8777%Q) (now w - timedelta 30) (now w) = Ok gaps
      /\ fst (@Standalone._fetch_from_meteostat Sample.numpy 19.0760 72.8777 30 w)
         = Ok (Standalone.fill_missing gaps)).
Proof.
  intros raw w gaps.
  split; [|split].
  - assert (E : prcp raw !! 1%nat = Some None) by reflexivity.
    split; [exact E|].
    exact (proj1 (proj2 (proj1 (@standalone_cleanup Sample.numpy) raw)) 1%nat E).
  - reflexivity.
  - assert (E : meteostat w (19.0760%Q, 72.8777%Q) (now w - timedelta 30) (now w)
                = Ok gaps) by (vm_compute; reflexivity).
    split; [exact E|].
    apply (proj2 (@standalone_cleanup Sample.numpy) 19.0760%Q 72.8777%Q 30 w
             [] (tl (standalone_tiers 19.0760 72.8777)) (19.0760%Q, 72.8777%Q) gaps).
    + reflexivity.
    + apply List.Forall_nil.
    + exact E.
    + reflexivity.
Defined.


(** ** What the source tag of the loader says *)

Lemma scan_raise (src : Q * Q -> Result DataFrame) (pre post : list (Q * Q))
  (p : Q * Q) (ex : exn) (df0 : DataFrame) :
  Forall (silent src) pre -> src p = Raise ex ->
  scan src (pre ++ p :: post) df0 = (pre ++ [p], Raise ex).
Proof.
  intros Hpre Hp. revert df0.
  induction Hpre as [|x t (dx & Ex & Hx) _ IH]; intros df0; simpl.
  - rewrite Hp. reflexivity.
  - rewrite Ex, Hx, IH. reflexivity.
Qed.

Section Provenance.
Context `{Numpy}.
Import Loader.

Variable city_name : string.
Variable info : CityInfo.
Variable days : Z.

Lemma last_tiers_run (start_date end_date : datetime) (w : World) :
  let w1 := set_warnings (warnings w ++ [NoDataUsingDelhi city_name]) w in
  let w2 := asked [delhi_point] w1 in
  last_tiers city_name start_date end_date w =
    match source_of w start_date end_date delhi_point with
    | Raise ex => (Raise ex, w2)
    | Ok dd =>
        if df_empty dd then
          bind (_generate_synthetic_data city_name start_date end_date)
            (fun df => ret (df, Synthetic city_name))
            (set_warnings (warnings w2 ++ [MeteostatUnavailable]) w2)
        else (Ok (dd, DelhiFallback), w2)
    end.
Proof.
  intros w1 w2. unfold last_tiers.
  rewrite (bind_ok (st_warning (NoDataUsingDelhi city_name)) _ w w1 tt eq_refl).
  rewrite (bind_ok (lift (get_city_info "Delhi")) _ w1 w1 delhi)
    by (unfold lift; rewrite get_city_info_delhi; reflexivity).
  change (source_of w start_date end_date delhi_point)
    with (source_of w1 start_date end_date delhi_point).
  destruct (source_of w1 start_date end_date delhi_point) as [dd|ex] eqn:E.
  - rewrite (bind_ok _ _ w1 w2 dd)
      by (rewrite Daily_fetch_run; apply (f_equal2 pair); [exact E | reflexivity]).
    destruct (df_empty dd); [|reflexivity].
    rewrite (bind_ok (st_warning MeteostatUnavailable) _ w2 _ tt eq_refl).
    reflexivity.
  - rewrite (bind_raise _ _ w1 w2 ex)
      by (rewrite Daily_fetch_run; apply (f_equal2 pair); [exact E | reflexivity]).
    reflexivity.
Qed.

(** What the last two tiers return, and why. *)
Lemma last_tiers_cases (start_date end_date : datetime) (w : World)
  (d : DataFrame) (tag : Source) :
  fst (last_tiers city_name start_date end_date w) = Ok (d, tag) ->
  (tag = DelhiFallback
   /\ source_of w start_date end_date delhi_point = Ok d /\ df_empty d = false)
  \/ (tag = Synthetic city_name
      /\ silent (source_of w start_date end_date) delhi_point
      /\ fst (_generate_synthetic_data city_name start_date end_date w) = Ok d).
Proof.
  rewrite last_tiers_run. cbv zeta.
  destruct (source_of w start_date end_date delhi_point) as [dd|ex] eqn:E;
    [|discriminate].
  destruct (df_empty dd) eqn:He.
  - intros R. right.
    match type of R with
    | fst (bind _ _ ?w3) = _ =>
        pose proof (proj2 (loader_synthetic_rng_only city_name start_date end_date)
                      w3 w ltac:(discriminate) eq_refl) as [G _]
    end.
    unfold bind in R.
    destruct (_generate_synthetic_data city_name start_date end_date _)
      as [[df|ex] w4]; [|discriminate].
    injection R as <- <-. simpl in G.
    split; [reflexivity|]. split; [exists dd; auto | symmetry; exact G].
  - intros [= <- <-]. left. auto.
Qed.

Lemma acquire_origin (w : World) (d : DataFrame) (tag : Source) :
  fst (acquire city_name info days w) = Ok (d, tag) ->
  origin w city_name info days d tag.
Proof.
  unfold origin.
  set (end_date := now w). set (start_date := end_date - timedelta days).
  set (src := source_of w start_date end_date).
  set (exact := (lat info, lon info)).
  pose proof (acquire_run city_name info days w) as R. cbv zeta in R.
  fold end_date in R. fold start_date in R. fold exact in R. fold src in R.
  rewrite R. clear R.
  destruct (src exact) as [df|ex] eqn:E0; [|discriminate].
  destruct (df_empty df) eqn:He.
  - assert (S0 : silent src exact) by (exists df; auto).
    pose proof (scan_spec src (grid info) df He) as S.
    destruct (scan src (grid info) df) as [q [[d1 [p|]]|ex]]; [| |discriminate].
    + destruct S as (pre & post & Eg & _ & Hpre & Ep & Hn).
      intros [= <- <-]. destruct p as [la lo]. cbn [fst snd].
      split; [exact Ep|]. split; [exact Hn|].
      exists pre, post. auto.
    + destruct S as (_ & Hall & _). intros L.
      apply last_tiers_cases in L.
      change (source_of (asked (exact :: q) w) start_date end_date)
        with src in L.
      destruct L as [(-> & Ed & Hn) | (-> & Sd & G)].
      * auto.
      * split; [reflexivity|]. split.
        -- unfold tiers. fold exact. constructor; [exact S0|].
           apply Forall_app. split; [exact Hall|]. constructor; [exact Sd|constructor].
        -- rewrite <- G.
           apply (proj2 (loader_synthetic_rng_only city_name start_date end_date)
                    w (asked (exact :: q) w)); [discriminate | reflexivity].
  - intros [= <- <-]. auto.
Qed.

End Provenance.

(** ** What the acquisition leaves untouched *)

Section Store.
Context `{Numpy}.
Import Loader.

Lemma keeps_store_ret {A : Type} (a : A) : keeps_store (ret a).
Proof. intros w. auto. Qed.

Lemma keeps_store_lift {A : Type} (r : Result A) : keeps_store (lift r).
Proof. intros w. auto. Qed.

Lemma keeps_store_now : keeps_store datetime_now.
Proof. intros w. auto. Qed.

Lemma keeps_store_fetch (p : Q * Q) (start_date end_date : datetime) :
  keeps_store (Daily_fetch p start_date end_date).
Proof. intros w. auto. Qed.

Lemma keeps_store_warning (msg : Warning) : keeps_store (st_warning msg).
Proof. intros w. auto. Qed.

Lemma keeps_store_rng {A : Type} (clock : bool) (m : M A) :
  rng_only clock m -> keeps_store m.
Proof. intros [R _] w. destruct (R w) as [s ->]. auto. Qed.

Lemma keeps_store_bind {A B : Type} (m : M A) (k : A -> M B) :
  keeps_store m -> (forall a, keeps_store (k a)) -> keeps_store (bind m k).
Proof.
  intros Hm Hk w. unfold bind. specialize (Hm w).
  destruct (m w) as [[a|ex] w1]; [|exact Hm].
  specialize (Hk a w1). simpl in Hm.
  destruct Hm as (-> & -> & -> & ->) in Hk. exact Hk.
Qed.

Lemma keeps_store_try {A : Type} (m : M A) (h : exn -> M A) :
  keeps_store m -> (forall e, keeps_store (h e)) -> keeps_store (try_except m h).
Proof.
  intros Hm Hh w. unfold try_except. specialize (Hm w).
  destruct (m w) as [[a|ex] w1]; [exact Hm|].
  specialize (Hh ex w1). simpl in Hm.
  destruct Hm as (-> & -> & -> & ->) in Hh. exact Hh.
Qed.

End Store.

Ltac keeps_store_step :=
  repeat first
    [ apply keeps_store_ret | apply keeps_store_lift | apply keeps_store_now
    | apply keeps_store_fetch | apply keeps_store_warning
    | lazymatch goal with
      | |- keeps_store (bind _ _) => apply keeps_store_bind; [|intros ?]
      | |- keeps_store (if ?b then _ else _) => destruct b
      end ].

Section LoaderStore.
Context `{Numpy}.
Import Loader.

Lemma keeps_store_search_lon (info : CityInfo) (start_date end_date : datetime)
  (lat_offset : Q) (lon_offsets : list Q) (cur : DataFrame * Source) :
  keeps_store (search_lon info start_date end_date lat_offset lon_offsets cur).
Proof.
  revert cur. induction lon_offsets as [|lo rest IH]; intros cur;
    cbn [search_lon]; keeps_store_step. apply IH.
Qed.

Lemma keeps_store_search_lat (info : CityInfo) (start_date end_date : datetime)
  (lat_offsets : list Q) (cur : DataFrame * Source) :
  keeps_store (search_lat info start_date end_date lat_offsets cur).
Proof.
  revert cur. induction lat_offsets as [|la rest IH]; intros cur;
    cbn [search_lat]; keeps_store_step;
    first [apply keeps_store_search_lon | apply IH].
Qed.

Lemma keeps_store_acquire (city_name : string) (info : CityInfo) (days : Z) :
  keeps_store (acquire city_name info days).
Proof.
  unfold acquire. keeps_store_step.
  - apply keeps_store_search_lat.
  - apply (keeps_store_rng false), loader_synthetic_rng_only.
Qed.

End LoaderStore.

(** A point that is not silent comes after every silent initial part. *)
Lemma loud_after {A : Type} (P : A -> Prop) (l r pre post : list A) (p : A) :
  l ++ r = pre ++ p :: post -> Forall P l -> ~ P p ->
  exists k, pre = l ++ k /\ r = k ++ p :: post.
Proof.
  revert pre. induction l as [|x t IH]; intros pre E Hl Hp.
  - exists pre. auto.
  - apply Forall_cons_iff in Hl. destruct Hl as [Hx Ht].
    destruct pre as [|y pre'].
    + injection E as <- _. contradiction.
    + injection E as <- E. destruct (IH pre' E Ht Hp) as (k & -> & ->).
      exists k. auto.
Qed.

Section LoaderOutcome.
Context `{Numpy}.
Import Loader.

Variable self : WeatherDataLoader.
Variable city_name : string.
Variable info : CityInfo.
Variable days : Z.

Local Abbreviation path := (cache_file_of self city_name).

Lemma acquire_answers (w : World) :
  let end_date := now w in
  let start_date := end_date - timedelta days in
  get_city_info city_name = Ok info ->
  0 <= days ->
  (forall p, In p (tiers info) ->
             exists d, source_of w start_date end_date p = Ok d) ->
  exists d tag w',
    acquire city_name info days w = (Ok (d, tag), w') /\ df_empty d = false.
Proof.
  intros end_date start_date E Hd Hs.
  pose proof (acquire_run city_name info days w) as R. cbv zeta in R.
  fold end_date in R. fold start_date in R.
  set (exact := (lat info, lon info)) in *.
  set (src := source_of w start_date end_date) in *.
  rewrite R. clear R.
  destruct (Hs exact) as [df E0]; [left; reflexivity|]. rewrite E0.
  destruct (df_empty df) eqn:He; [|eauto].
  pose proof (scan_spec src (grid info) df He) as S.
  destruct (scan src (grid info) df) as [q [[d1 [p|]]|ex]].
  - destruct S as (_ & _ & _ & _ & _ & _ & Hn). eauto.
  - rewrite last_tiers_run. cbv zeta.
    change (source_of (asked (exact :: q) w) start_date end_date) with src.
    destruct (Hs delhi_point) as [dd Ed].
    { unfold tiers. right. apply in_or_app. right. left. reflexivity. }
    rewrite Ed. destruct (df_empty dd) eqn:Hdd; [|eauto].
    match goal with
    | |- context [bind _ _ ?w3] =>
        destruct (loader_synthetic_shape city_name info start_date end_date w3 E)
          as (a1 & a2 & a3 & raw & a5 & a6 & w4 & G & _);
        rewrite (bind_ok _ _ w3 w4 _ G)
    end.
    do 3 eexists. split; [reflexivity|].
    unfold df_empty. cbn [time]. unfold start_date.
    rewrite date_range_window by exact Hd.
    rewrite Nat.add_1_r. reflexivity.
  - destruct S as (pre & p & post & Eg & _ & _ & Ep).
    destruct (Hs p) as [d Ed]; [|congruence].
    unfold tiers. right. apply in_or_app. left. rewrite Eg.
    apply in_or_app. right. left. reflexivity.
Qed.

(** After a cache miss, for a city of the registry and a window that is
    not negative, with a live source that answers at every tier and a
    cache file that can be written, the call returns a series that is
    not empty, never tagged as cached, and leaves it in the cache file of
    the city, written at the time of the call. *)
Theorem fetch_answers (w : World) :
  get_city_info city_name = Ok info ->
  0 <= days ->
  (forall p, In p (tiers info) ->
             exists d, meteostat w p (now w - timedelta days) (now w) = Ok d) ->
  files w !! path = None ->
  writable w path = true ->
  exists r w',
    fetch_historical_data self city_name days w = (Ok r, w')
    /\ df_empty (frame r) = false
    /\ (forall n, meteostat_source r <> FileCache n)
    /\ files w' = <[path := mkCacheFile (now w) (frame r)]> (files w).
Proof.
  intros E Hd Hs Hf Hw.
  rewrite (fetch_after_miss self city_name days w
             (cache_lookup_absent self city_name w Hf)).
  destruct (acquire_answers w E Hd Hs) as (d & tag & w1 & A & Hn).
  pose proof (keeps_store_acquire city_name info days w) as K.
  rewrite A in K. cbn [snd] in K. destruct K as (Kn & Kf & Kw & _).
  rewrite (fetch_fresh_write self city_name days w w1 info (d, tag) E A).
  rewrite Kw, Hw, Kn, Kf. cbn [fst snd].
  do 2 eexists. split; [reflexivity|]. cbn [frame meteostat_source files set_files].
  split; [exact Hn|]. split; [|reflexivity].
  intros n ->.
  pose proof (acquire_origin city_name info days w d (FileCache n)) as T.
  rewrite A in T. exact (T eq_refl).
Qed.

End LoaderOutcome.

Section LoaderTags.
Context `{Numpy}.
Import Loader.

Variable self : WeatherDataLoader.
Variable city_name : string.
Variable days : Z.

Local Abbreviation path := (cache_file_of self city_name).

(** The source tag of a returned series tells where it comes from. A
    series tagged as cached is the content of the cache file of the city,
    which was there and younger than [cache_days]. Any other series was
    acquired for a city of the registry, no such file being there, and
    its tag names the tier that gave it: the live answer at the city, at
    the first point of the grid with data, or at Delhi, every earlier
    tier having no data, or the generator when no tier has data. *)
Theorem source_tag_sound (w : World) (r : Acquired) :
  fst (fetch_historical_data self city_name days w) = Ok r ->
  (exists f,
      files w !! path = Some f
      /\ td_days (now w - mtime f) < cache_days self
      /\ r = mkAcquired (content f) (FileCache city_name))
  \/ (exists info,
        get_city_info city_name = Ok info
        /\ (forall f, files w !! path = Some f ->
                      cache_days self <= td_days (now w - mtime f))
        /\ origin w city_name info days (frame r) (meteostat_source r)).
Proof.
  assert (Fresh : fst (fetch_fresh self city_name days w) = Ok r ->
                  exists info,
                    get_city_info city_name = Ok info
                    /\ origin w city_name info days (frame r) (meteostat_source r)).
  { unfold fetch_fresh, bind, lift, to_csv.
    destruct (get_city_info city_name) as [info|]; [|discriminate].
    pose proof (acquire_origin city_name info days w) as O.
    destruct (acquire city_name info days w) as [[[d tag]|] w1]; [|discriminate].
    cbn [fst snd]. destruct (writable w1 path); [|discriminate].
    intros [= <-]. exists info. split; [reflexivity|]. apply O. reflexivity. }
  destruct (files w !! path) as [f|] eqn:E.
  - pose proof (cache_lookup_present self city_name w f E) as L.
    destruct (td_days (now w - mtime f) <? cache_days self) eqn:C.
    + rewrite (fetch_after_hit self city_name days w _ L).
      intros [= <-]. left. exists f. apply Z.ltb_lt in C. auto.
    + rewrite (fetch_after_miss self city_name days w L). intros R.
      destruct (Fresh R) as (info & Ei & O). right. exists info.
      split; [exact Ei|]. split; [|exact O].
      intros f' [= <-]. apply Z.ltb_ge. exact C.
  - rewrite (fetch_after_miss self city_name days w
               (cache_lookup_absent self city_name w E)). intros R.
    destruct (Fresh R) as (info & Ei & O). right. exists info.
    split; [exact Ei|]. split; [|exact O]. intros f' [=].
Qed.

(** An exception of the live source is not caught: when the first tier
    that does not answer with an empty frame raises, the call, after a
    cache miss, raises the same exception, whatever the later tiers and
    the generator could have given, and writes no file. *)
Theorem source_error_is_fatal (w : World) (info : CityInfo)
  (pre post : list (Q * Q)) (p : Q * Q) (ex : exn) :
  let src := source_of w (now w - timedelta days) (now w) in
  get_city_info city_name = Ok info ->
  files w !! path = None ->
  tiers info = pre ++ p :: post ->
  Forall (silent src) pre ->
  src p = Raise ex ->
  fst (fetch_historical_data self city_name days w) = Raise ex
  /\ files (snd (fetch_historical_data self city_name days w)) = files w.
Proof.
  intros src E Hf Et Hpre Hp.
  rewrite (fetch_after_miss self city_name days w
             (cache_lookup_absent self city_name w Hf)).
  assert (Loud : ~ silent src p).
  { intros (d & Ed & _). congruence. }
  assert (A : fst (acquire city_name info days w) = Raise ex).
  { pose proof (acquire_run city_name info days w) as R. cbv zeta in R.
    fold src in R. rewrite R. clear R.
    destruct pre as [|p0 pre'].
    - injection Et as <- _. rewrite Hp. reflexivity.
    - unfold tiers in Et.
      pose proof (f_equal (hd p) Et) as E1. cbn [hd app] in E1. subst p0.
      apply (f_equal (@tl _)) in Et. cbn [tl app] in Et.
      apply Forall_cons_iff in Hpre. destruct Hpre as [(d0 & E0 & He0) Hpre].
      rewrite E0, He0.
      pose proof (scan_spec src (grid info) d0 He0) as S.
      destruct (scan src (grid info) d0) as [q [[d1 [p1|]]|ex1]].
      + destruct S as (pre1 & post1 & Eg & _ & Hpre1 & Ep1 & Hn1).
        rewrite Eg, <- app_assoc in Et.
        destruct (loud_after _ _ _ _ _ _ Et Hpre1 Loud) as ([|x k] & -> & Ek).
        * injection Ek as -> _. congruence.
        * injection Ek as -> _.
          apply Forall_app in Hpre. destruct Hpre as [_ Hx].
          apply Forall_cons_iff in Hx. destruct Hx as [(dx & Ex & Hx) _].
          congruence.
      + destruct S as (_ & Hall & _).
        destruct (loud_after _ _ _ _ _ _ Et Hall Loud) as ([|x k] & _ & Ek).
        * injection Ek as <- _.
          rewrite last_tiers_run. cbv zeta.
          change (source_of (asked ((lat info, lon info) :: q) w)
                    (now w - timedelta days) (now w))
            with src.
          rewrite Hp. reflexivity.
        * injection Ek as _ Ek. destruct k; discriminate.
      + destruct S as (pre1 & p1 & post1 & Eg & _ & Hpre1 & Ep1).
        rewrite Eg, <- app_assoc in Et.
        destruct (loud_after _ _ _ _ _ _ Et Hpre1 Loud) as ([|x k] & -> & Ek).
        * injection Ek as -> _. cbn [fst]. congruence.
        * injection Ek as -> _.
          apply Forall_app in Hpre. destruct Hpre as [_ Hx].
          apply Forall_cons_iff in Hx. destruct Hx as [(dx & Ex & Hx) _].
          congruence. }
  pose proof (keeps_store_acquire city_name info days w) as K.
  unfold fetch_fresh, bind, lift. rewrite E.
  destruct (acquire city_name info days w) as [[cur|e] w1]; [discriminate|].
  cbn [fst snd] in *. injection A as ->.
  split; [reflexivity | exact (proj1 (proj2 K))].
Qed.

(** The call writes at most one file, the cache file of the city, and
    leaves the clock, the write permissions and the live source as they
    were: every other path holds what it held, and the files either are
    what they were or differ by the returned series, written to the cache
    file at the time of the call. *)
Theorem fetch_writes_own_file_only (w : World) :
  let run := fetch_historical_data self city_name days w in
  now (snd run) = now w
  /\ writable (snd run) = writable w
  /\ meteostat (snd run) = meteostat w
  /\ (forall other : string,
        other <> path -> files (snd run) !! other = files w !! other)
  /\ (files (snd run) = files w
      \/ exists r,
           fst run = Ok r
           /\ files (snd run) = <[path := mkCacheFile (now w) (frame r)]> (files w)).
Proof.
  intros run.
  assert (K : now (snd run) = now w /\ writable (snd run) = writable w
              /\ meteostat (snd run) = meteostat w
              /\ (files (snd run) = files w
                  \/ exists r,
                       fst run = Ok r
                       /\ files (snd run)
                          = <[path := mkCacheFile (now w) (frame r)]> (files w))).
  { assert (L : exists hit, cache_lookup self city_name w = (Ok hit, w)).
    { destruct (files w !! path) as [f|] eqn:E.
      - rewrite (cache_lookup_present self city_name w f E). eauto.
      - rewrite (cache_lookup_absent self city_name w E). eauto. }
    destruct L as [hit L]. unfold run, fetch_historical_data.
    rewrite (bind_ok _ _ w w hit L).
    destruct hit as [cached|]; [cbn; auto|].
    unfold fetch_fresh, bind, lift, to_csv.
    destruct (get_city_info city_name) as [info|e]; [|cbn; auto].
    pose proof (keeps_store_acquire city_name info days w) as K.
    destruct (acquire city_name info days w) as [[cur|e] w1];
      cbn [snd] in K; destruct K as (Kn & Kf & Kw & Km); [|cbn; auto].
    destruct (writable w1 path); cbn [fst snd]; [|auto].
    unfold ret. cbn [fst snd now writable meteostat files set_files].
    rewrite Kn, Kf.
    split; [reflexivity|]. split; [exact Kw|]. split; [exact Km|].
    right. eexists. split; reflexivity. }
  destruct K as (Kn & Kw & Km & Kf).
  split; [exact Kn|]. split; [exact Kw|]. split; [exact Km|].
  split; [|exact Kf].
  intros other Ho. destruct Kf as [-> | (r & _ & ->)]; [reflexivity|].
  apply lookup_insert_ne. congruence.
Qed.

End LoaderTags.


(** ** The standalone acquisition always answers *)

Section StandaloneTotal.
Context `{Numpy}.
Import Standalone.

Lemma keeps_store_try_nearby (lat lon : Q) (start_date end_date : datetime)
  (offs : list Q) (df : DataFrame) :
  keeps_store (try_nearby lat lon start_date end_date offs df).
Proof.
  revert df. induction offs as [|o rest IH]; intros df;
    cbn [try_nearby]; keeps_store_step. apply IH.
Qed.

Lemma keeps_store_standalone (lat lon : Q) (days : Z) :
  keeps_store (fetch_historical_data lat lon days).
Proof.
  assert (G : keeps_store (_generate_synthetic_history lat lon days))
    by apply (keeps_store_rng true), standalone_synthetic_rng_only.
  unfold fetch_historical_data, USE_METEOSTAT.
  apply keeps_store_try; [|intros _; exact G].
  unfold _fetch_from_meteostat.
  apply keeps_store_try; [|intros _; exact G].
  keeps_store_step; try apply keeps_store_try_nearby.
Qed.

Lemma fill_missing_complete (d : DataFrame) :
  Forall (fun c => complete c = true) (metrics (fill_missing d)).
Proof.
  unfold metrics, fill_missing. cbn [tavg tmin tmax prcp wspd pres].
  repeat constructor;
    first [ apply fillna_complete
          | apply (proj1 (proj2 (fill_temperature_spec _)))
          | apply (proj1 (proj2 (fill_wind_pressure_spec _ _))) ].
Qed.

(** The live part of [_fetch_from_meteostat] ends with a filled frame
    that is not empty, or with an exception. *)
Lemma live_part_cases (lat lon : Q) (days : Z) (w : World) :
  let live :=
    (end_date <- datetime_now ;;
     let start_date := end_date - timedelta days in
     df <- Daily_fetch (lat, lon) start_date end_date ;;
     df <- (if df_empty df
            then try_nearby lat lon start_date end_date [0.5; 1.0; -0.5; -1.0]%Q df
            else ret df) ;;
     if df_empty df
     then raise (Exception "No Meteostat data available for this location")
     else ret (fill_missing df)) in
  (exists d w', live w = (Ok (fill_missing d), w') /\ df_empty d = false)
  \/ (exists e w', live w = (Raise e, w')).
Proof.
  intros live. unfold live, bind, datetime_now.
  destruct (Daily_fetch _ _ _ w) as [[df|e] w1]; [|eauto].
  destruct (df_empty df) eqn:He.
  - destruct (try_nearby _ _ _ _ _ _ w1) as [[df'|e] w2]; [|eauto].
    destruct (df_empty df') eqn:He'; [right; unfold raise; eauto|].
    left. unfold ret. eauto.
  - unfold ret. rewrite He. left. eauto.
Qed.

Lemma standalone_synthetic_answers (lat lon : Q) (days : Z) (w : World) :
  0 < days ->
  exists df w',
    _generate_synthetic_history lat lon days w = (Ok df, w')
    /\ df_empty df = false
    /\ Forall (fun c => complete c = true) (metrics df).
Proof.
  intros Hd.
  destruct (standalone_synthetic_shape lat lon days w ltac:(lia))
    as (a1 & a2 & a3 & raw & a5 & a6 & w' & R & _).
  eexists. exists w'. split; [exact R|]. split.
  - unfold df_empty, range_down. cbn [time].
    destruct (Z.to_nat days) eqn:En; [lia | reflexivity].
  - unfold metrics. cbn [tavg tmin tmax prcp wspd pres].
    repeat constructor; apply rounded_complete.
Qed.

Lemma standalone_meteostat_answers (lat lon : Q) (days : Z) (w : World) :
  0 < days ->
  exists df w',
    _fetch_from_meteostat lat lon days w = (Ok df, w')
    /\ df_empty df = false
    /\ Forall (fun c => complete c = true) (metrics df).
Proof.
  intros Hd. unfold _fetch_from_meteostat.
  destruct (live_part_cases lat lon days w) as [(d & w' & L & Hn) | (e & w' & L)];
    cbv zeta in L; unfold try_except; rewrite L.
  - exists (fill_missing d), w'. split; [reflexivity|].
    split; [exact Hn | apply fill_missing_complete].
  - apply standalone_synthetic_answers. exact Hd.
Qed.

Lemma standalone_fetch_answers (lat lon : Q) (days : Z) (w : World) :
  0 < days ->
  exists df w',
    fetch_historical_data lat lon days w = (Ok df, w')
    /\ df_empty df = false
    /\ Forall (fun c => complete c = true) (metrics df).
Proof.
  intros Hd. unfold fetch_historical_data, USE_METEOSTAT.
  destruct (standalone_meteostat_answers lat lon days w Hd)
    as (df & w' & R & Hn & Hc).
  exists df, w'. split; [|auto].
  apply try_except_ok. exact R.
Qed.

(** For a window of at least one day, the standalone acquisition returns
    a series in every world, whatever the live source does, an exception
    included: the series is not empty and none of its metrics is missing
    on any day. The call leaves the clock, the files and the live source
    as they were. *)
Theorem standalone_fetch_total (lat lon : Q) (days : Z) (w : World) :
  0 < days ->
  exists df w',
    fetch_historical_data lat lon days w = (Ok df, w')
    /\ df_empty df = false
    /\ Forall (fun c => complete c = true) (metrics df)
    /\ now w' = now w /\ files w' = files w /\ meteostat w' = meteostat w.
Proof.
  intros Hd.
  destruct (standalone_fetch_answers lat lon days w Hd) as (df & w' & R & Hn & Hc).
  exists df, w'. split; [exact R|]. split; [exact Hn|]. split; [exact Hc|].
  pose proof (keeps_store_standalone lat lon days w) as K.
  rewrite R in K. cbn [snd] in K. tauto.
Qed.

End StandaloneTotal.

(** ** What the standalone acquisition returns *)

Section StandaloneOutcome.
Context `{Numpy}.
Import Standalone.

Lemma standalone_synthetic_clock (lat lon : Q) (days : Z) (w1 w2 : World) :
  now w1 = now w2 ->
  fst (_generate_synthetic_history lat lon days w1)
  = fst (_generate_synthetic_history lat lon days w2).
Proof.
  intros E. unfold _generate_synthetic_history.
  apply (seeded_run true); [repeat rng_only_step | intros _; exact E].
Qed.

(** The live part of [_fetch_from_meteostat] is a sequential search over
    the tiers of the script. *)
Lemma live_part_scan (lat lon : Q) (days : Z) (w : World) :
  let end_date := now w in
  let start_date := end_date - timedelta days in
  (end_date <- datetime_now ;;
   let start_date := end_date - timedelta days in
   df <- Daily_fetch (lat, lon) start_date end_date ;;
   df <- (if df_empty df
          then try_nearby lat lon start_date end_date [0.5; 1.0; -0.5; -1.0]%Q df
          else ret df) ;;
   if df_empty df
   then raise (Exception "No Meteostat data available for this location")
   else ret (fill_missing df)) w
  = let (q, r) :=
      scan (source_of w start_date end_date) (standalone_tiers lat lon)
        empty_frame in
    (match r with
     | Ok (d, Some _) => Ok (fill_missing d)
     | Ok (_, None) =>
         Raise (Exception "No Meteostat data available for this location")
     | Raise ex => Raise ex
     end, asked q w).
Proof.
  intros end_date start_date.
  rewrite (bind_ok datetime_now _ w w end_date eq_refl).
  fold start_date. set (src := source_of w start_date end_date).
  unfold standalone_tiers. cbn [scan]. fold src.
  unfold bind at 1. rewrite Daily_fetch_run. fold src.
  destruct (src (lat, lon)) as [d0|ex]; [|reflexivity].
  destruct (df_empty d0) eqn:He0.
  - unfold bind. rewrite try_nearby_scan, source_of_asked. fold src.
    pose proof (scan_spec src
                  (map (fun offset => (lat + offset, lon + offset)%Q)
                       [0.5; 1.0; -0.5; -1.0]%Q) d0 He0) as S.
    destruct (scan src _ d0) as [q [[d [p|]]|ex]]; rewrite asked_asked.
    + destruct S as (_ & _ & _ & _ & _ & _ & Hn). rewrite Hn. reflexivity.
    + destruct S as (_ & _ & Hd). rewrite Hd. reflexivity.
    + reflexivity.
  - unfold bind, ret. rewrite He0. reflexivity.
Qed.

Lemma standalone_meteostat_run (lat lon : Q) (days : Z) (w : World) :
  _fetch_from_meteostat lat lon days w
  = let (q, r) :=
      scan (source_of w (now w - timedelta days) (now w))
        (standalone_tiers lat lon) empty_frame in
    match r with
    | Ok (d, Some _) => (Ok (fill_missing d), asked q w)
    | _ => _generate_synthetic_history lat lon days (asked q w)
    end.
Proof.
  unfold _fetch_from_meteostat.
  lazymatch goal with
  | |- try_except ?m ?h w = _ =>
      change (try_except m h w)
        with (match m w with
              | (Ok a, w') => (Ok a, w')
              | (Raise e, w') => h e w'
              end);
      rewrite (live_part_scan lat lon days w : m w = _)
  end.
  cbv zeta.
  destruct (scan _ (standalone_tiers lat lon) empty_frame)
    as [q [[d [p|]]|ex]]; reflexivity.
Qed.

(** The standalone acquisition returns one of two series: the filled
    frame of the first tier at which the live source has data, every
    earlier tier having answered with an empty frame; or, when there is
    no such tier, be it that no tier has data or that the live source
    raised, exactly what the seeded generator gives at this clock
    reading: a series of [days] rows, which is empty for a window of 0
    days, and numpy's [ValueError] for a negative window. *)
Theorem standalone_fetch_dichotomy (lat lon : Q) (days : Z) (w : World) :
  let src := source_of w (now w - timedelta days) (now w) in
  let run := fetch_historical_data lat lon days w in
  (exists pre p post d,
      standalone_tiers lat lon = pre ++ p :: post
      /\ Forall (silent src) pre
      /\ src p = Ok d /\ df_empty d = false
      /\ fst run = Ok (fill_missing d))
  \/ ((Forall (silent src) (standalone_tiers lat lon)
       \/ exists pre p post ex,
            standalone_tiers lat lon = pre ++ p :: post
            /\ Forall (silent src) pre /\ src p = Raise ex)
      /\ fst run = fst (_generate_synthetic_history lat lon days w)
      /\ (days < 0 ->
          fst run = Raise (ValueError "negative dimensions are not allowed"))
      /\ (0 <= days ->
          exists df, fst run = Ok df /\ df_len df = Z.to_nat days)).
Proof.
  intros src run.
  assert (Sign :
    fst run = fst (_generate_synthetic_history lat lon days w) ->
    fst run = fst (_generate_synthetic_history lat lon days w)
    /\ (days < 0 ->
        fst run = Raise (ValueError "negative dimensions are not allowed"))
    /\ (0 <= days ->
        exists df, fst run = Ok df /\ df_len df = Z.to_nat days)).
  { intros G. split; [exact G|]. split.
    - intros Hd. rewrite G. apply standalone_synthetic_negative. exact Hd.
    - intros Hd.
      destruct (standalone_synthetic_shape lat lon days w Hd)
        as (a1 & a2 & a3 & raw & a5 & a6 & w' & R & _).
      rewrite G, R. eexists. split; [reflexivity|].
      unfold df_len. cbn [time]. rewrite length_map. apply range_down_length. }
  assert (Fallback :
    forall q,
      _fetch_from_meteostat lat lon days w
      = _generate_synthetic_history lat lon days (asked q w) ->
      fst run = fst (_generate_synthetic_history lat lon days w)).
  { intros q L. unfold run, fetch_historical_data, USE_METEOSTAT, try_except.
    rewrite L.
    pose proof (standalone_synthetic_clock lat lon days (asked q w) w eq_refl) as C1.
    destruct (proj1 (standalone_synthetic_rng_only lat lon days) (asked q w))
      as [s F].
    destruct (_generate_synthetic_history lat lon days (asked q w))
      as [[df|e'] w2]; [exact C1|].
    cbn [snd] in F. subst w2.
    apply (standalone_synthetic_clock lat lon days). reflexivity. }
  pose proof (standalone_meteostat_run lat lon days w) as L. fold src in L.
  pose proof (scan_spec src (standalone_tiers lat lon) empty_frame eq_refl) as S.
  destruct (scan src (standalone_tiers lat lon) empty_frame)
    as [q [[d [p|]]|ex]].
  - destruct S as (pre & post & Et & _ & Hpre & Ep & Hn).
    left. exists pre, p, post, d. repeat (split; [assumption|]).
    unfold run, fetch_historical_data, USE_METEOSTAT, try_except.
    rewrite L. reflexivity.
  - destruct S as (_ & Hall & _). right. split; [left; exact Hall|].
    exact (Sign (Fallback _ L)).
  - destruct S as (pre & p & post & Et & _ & Hpre & Ep). right.
    split; [right; exists pre, p, post, ex; auto|].
    exact (Sign (Fallback _ L)).
Qed.

End StandaloneOutcome.


(** ** The cleaning of the standalone script, once more *)

Lemma ffill_from_complete_id (last : option Q) (c : list (option Q)) :
  complete c = true -> ffill_from last c = c.
Proof.
  revert last. induction c as [|[x|] t IH]; intros last; simpl; intros Hc;
    try discriminate; [reflexivity|].
  rewrite (IH _ Hc). reflexivity.
Qed.

Section Cleaning.
Context `{Numpy}.
Import Standalone.

Lemma fill_temperature_id (c : list (option Q)) :
  complete c = true -> fill_temperature c = c.
Proof.
  intros Hc. unfold fill_temperature, ffill.
  rewrite (ffill_from_complete_id None c Hc), (bfill_complete_id c Hc).
  apply fillna_complete_id. exact Hc.
Qed.

Lemma fill_wind_pressure_id (default : Q) (c : list (option Q)) :
  complete c = true -> fill_wind_pressure default c = c.
Proof.
  intros Hc. unfold fill_wind_pressure, ffill.
  rewrite (ffill_from_complete_id None c Hc), (bfill_complete_id c Hc).
  apply fillna_complete_id. exact Hc.
Qed.

(** The cleaning changes nothing in a frame without missing cells, and so
    cleaning a cleaned frame changes nothing: whatever default or column
    mean filled a hole the first time, no second pass moves it. *)
Theorem fill_missing_idempotent (df : DataFrame) :
  (Forall (fun c => complete c = true) (metrics df) -> fill_missing df = df)
  /\ fill_missing (fill_missing df) = fill_missing df.
Proof.
  assert (Id : forall d, Forall (fun c => complete c = true) (metrics d) ->
                         fill_missing d = d).
  { intros [t a b c p ws ps]. unfold metrics, fill_missing.
    cbn [time tavg tmin tmax prcp wspd pres]. intros Hc.
    repeat (apply Forall_cons_iff in Hc; destruct Hc as [? Hc]).
    rewrite !fill_temperature_id, !fill_wind_pressure_id, fillna_complete_id
      by assumption.
    reflexivity. }
  split; [apply Id|]. apply Id, fill_missing_complete.
Qed.

End Cleaning.

(** ** The daily changes and their colours *)

Lemma map_lookup {A B : Type} (f : A -> B) (l : list A) (i : nat) :
  map f l !! i = option_map f (l !! i).
Proof.
  revert i. induction l as [|x t IH]; intros [|i]; simpl; auto.
Qed.

Section Changes.
Context `{Numpy}.
Import Standalone.

Lemma diff_from_length (previous : option Q) (c : list (option Q)) :
  List.length (diff_from previous c) = List.length c.
Proof.
  revert previous. induction c as [|x t IH]; intros previous; simpl; auto.
Qed.

(** The change of a day is the difference with the day before, missing
    when either cell is. *)
Lemma diff_from_next (previous : option Q) (c : list (option Q)) (i : nat)
  (x y : option Q) :
  c !! i = Some x -> c !! S i = Some y ->
  diff_from previous c !! S i
  = Some (match x, y with
          | Some p, Some v => Some (v - p)%Q
          | _, _ => None
          end).
Proof.
  revert previous i. induction c as [|a t IH]; intros previous i; [discriminate|].
  destruct i as [|i].
  - destruct t as [|b t']; [discriminate|].
    intros [= ->] [= ->]. reflexivity.
  - intros Ex Ey. exact (IH a i Ex Ey).
Qed.

Lemma change_color_comparison (threshold cur prev : Q) :
  change_color threshold (Some (cur - prev)%Q)
  = get_comparison_color cur prev threshold.
Proof. reflexivity. Qed.

(** The colour of a day after the first. *)
Lemma color_next (threshold : Q) (c : list (option Q)) (i : nat) (x y : option Q) :
  c !! i = Some x -> c !! S i = Some y ->
  <[0%nat := COLORS_stable]> (map (change_color threshold) (diff c)) !! S i
  = Some (match x, y with
          | Some p, Some v => get_comparison_color v p threshold
          | _, _ => COLORS_stable
          end).
Proof.
  intros Ex Ey.
  rewrite list_lookup_insert_ne by discriminate.
  rewrite map_lookup. unfold diff.
  rewrite (diff_from_next None c i x y Ex Ey).
  destruct x as [p|], y as [v|]; reflexivity.
Qed.

(** The colour of the first day. *)
Lemma color_first (threshold : Q) (c : list (option Q)) :
  c <> [] ->
  <[0%nat := COLORS_stable]> (map (change_color threshold) (diff c)) !! 0%nat
  = Some COLORS_stable.
Proof. destruct c; [congruence | reflexivity]. Qed.

Lemma color_length (threshold : Q) (c : list (option Q)) :
  List.length (<[0%nat := COLORS_stable]> (map (change_color threshold) (diff c)))
  = List.length c.
Proof.
  rewrite length_insert, length_map. apply diff_from_length.
Qed.

Lemma process_daily_changes_columns (df : DataFrame) (ch : Changes) :
  process_daily_changes df = Ok ch ->
  df_empty df = false /\ history ch = df
  /\ Forall
       (fun t : list (option Q) * Q * list (option Q) * list string =>
          let '(c, threshold, change, color) := t in
          change = diff c
          /\ color
             = <[0%nat := COLORS_stable]> (map (change_color threshold) (diff c)))
       (change_columns df ch).
Proof.
  unfold process_daily_changes, change_columns.
  destruct (df_empty df); [discriminate|].
  intros [= <-]. cbn. repeat constructor.
Qed.

Lemma change_column (df : DataFrame) (ch : Changes) (c : list (option Q))
  (threshold : Q) (change : list (option Q)) (color : list string) :
  process_daily_changes df = Ok ch ->
  In (c, threshold, change, color) (change_columns df ch) ->
  change = diff c
  /\ color = <[0%nat := COLORS_stable]> (map (change_color threshold) (diff c)).
Proof.
  intros P Hin.
  destruct (process_daily_changes_columns df ch P) as (_ & _ & F).
  rewrite List.Forall_forall in F. exact (F _ Hin).
Qed.

(** From the second day on, a day whose value and the value of the day
    before are both known has their difference as its change, and the
    colour that [get_comparison_color] gives for the two values: with
    tolerance 0.5 for temperature, precipitation and wind, and 2 for
    pressure. *)
Theorem daily_colors_agree (df : DataFrame) (ch : Changes)
  (c : list (option Q)) (threshold : Q) (change : list (option Q))
  (color : list string) (i : nat) (prev cur : Q) :
  process_daily_changes df = Ok ch ->
  In (c, threshold, change, color) (change_columns df ch) ->
  c !! i = Some (Some prev) ->
  c !! S i = Some (Some cur) ->
  change !! S i = Some (Some (cur - prev)%Q)
  /\ color !! S i = Some (get_comparison_color cur prev threshold).
Proof.
  intros P Hin Ep Ec.
  destruct (change_column df ch c threshold change color P Hin) as [-> ->].
  split.
  - unfold diff. rewrite (diff_from_next None c i _ _ Ep Ec). reflexivity.
  - rewrite (color_next threshold c i _ _ Ep Ec). reflexivity.
Qed.

(** Where there is nothing to compare, the colour is the stable one: on
    the first day, whose change is missing, and on a day whose value, or
    the value of the day before, is missing. Every column of changes and
    of colours has one cell for each cell of its metric. *)
Theorem daily_colors_without_comparison (df : DataFrame) (ch : Changes)
  (c : list (option Q)) (threshold : Q) (change : list (option Q))
  (color : list string) :
  process_daily_changes df = Ok ch ->
  In (c, threshold, change, color) (change_columns df ch) ->
  List.length change = List.length c
  /\ List.length color = List.length c
  /\ (c <> [] ->
      change !! 0%nat = Some None /\ color !! 0%nat = Some COLORS_stable)
  /\ (forall i : nat,
        (S i < List.length c)%nat ->
        c !! i = Some None \/ c !! S i = Some None ->
        change !! S i = Some None /\ color !! S i = Some COLORS_stable).
Proof.
  intros P Hin.
  destruct (change_column df ch c threshold change color P Hin) as [-> ->].
  split; [apply diff_from_length|]. split; [apply color_length|]. split.
  - intros Hc. split; [|apply color_first; exact Hc].
    destruct c; [congruence | reflexivity].
  - intros i Hi Hm.
    destruct (lookup_lt_is_Some_2 c i ltac:(lia)) as [x Ex].
    destruct (lookup_lt_is_Some_2 c (S i) Hi) as [y Ey].
    unfold diff at 1.
    rewrite (diff_from_next None c i x y Ex Ey), (color_next threshold c i x y Ex Ey).
    destruct Hm as [Hm|Hm]; rewrite Hm in *.
    + injection Ex as <-. auto.
    + injection Ey as <-. destruct x; auto.
Qed.

(** Swapping the two values swaps the colours of an increase and of a
    decrease and keeps the stable colour, which is the colour of the pairs
    that differ by the tolerance at most. *)
Theorem comparison_color_swap (a b tolerance : Q) :
  (0 <= tolerance)%Q ->
  (get_comparison_color a b tolerance = COLORS_increase
   <-> get_comparison_color b a tolerance = COLORS_decrease)
  /\ (get_comparison_color a b tolerance = COLORS_stable
      <-> get_comparison_color b a tolerance = COLORS_stable)
  /\ (get_comparison_color a b tolerance = COLORS_stable
      <-> (Qabs (a - b) <= tolerance)%Q).
Proof.
  intros Ht. unfold get_comparison_color, Qgtb, Qltb.
  destruct (Qle_bool (a - b) tolerance) eqn:E1;
    destruct (Qle_bool (- tolerance) (a - b)) eqn:E2;
    destruct (Qle_bool (b - a) tolerance) eqn:E3;
    destruct (Qle_bool (- tolerance) (b - a)) eqn:E4;
    cbn [negb];
    repeat match goal with
           | E : Qle_bool _ _ = true |- _ => apply Qle_bool_iff in E
           | E : Qle_bool _ _ = false |- _ =>
               apply not_true_iff_false in E; rewrite Qle_bool_iff in E
           end;
    try (exfalso; lra);
    (split; [|split]); split; intros G; try discriminate G; try reflexivity;
    try (apply Qabs_Qle_condition; split; lra);
    try (apply Qabs_Qle_condition in G; exfalso; lra).
Qed.

(** The second part of [main] never fails: in every world, whatever the
    live source does, the history of the last 30 days is acquired, it is
    not empty, none of its metrics is missing on any day, and its daily
    changes are computed from it. *)
Theorem history_with_changes_ok (lat lon : Q) (w : World) :
  exists ch w',
    history_with_changes lat lon w = (Ok ch, w')
    /\ fetch_historical_data lat lon 30 w = (Ok (history ch), w')
    /\ df_empty (history ch) = false
    /\ Forall (fun c => complete c = true) (metrics (history ch)).
Proof.
  destruct (standalone_fetch_answers lat lon 30 w ltac:(lia))
    as (df & w' & R & Hn & Hc).
  unfold history_with_changes. rewrite (bind_ok _ _ w w' df R).
  unfold lift, process_daily_changes. rewrite Hn.
  do 2 eexists. split; [reflexivity|]. cbn [history]. auto.
Qed.

End Changes.


(** ** The columns of the synthetic series *)

Lemma draws_elements {S : Type} (gen : S -> Q * S) (n : nat) (s : S) :
  Forall (fun x => exists s', x = fst (gen s')) (fst (draws gen n s)).
Proof.
  revert s. induction n as [|n IH]; intros s; simpl; [constructor|].
  specialize (IH (snd (gen s))).
  destruct (gen s) as [x s1] eqn:E. simpl in IH.
  destruct (draws gen n s1) as [xs s2]. simpl in *.
  constructor; [exists s; rewrite E; reflexivity | exact IH].
Qed.

Lemma zip_with_lookup {A B C : Type} (f : A -> B -> C) (l1 : list A) (l2 : list B)
  (i : nat) (z : C) :
  zip_with f l1 l2 !! i = Some z ->
  exists x y, l1 !! i = Some x /\ l2 !! i = Some y /\ z = f x y.
Proof.
  unfold zip_with. revert l2 i.
  induction l1 as [|a t IH]; intros [|b t2] [|i]; simpl; try discriminate.
  - intros [= <-]. eauto.
  - apply IH.
Qed.

Lemma rounded_lookup (a : list Q) (i : nat) (v : Q) :
  rounded a !! i = Some (Some v) -> exists x, a !! i = Some x /\ v = round1 x.
Proof.
  unfold rounded. rewrite map_lookup.
  destruct (a !! i) as [x|]; simpl; [|discriminate].
  intros [= <-]. eauto.
Qed.

(** [np.rint] moves a number by a half at most. *)
Lemma rint_close (q : Q) :
  (q - (1 # 2) <= inject_Z (rint q) /\ inject_Z (rint q) <= q + (1 # 2))%Q.
Proof.
  pose proof (Qfloor_le q) as Hl. pose proof (Qlt_floor q) as Hu.
  rewrite inject_Z_plus in Hu. change (inject_Z 1) with 1%Q in Hu.
  unfold rint.
  destruct (Qcompare (q - inject_Z (Qfloor q)) (1 # 2)) eqn:C.
  - apply Qeq_alt in C. destruct (Z.even (Qfloor q)).
    + split; lra.
    + rewrite inject_Z_plus. change (inject_Z 1) with 1%Q. split; lra.
  - apply Qlt_alt in C. split; lra.
  - apply Qgt_alt in C. rewrite inject_Z_plus. change (inject_Z 1) with 1%Q.
    split; lra.
Qed.

(** Rounding to one decimal keeps two numbers that are 3 apart in order. *)
Lemma round1_apart (x y : Q) : (x + 3 <= y)%Q -> (round1 x < round1 y)%Q.
Proof.
  intros Hxy. unfold round1, Qdiv. change (/ 10)%Q with (1 # 10)%Q.
  destruct (rint_close (x * 10)) as [_ Hx].
  destruct (rint_close (y * 10)) as [Hy _].
  lra.
Qed.

Section Columns.
Context `{Numpy}.

Lemma np_random_elements (gen : RandomState -> Q * RandomState) (f : Q -> Q)
  (size : Z) (w w' : World) (xs : list Q) :
  np_random gen f size w = (Ok xs, w') ->
  Forall (fun x => exists s, x = f (fst (gen s))) xs.
Proof.
  unfold np_random. destruct (size <? 0); [discriminate|].
  pose proof (draws_elements gen (Z.to_nat size) (np_state w)) as D.
  destruct (draws gen (Z.to_nat size) (np_state w)) as [ys s].
  intros [= <- _]. cbn [fst] in D.
  apply Forall_map. revert D. apply List.Forall_impl.
  intros x [s' ->]. exists s'. reflexivity.
Qed.

Lemma uniform_elements (low high : Q) (size : Z) (w w' : World) (xs : list Q) :
  np_random_uniform low high size w = (Ok xs, w') ->
  Forall (uniform_value low high) xs.
Proof. apply np_random_elements. Qed.

(** The columns of the loader's generator, with the draws that the
    minimum, the maximum and the wind are made of. *)
Lemma loader_synthetic_columns (city_name : string) (info : CityInfo)
  (start_date end_date : datetime) (w : World) :
  get_city_info city_name = Ok info ->
  exists a_avg x_up x_down raw x_wind a_pres w',
    Loader._generate_synthetic_data city_name start_date end_date w
    = (Ok (mkDataFrame (date_range start_date end_date)
             (rounded a_avg) (rounded (zip_with Qminus a_avg x_down))
             (rounded (zip_with Qplus a_avg x_up))
             (rounded (map (clip 0 150) raw)) (rounded x_wind) (rounded a_pres)),
       w')
    /\ Forall (uniform_value 3 7) x_up /\ Forall (uniform_value 3 7) x_down
    /\ Forall (uniform_value 5 25) x_wind.
Proof.
  intros E. unfold Loader._generate_synthetic_data.
  rewrite (bind_ok (lift (get_city_info city_name)) _ w w info)
    by (unfold lift; rewrite E; reflexivity).
  destruct (Loader.climate_zone _ _) as [base_temp temp_variation].
  draw_step x_noise Ln. draw_step x_up Lu. draw_step x_down Ld.
  draw_step x_exp Le. draw_step x_wind Lw. draw_step x_pres Lp.
  do 7 eexists. split; [reflexivity|].
  repeat split; eapply uniform_elements; eassumption.
Qed.

(** The columns of the standalone generator. *)
Lemma standalone_synthetic_columns (lat lon : Q) (days : Z) (w : World) :
  0 <= days ->
  exists a_avg x_up x_down raw raw_wind a_pres w',
    Standalone._generate_synthetic_history lat lon days w
    = (Ok (mkDataFrame (map (fun i => now w - timedelta i) (range_down days))
             (rounded a_avg) (rounded (zip_with Qminus a_avg x_down))
             (rounded (zip_with Qplus a_avg x_up))
             (rounded (map (clip 0 50) raw)) (rounded (map (clip 2 40) raw_wind))
             (rounded a_pres)),
       w')
    /\ Forall (uniform_value 3 6) x_up /\ Forall (uniform_value 3 6) x_down.
Proof.
  intros Hd. unfold Standalone._generate_synthetic_history.
  rewrite (bind_ok (np_random_seed 42) _ w _ tt eq_refl).
  destruct (Standalone.climate_zone lat) as [base_temp temp_variation].
  cbv beta.
  rewrite (bind_ok datetime_now _ (set_np_state (seeded 42) w) _ (now w) eq_refl).
  draw_step x_steps Ls. draw_step x_noise Ln. draw_step x_down Ld.
  draw_step x_up Lu. draw_step x_exp Le. draw_step x_uni Lw.
  draw_step x_gauss Lg. draw_step x_pres Lp.
  do 7 eexists. split; [reflexivity|].
  split; eapply uniform_elements; eassumption.
Qed.

End Columns.

Section ColumnBounds.
Context `{Numpy}.

Lemma ordered_columns (dates : list datetime)
  (a_avg x_up x_down : list Q) (p ws ps : list (option Q)) :
  Forall (fun x => 3 <= x)%Q x_up -> Forall (fun x => 3 <= x)%Q x_down ->
  temperatures_ordered
    (mkDataFrame dates (rounded a_avg) (rounded (zip_with Qminus a_avg x_down))
       (rounded (zip_with Qplus a_avg x_up)) p ws ps).
Proof.
  intros Hu Hd i lo mid hi. cbn [tmin tavg tmax]. intros El Em Eh.
  apply rounded_lookup in El, Em, Eh.
  destruct El as (l & El & ->), Em as (m & Em & ->), Eh as (h & Eh & ->).
  apply zip_with_lookup in El, Eh.
  destruct El as (m1 & d & Em1 & Ed & ->), Eh as (m2 & u & Em2 & Eu & ->).
  rewrite Em in Em1, Em2. injection Em1 as <-. injection Em2 as <-.
  pose proof (Forall_lookup_1 _ _ _ _ Hu Eu) as Bu.
  pose proof (Forall_lookup_1 _ _ _ _ Hd Ed) as Bd.
  cbv beta in Bu, Bd.
  split; apply round1_apart; lra.
Qed.

(** When the unit draws of numpy are not negative, every day of a
    synthetic series has its minimum below its mean and its mean below
    its maximum, in the loader's generator and in the standalone one. *)
Theorem synthetic_temperature_order :
  (forall s : RandomState, 0 <= fst (random_sample s))%Q ->
  (forall (city_name : string) (start_date end_date : datetime)
          (w w' : World) (df : DataFrame),
      Loader._generate_synthetic_data city_name start_date end_date w = (Ok df, w') ->
      temperatures_ordered df)
  /\ (forall (lat lon : Q) (days : Z) (w w' : World) (df : DataFrame),
        Standalone._generate_synthetic_history lat lon days w = (Ok df, w') ->
        temperatures_ordered df).
Proof.
  intros Hu.
  assert (B : forall (high : Q) (l : list Q),
             (3 <= high)%Q -> Forall (uniform_value 3 high) l ->
             Forall (fun x => 3 <= x)%Q l).
  { intros high l Hh. apply List.Forall_impl. intros x [s ->].
    specialize (Hu s). nra. }
  split.
  - intros city_name start_date end_date w w' df R.
    destruct (get_city_info city_name) as [info|e] eqn:E.
    + destruct (loader_synthetic_columns city_name info start_date end_date w E)
        as (a & up & down & raw & ws & ps & w1 & R1 & Fu & Fd & _).
      rewrite R1 in R. injection R as <- _.
      apply ordered_columns; apply (B 7%Q); first [assumption | lra].
    + rewrite (loader_synthetic_unknown city_name e start_date end_date w E) in R.
      discriminate.
  - intros lat lon days w w' df R.
    destruct (Z.lt_ge_cases days 0) as [Hn|Hp].
    + pose proof (standalone_synthetic_negative lat lon days w Hn) as N.
      rewrite R in N. discriminate.
    + destruct (standalone_synthetic_columns lat lon days w Hp)
        as (a & up & down & raw & ws & ps & w1 & R1 & Fu & Fd).
      rewrite R1 in R. injection R as <- _.
      apply ordered_columns; apply (B 6%Q); first [assumption | lra].
Qed.

(** Every wind speed of a synthetic series of the standalone script lies
    in [[2, 40]]; when the unit draws of numpy lie in [[0, 1]], every wind
    speed of a synthetic series of the loader lies in [[5, 25]]. *)
Theorem synthetic_wind_range :
  (forall (lat lon : Q) (days : Z) (w w' : World) (df : DataFrame),
      Standalone._generate_synthetic_history lat lon days w = (Ok df, w') ->
      Forall (in_range 2 40) (wspd df))
  /\ ((forall s : RandomState,
          0 <= fst (random_sample s) /\ fst (random_sample s) <= 1)%Q ->
      forall (city_name : string) (start_date end_date : datetime)
             (w w' : World) (df : DataFrame),
        Loader._generate_synthetic_data city_name start_date end_date w
        = (Ok df, w') ->
        Forall (in_range 5 25) (wspd df)).
Proof.
  split.
  - intros lat lon days w w' df R.
    destruct (Z.lt_ge_cases days 0) as [Hn|Hp].
    + pose proof (standalone_synthetic_negative lat lon days w Hn) as N.
      rewrite R in N. discriminate.
    + destruct (standalone_synthetic_columns lat lon days w Hp)
        as (a & up & down & raw & ws & ps & w1 & R1 & _).
      rewrite R1 in R. injection R as <- _. cbn [wspd].
      apply (rounded_clip_in_range 2 40). lia.
  - intros Hu city_name start_date end_date w w' df R.
    destruct (get_city_info city_name) as [info|e] eqn:E.
    + destruct (loader_synthetic_columns city_name info start_date end_date w E)
        as (a & up & down & raw & ws & ps & w1 & R1 & _ & _ & Fw).
      rewrite R1 in R. injection R as <- _. cbn [wspd].
      unfold rounded. apply Forall_map. revert Fw. apply List.Forall_impl.
      intros x [s ->]. specialize (Hu s). cbn [in_range].
      destruct (round1_range 50 250 (5 + (25 - 5) * fst (random_sample s))%Q)
        as [R5 R25].
      * change (inject_Z 50) with 50%Q. nra.
      * change (inject_Z 250) with 250%Q. nra.
      * change (inject_Z 50) with 50%Q in R5.
        change (inject_Z 250) with 250%Q in R25. split; lra.
    + rewrite (loader_synthetic_unknown city_name e start_date end_date w E) in R.
      discriminate.
Qed.

End ColumnBounds.


(** ** The registry, once more *)

Lemma city_eqb_eq (a b : CityInfo) : city_eqb a b = true -> a = b.
Proof.
  destruct a as [n1 [a1 b1] [c1 d1] s1], b as [n2 [a2 b2] [c2 d2] s2].
  unfold city_eqb. cbn [name lat lon state Qnum Qden].
  rewrite !andb_true_iff.
  intros [[[[[En Ea] Eb] Ec] Ed] Es].
  apply String.eqb_eq in En, Es. apply Z.eqb_eq in Ea, Ec.
  apply Pos.eqb_eq in Eb, Ed. congruence.
Qed.

Lemma registry_resolves_to_itself : forallb resolves_to_itself INDIAN_CITIES = true.
Proof. vm_compute. reflexivity. Qed.

(** No entry of the registry shadows another: a lookup by the key of an
    entry, and a lookup by its display name, both return the record of
    this very entry, although the lookup takes the first entry that
    matches. *)
Theorem registry_no_shadowing (key : string) (info : CityInfo) :
  In (key, info) INDIAN_CITIES ->
  get_city_info key = Ok info /\ get_city_info (name info) = Ok info.
Proof.
  intros Hin.
  pose proof (proj1 (forallb_forall _ _) registry_resolves_to_itself _ Hin) as R.
  unfold resolves_to_itself in R. cbn [fst snd] in R.
  destruct (get_city_info key) as [by_key|]; [|discriminate].
  destruct (get_city_info (name info)) as [by_name|]; [|discriminate].
  apply andb_true_iff in R. destruct R as [R1 R2].
  apply city_eqb_eq in R1, R2. subst. auto.
Qed.

Lemma insert_sorted_in (x y : string) (l : list string) :
  In y (insert_sorted x l) <-> y = x \/ In y l.
Proof.
  induction l as [|a t IH]; simpl.
  - intuition.
  - destruct (String.leb x a); simpl; [intuition|].
    rewrite IH. intuition.
Qed.

Lemma insert_sorted_length (x : string) (l : list string) :
  List.length (insert_sorted x l) = S (List.length l).
Proof.
  induction l as [|a t IH]; simpl; [reflexivity|].
  destruct (String.leb x a); simpl; [reflexivity | rewrite IH; reflexivity].
Qed.

Lemma sorted_in (y : string) (l : list string) : In y (sorted l) <-> In y l.
Proof.
  induction l as [|a t IH]; simpl; [tauto|].
  rewrite insert_sorted_in, IH. intuition.
Qed.

Lemma sorted_length (l : list string) : List.length (sorted l) = List.length l.
Proof.
  induction l as [|a t IH]; simpl; [reflexivity|].
  rewrite insert_sorted_length, IH. reflexivity.
Qed.

Lemma ascending_next (l : list string) (i : nat) (a b : string) :
  ascending l = true -> l !! i = Some a -> l !! S i = Some b ->
  String.ltb a b = true.
Proof.
  revert i. induction l as [|x t IH]; intros i Ha; [discriminate|].
  destruct t as [|y t']; [destruct i; discriminate|].
  cbn [ascending] in Ha. apply andb_true_iff in Ha. destruct Ha as [Hxy Ht].
  destruct i as [|i].
  - intros [= <-] [= <-]. exact Hxy.
  - intros Ea Eb. exact (IH i Ht Ea Eb).
Qed.

Lemma get_city_list_ascending : ascending get_city_list = true.
Proof. vm_compute. reflexivity. Qed.

(** The list of cities offers each entry of the registry once: its names
    are the display names of the registry, as many as there are entries,
    and each one is strictly below the next in Python's order of strings,
    so that no name comes twice. *)
Theorem city_list_ascending :
  (forall n : string,
      In n get_city_list
      <-> exists key info, In (key, info) INDIAN_CITIES /\ name info = n)
  /\ List.length get_city_list = List.length INDIAN_CITIES
  /\ (forall (i : nat) (a b : string),
        get_city_list !! i = Some a -> get_city_list !! S i = Some b ->
        String.ltb a b = true).
Proof.
  split; [|split].
  - intros n. unfold get_city_list. rewrite sorted_in, in_map_iff. split.
    + intros ([key info] & E & Hin). exists key, info. auto.
    + intros (key & info & Hin & E). exists (key, info). auto.
  - unfold get_city_list. rewrite sorted_length. apply length_map.
  - intros i a b. apply ascending_next, get_city_list_ascending.
Qed.


(** ** The cache of the loader, once more *)

Section CacheSharing.
Context `{Numpy}.
Import Loader.

Variable self : WeatherDataLoader.

Lemma cache_file_of_case (q : string) :
  cache_file_of self (upper q) = cache_file_of self q
  /\ cache_file_of self (lower q) = cache_file_of self q.
Proof.
  unfold cache_file_of. rewrite lower_upper, lower_lower. auto.
Qed.

(** A successful call leaves a cache file at the path of the name: the
    file that served it, or the one it wrote. *)
Lemma fetched_file (city_name : string) (days : Z) (w w1 : World) (r : Acquired) :
  0 < cache_days self ->
  fetch_historical_data self city_name days w = (Ok r, w1) ->
  exists f,
    files w1 !! cache_file_of self city_name = Some f
    /\ td_days (now w1 - mtime f) < cache_days self
    /\ content f = frame r.
Proof.
  intros Hpos F. unfold fetch_historical_data, bind in F.
  destruct (files w !! cache_file_of self city_name) as [f|] eqn:E.
  - rewrite (cache_lookup_present self city_name w f E) in F.
    destruct (td_days (now w - mtime f) <? cache_days self) eqn:C.
    + injection F as <- <-. exists f. apply Z.ltb_lt in C. auto.
    + apply fetch_fresh_stores in F. eexists. split; [exact F|].
      simpl. rewrite Z.sub_diag. split; [exact Hpos | reflexivity].
  - rewrite (cache_lookup_absent self city_name w E) in F.
    apply fetch_fresh_stores in F. eexists. split; [exact F|].
    simpl. rewrite Z.sub_diag. split; [exact Hpos | reflexivity].
Qed.

Lemma served_from (city_name other : string) (days : Z) (w : World) (f : CacheFile) :
  cache_file_of self other = cache_file_of self city_name ->
  files w !! cache_file_of self city_name = Some f ->
  td_days (now w - mtime f) < cache_days self ->
  fetch_historical_data self other days w
  = (Ok (mkAcquired (content f) (FileCache other)), w).
Proof.
  intros Ep E C. rewrite <- Ep in E.
  apply fetch_after_hit. rewrite (cache_lookup_present self other w f E).
  apply Z.ltb_lt in C. rewrite C. reflexivity.
Qed.

(** The cache does not see the letter case of the name: after a
    successful call for a name, a call for the same name in upper case or
    in lower case is served the series of the first call from the cache,
    tagged with the name of the second call, and nothing is acquired. *)
Theorem cache_shared_across_case (city_name : string) (days1 days2 : Z)
  (w w1 : World) (r : Acquired) :
  0 < cache_days self ->
  fetch_historical_data self city_name days1 w = (Ok r, w1) ->
  fetch_historical_data self (upper city_name) days2 w1
  = (Ok (mkAcquired (frame r) (FileCache (upper city_name))), w1)
  /\ fetch_historical_data self (lower city_name) days2 w1
     = (Ok (mkAcquired (frame r) (FileCache (lower city_name))), w1).
Proof.
  intros Hpos F.
  destruct (fetched_file city_name days1 w w1 r Hpos F) as (f & E & C & <-).
  destruct (cache_file_of_case city_name) as [Eu El].
  split; apply (served_from city_name); assumption.
Qed.

(** A negative window is not refused: for a city of the registry, when
    no live tier has data, the call returns an empty series tagged as
    synthetic and writes it to the cache file; while this file is fresh,
    every call for the city, whatever its window, is served the empty
    series. *)
Theorem negative_window_caches_empty (city_name : string) (info : CityInfo)
  (days days' : Z) (w : World) :
  days < 0 ->
  0 < cache_days self ->
  get_city_info city_name = Ok info ->
  Forall (silent (source_of w (now w - timedelta days) (now w))) (tiers info) ->
  files w !! cache_file_of self city_name = None ->
  writable w (cache_file_of self city_name) = true ->
  exists df w',
    fetch_historical_data self city_name days w
    = (Ok (mkAcquired df (Synthetic city_name)), w')
    /\ df_empty df = true
    /\ fetch_historical_data self city_name days' w'
       = (Ok (mkAcquired df (FileCache city_name)), w').
Proof.
  intros Hd Hpos E Hs Hf Hw.
  set (src := source_of w (now w - timedelta days) (now w)) in *.
  assert (A : exists df, fst (acquire city_name info days w)
                         = Ok (df, Synthetic city_name)
                         /\ df_empty df = true).
  { pose proof (acquire_run city_name info days w) as R. cbv zeta in R.
    fold src in R. rewrite R. clear R.
    unfold tiers in Hs. apply Forall_cons_iff in Hs.
    destruct Hs as [(d0 & E0 & He0) Hs].
    apply Forall_app in Hs. destruct Hs as [Hg Hdelhi].
    apply Forall_cons_iff in Hdelhi. destruct Hdelhi as [(dd & Ed & Hed) _].
    rewrite E0, He0.
    destruct (scan_silent src (grid info) d0 Hg He0) as (d1 & Sc & _).
    rewrite Sc. rewrite last_tiers_run. cbv zeta.
    change (source_of (asked ((lat info, lon info) :: grid info) w)
              (now w - timedelta days) (now w)) with src.
    rewrite Ed, Hed.
    match goal with
    | |- context [bind _ _ ?w3] =>
        destruct (loader_synthetic_shape city_name info
                    (now w - timedelta days) (now w) w3 E)
          as (a1 & a2 & a3 & raw & a5 & a6 & w4 & G & _);
        rewrite (bind_ok _ _ w3 w4 _ G)
    end.
    eexists. split; [reflexivity|].
    unfold df_empty, date_range. cbn [time].
    assert (C : (now w <? now w - timedelta days) = true).
    { apply Z.ltb_lt. unfold timedelta, us_per_day. lia. }
    rewrite C. reflexivity. }
  destruct A as (df & A & He).
  pose proof (keeps_store_acquire city_name info days w) as K.
  destruct (acquire city_name info days w) as [res w1] eqn:Aq.
  cbn [fst snd] in A, K. subst res. destruct K as (Kn & Kf & Kw & _).
  assert (F : fetch_historical_data self city_name days w
              = (Ok (mkAcquired df (Synthetic city_name)),
                 set_files (<[cache_file_of self city_name
                              := mkCacheFile (now w1) df]> (files w1)) w1)).
  { rewrite (fetch_after_miss self city_name days w
               (cache_lookup_absent self city_name w Hf)).
    rewrite (fetch_fresh_write self city_name days w w1 info _ E Aq).
    rewrite Kw, Hw. reflexivity. }
  do 2 eexists. split; [exact F|]. split; [exact He|].
  destruct (fetched_file city_name days w _ _ Hpos F) as (f & Ef & C & Ec).
  cbn [frame] in Ec.
  pose proof (served_from city_name city_name days' _ f eq_refl Ef C) as S.
  rewrite Ec in S. exact S.
Qed.

End CacheSharing.


(** ** The tiers of the whole call *)

Section FullCall.
Context `{Numpy}.
Import Loader.

Variable self : WeatherDataLoader.
Variable city_name : string.
Variable info : CityInfo.
Variable days : Z.

Local Abbreviation path := (cache_file_of self city_name).

(** A file that is absent or stale is a cache miss. *)
Lemma cache_lookup_miss (w : World) :
  (forall f, files w !! path = Some f ->
             cache_days self <= td_days (now w - mtime f)) ->
  cache_lookup self city_name w = (Ok None, w).
Proof.
  intros Hm. destruct (files w !! path) as [f|] eqn:E.
  - rewrite (cache_lookup_present self city_name w f E).
    assert (C : (td_days (now w - mtime f) <? cache_days self) = false)
      by (apply Z.ltb_ge, Hm; reflexivity).
    rewrite C. reflexivity.
  - apply cache_lookup_absent. exact E.
Qed.

(** What the call makes of the outcome of its tiers, after a miss. *)
Lemma fetch_of_acquire (w : World) :
  get_city_info city_name = Ok info ->
  cache_lookup self city_name w = (Ok None, w) ->
  let tiers_run := acquire city_name info days w in
  let run := fetch_historical_data self city_name days w in
  queries (snd run) = queries (snd tiers_run)
  /\ warnings (snd run) = warnings (snd tiers_run)
  /\ (forall cur,
        fst tiers_run = Ok cur ->
        (writable w path = true ->
         fst run = Ok (mkAcquired (fst cur) (snd cur))
         /\ files (snd run) = <[path := mkCacheFile (now w) (fst cur)]> (files w))
        /\ (writable w path = false ->
            fst run = Raise (OSError path) /\ files (snd run) = files w)).
Proof.
  intros E L tiers_run run. unfold run, tiers_run. clear run tiers_run.
  rewrite (fetch_after_miss self city_name days w L).
  pose proof (keeps_store_acquire city_name info days w) as K.
  destruct (acquire city_name info days w) as [[cur|ex] w1] eqn:A;
    cbn [fst snd] in *.
  - destruct K as (Kn & Kf & Kw & _).
    rewrite (fetch_fresh_write self city_name days w w1 info cur E A).
    rewrite Kw, Kn, Kf.
    destruct (writable w path); cbn [fst snd].
    + split; [reflexivity|]. split; [reflexivity|].
      intros cur' [= <-]. split; [auto | discriminate].
    + split; [reflexivity|]. split; [reflexivity|].
      intros cur' [= <-]. split; [discriminate | auto].
  - unfold fetch_fresh, bind, lift. rewrite E, A. cbn [fst snd].
    split; [reflexivity|]. split; [reflexivity|]. intros cur [=].
Qed.

End FullCall.

Section StandaloneTiers.
Context `{Numpy}.
Import Standalone.

(** The synthetic series as the last resort of the standalone call: it
    is what the call returns, and the points asked stay as they were. *)
Lemma standalone_last_resort (lat lon : Q) (days : Z) (w : World)
  (q : list (Q * Q)) :
  _fetch_from_meteostat lat lon days w
  = _generate_synthetic_history lat lon days (asked q w) ->
  let run := fetch_historical_data lat lon days w in
  fst run = fst (_generate_synthetic_history lat lon days w)
  /\ queries (snd run) = queries w ++ q.
Proof.
  intros L run. unfold run, fetch_historical_data, USE_METEOSTAT, try_except.
  rewrite L.
  pose proof (standalone_synthetic_clock lat lon days (asked q w) w eq_refl) as C1.
  pose proof (standalone_synthetic_rng_only lat lon days) as R.
  pose proof (rng_only_queries true _ (asked q w) R) as Q1.
  destruct (proj1 R (asked q w)) as [s F].
  destruct (_generate_synthetic_history lat lon days (asked q w))
    as [[df|e'] w2]; cbn [fst snd] in *; [split; [exact C1 | exact Q1]|].
  subst w2. split.
  - apply (standalone_synthetic_clock lat lon days). reflexivity.
  - rewrite (rng_only_queries true _ _ R). reflexivity.
Qed.

End StandaloneTiers.

Section TiersInOrder.
Context `{Numpy}.

Lemma standalone_tiers_order (lat lon : Q) (days : Z) (w : World) :
  let start_date := now w - timedelta days in
  let end_date := now w in
  let run := Standalone.fetch_historical_data lat lon days w in
  (exists pre p post,
      standalone_tiers lat lon = pre ++ p :: post
      /\ queries (snd run) = queries w ++ pre ++ [p]
      /\ Forall (quiet w start_date end_date) pre
      /\ (post <> [] -> ~ quiet w start_date end_date p)
      /\ (forall d : DataFrame,
            meteostat w p start_date end_date = Ok d ->
            df_empty d = false ->
            fst run = Ok (Standalone.fill_missing d)))
  /\ (Forall (quiet w start_date end_date) (standalone_tiers lat lon) ->
      fst run = fst (Standalone._generate_synthetic_history lat lon days w)).
Proof.
  intros start_date end_date run.
  set (src := source_of w start_date end_date).
  pose proof (standalone_meteostat_run lat lon days w) as L.
  change (source_of w (now w - timedelta days) (now w)) with src in L.
  pose proof (scan_spec src (standalone_tiers lat lon) empty_frame eq_refl) as S.
  split.
  - destruct (scan src (standalone_tiers lat lon) empty_frame)
      as [q [[d [p|]]|ex]].
    + destruct S as (pre & post & Et & -> & Hpre & Ep & Hn).
      assert (R : run = (Ok (Standalone.fill_missing d), asked (pre ++ [p]) w)).
      { unfold run, Standalone.fetch_historical_data, Standalone.USE_METEOSTAT,
          try_except.
        rewrite L. reflexivity. }
      exists pre, p, post. rewrite R. cbn [fst snd].
      split; [exact Et|]. split; [reflexivity|]. split; [exact Hpre|]. split.
      * intros _ (d' & Ed' & He'). change (src p = Ok d') in Ed'. congruence.
      * intros d' Ed' _. change (src p = Ok d') in Ed'. congruence.
    + destruct S as (-> & Hall & _).
      destruct (standalone_last_resort lat lon days w _ L) as [_ Q1].
      fold run in Q1.
      exists (List.removelast (standalone_tiers lat lon)),
             (List.last (standalone_tiers lat lon) (lat, lon)), [].
      split; [reflexivity|]. split; [rewrite Q1; reflexivity|].
      split; [|split].
      * do 4 (apply Forall_cons_iff in Hall; destruct Hall as [? Hall]).
        cbn [standalone_tiers map List.removelast]. repeat constructor; assumption.
      * intros C. contradiction.
      * intros d' Ed' Hn'.
        do 4 (apply Forall_cons_iff in Hall; destruct Hall as [_ Hall]).
        apply Forall_cons_iff in Hall. destruct Hall as [(d0 & E0 & He0) _].
        change (src (List.last (standalone_tiers lat lon) (lat, lon)) = Ok d') in Ed'.
        cbn [standalone_tiers map List.last] in Ed'. congruence.
    + destruct S as (pre & p & post & Et & -> & Hpre & Ep).
      destruct (standalone_last_resort lat lon days w _ L) as [_ Q1].
      fold run in Q1.
      exists pre, p, post.
      split; [exact Et|]. split; [exact Q1|]. split; [exact Hpre|]. split.
      * intros _ (d' & Ed' & He'). change (src p = Ok d') in Ed'. congruence.
      * intros d' Ed' _. change (src p = Ok d') in Ed'. congruence.
  - intros Hall.
    destruct (scan_silent src (standalone_tiers lat lon) empty_frame Hall eq_refl)
      as (d & Sc & _).
    rewrite Sc in L.
    exact (proj1 (standalone_last_resort lat lon days w _ L)).
Qed.

(** C1, as the code has it. In the loader, for a city of the registry and
    after a cache miss (no cache file, or a stale one): when the live
    source has no data at the city and at every nearby point but has data
    at Delhi, the call asks every tier in order, raises the fallback
    notice, and returns the Delhi series with the Delhi-fallback tag,
    written to the cache file, when this file can be written; when it
    cannot, the call raises the write error and returns nothing. In every
    such run the points asked are an initial part of the tier list (the
    city, the nearby points, Delhi); every point asked but the last had no
    data; the search stops before the end of the list only where the
    source did not answer with an empty frame; and data found at the last
    point asked is what the call returns when the cache file can be
    written. A fresh cache file is served without any tier being asked.
    The standalone script has no reference tier: its tiers are the point
    itself and the four points on its diagonal, asked in this order with
    the same stop at the first data, which it returns cleaned; when none
    of them has data it returns the synthetic series, whatever the live
    source holds at Delhi. *)
Theorem tiers_in_order :
  (forall (self : Loader.WeatherDataLoader) (city_name : string)
          (info : CityInfo) (days : Z) (w : World),
      let end_date := now w in
      let start_date := end_date - timedelta days in
      let path := Loader.cache_file_of self city_name in
      let run := Loader.fetch_historical_data self city_name days w in
      get_city_info city_name = Ok info ->
      (forall f, files w !! path = Some f ->
                 Loader.cache_days self <= td_days (now w - mtime f)) ->
      (forall delhi_df : DataFrame,
          Forall (quiet w start_date end_date) ((lat info, lon info) :: grid info) ->
          meteostat w delhi_point start_date end_date = Ok delhi_df ->
          df_empty delhi_df = false ->
          queries (snd run) = queries w ++ tiers info
          /\ warnings (snd run) = warnings w ++ [NoDataUsingDelhi city_name]
          /\ (writable w path = true ->
              fst run = Ok (Loader.mkAcquired delhi_df DelhiFallback)
              /\ files (snd run)
                 = <[path := mkCacheFile (now w) delhi_df]> (files w))
          /\ (writable w path = false ->
              fst run = Raise (OSError path) /\ files (snd run) = files w))
      /\ (exists pre p post,
            tiers info = pre ++ p :: post
            /\ queries (snd run) = queries w ++ pre ++ [p]
            /\ Forall (quiet w start_date end_date) pre
            /\ (post <> [] -> ~ quiet w start_date end_date p)
            /\ (forall d : DataFrame,
                  meteostat w p start_date end_date = Ok d ->
                  df_empty d = false ->
                  writable w path = true ->
                  exists tag, fst run = Ok (Loader.mkAcquired d tag))))
  /\ (forall (self : Loader.WeatherDataLoader) (city_name : string) (days : Z)
             (w : World) (f : CacheFile),
        files w !! Loader.cache_file_of self city_name = Some f ->
        td_days (now w - mtime f) < Loader.cache_days self ->
        Loader.fetch_historical_data self city_name days w
        = (Ok (Loader.mkAcquired (content f) (FileCache city_name)), w))
  /\ (forall (lat lon : Q) (days : Z) (w : World),
        let start_date := now w - timedelta days in
        let end_date := now w in
        let run := Standalone.fetch_historical_data lat lon days w in
        (exists pre p post,
            standalone_tiers lat lon = pre ++ p :: post
            /\ queries (snd run) = queries w ++ pre ++ [p]
            /\ Forall (quiet w start_date end_date) pre
            /\ (post <> [] -> ~ quiet w start_date end_date p)
            /\ (forall d : DataFrame,
                  meteostat w p start_date end_date = Ok d ->
                  df_empty d = false ->
                  fst run = Ok (Standalone.fill_missing d)))
        /\ (Forall (quiet w start_date end_date) (standalone_tiers lat lon) ->
            fst run
            = fst (Standalone._generate_synthetic_history lat lon days w))).
Proof.
  split; [|split].
  - intros self city_name info days w end_date start_date path run E Hm.
    pose proof (cache_lookup_miss self city_name w Hm) as L.
    destruct (fetch_of_acquire self city_name info days w E L) as (Fq & Fw & Fr).
    fold run in Fq, Fw, Fr. fold path in Fr.
    destruct (acquire_tiers city_name info days w) as [Delhi Order].
    fold end_date in Delhi, Order. fold start_date in Delhi, Order.
    split.
    + intros delhi_df Hq Hd Hn.
      specialize (Delhi delhi_df Hq Hd Hn).
      rewrite Delhi in Fq, Fw, Fr. cbn [fst snd] in Fq, Fw, Fr.
      split; [exact Fq|]. split; [exact Fw|].
      exact (Fr _ eq_refl).
    + destruct Order as (pre & p & post & Et & Oq & Hpre & Hstop & Hdata).
      exists pre, p, post.
      split; [exact Et|]. split; [rewrite Fq; exact Oq|].
      split; [exact Hpre|]. split; [exact Hstop|].
      intros d Ed Hn Hw. destruct (Hdata d Ed Hn) as [tag A].
      exists tag. exact (proj1 (proj1 (Fr _ A) Hw)).
  - intros self city_name days w f E C.
    apply fetch_after_hit. rewrite (cache_lookup_present self city_name w f E).
    apply Z.ltb_lt in C. rewrite C. reflexivity.
  - intros lat lon days w. apply standalone_tiers_order.
Qed.

End TiersInOrder.


(** ** The preparation of the training samples *)

Lemma until_from {A : Type} (k : Z) (l : list A) : until k l ++ from k l = l.
Proof. apply firstn_skipn. Qed.

Lemma until_length {A B : Type} (k : Z) (l1 : list A) (l2 : list B) :
  List.length l1 = List.length l2 ->
  List.length (until k l1) = List.length (until k l2).
Proof. intros E. unfold until. rewrite !length_take, E. reflexivity. Qed.

Lemma from_length {A B : Type} (k : Z) (l1 : list A) (l2 : list B) :
  List.length l1 = List.length l2 ->
  List.length (from k l1) = List.length (from k l2).
Proof. intros E. unfold from. rewrite !length_drop, E. reflexivity. Qed.

Section Samples.
Import Preprocessor.

(** The samples of [prepare_for_lstm], training samples first: there is
    one for each day that has [sequence_length] days before it; the
    window of a sample holds the cells of these days, in order, and its
    target is the cell of the day itself, so that no window holds its
    target or a later cell; the training part and the test part keep the
    order of time and hold as many windows as targets. *)
Theorem lstm_samples (df : Table) (target_col : string) (sequence_length : nat)
  (test_size : Q) (data : list (option Q)) :
  getitem df target_col = Ok data ->
  exists X_train X_test y_train y_test,
    prepare_for_lstm df target_col sequence_length test_size
    = Ok (X_train, X_test, y_train, y_test)
    /\ List.length X_train = List.length y_train
    /\ List.length X_test = List.length y_test
    /\ List.length (X_train ++ X_test) = (List.length data - sequence_length)%nat
    /\ forall j : nat,
         (j < List.length data - sequence_length)%nat ->
         (X_train ++ X_test) !! j = Some (firstn sequence_length (skipn j data))
         /\ List.length (firstn sequence_length (skipn j data)) = sequence_length
         /\ (y_train ++ y_test) !! j = data !! (j + sequence_length)%nat.
Proof.
  intros E. unfold prepare_for_lstm. rewrite E. cbn [and_then].
  set (rows := seq sequence_length (List.length data - sequence_length)).
  set (X := map (fun i => firstn sequence_length (skipn (i - sequence_length) data))
                rows).
  set (y := map (fun i => nth i data None) rows).
  set (k := int_of_float _).
  assert (Lxy : List.length X = List.length y)
    by (unfold X, y; rewrite !length_map; reflexivity).
  do 4 eexists. split; [reflexivity|].
  split; [apply until_length; exact Lxy|].
  split; [apply from_length; exact Lxy|].
  rewrite !until_from.
  split; [unfold X, rows; rewrite length_map, length_seq; reflexivity|].
  intros j Hj.
  assert (Er : rows !! j = Some (sequence_length + j)%nat)
    by (apply lookup_seq_lt; exact Hj).
  split; [|split].
  - unfold X. rewrite map_lookup, Er. cbn [option_map].
    replace (sequence_length + j - sequence_length)%nat with j by lia.
    reflexivity.
  - rewrite length_take, length_drop. lia.
  - unfold y. rewrite map_lookup, Er. cbn [option_map].
    destruct (lookup_lt_is_Some_2 data (j + sequence_length)%nat ltac:(lia))
      as [x Ex].
    rewrite Ex. f_equal.
    replace (sequence_length + j)%nat with (j + sequence_length)%nat by lia.
    apply nth_lookup_Some with (d := None) in Ex. exact Ex.
Qed.

Lemma getitem_in (df : Table) (col : string) (c : list (option Q)) :
  getitem df col = Ok c -> In (col, c) (columns df).
Proof.
  unfold getitem.
  destruct (find _ (columns df)) as [[k v]|] eqn:F; [|discriminate].
  intros [= <-]. apply find_some in F. destruct F as [Hin Hk].
  apply String.eqb_eq in Hk. cbn [fst] in Hk. subst k. exact Hin.
Qed.

(** The split of [prepare_for_xgboost]: the features are the columns of
    the frame but the target, the columns whose name starts with
    [Unnamed] and the columns whose dtype is neither [float64] nor
    [int64], in the order of the frame, the same in both parts; the
    training rows come first and the test rows after them, no row being
    lost or taken twice, in the index, in the target and in every
    feature. *)
Theorem xgboost_split (df : Table) (dtype : string -> Dtype)
  (target_col : string) (test_size : Q) (y : list (option Q)) :
  getitem df target_col = Ok y ->
  exists X_train X_test y_train y_test,
    prepare_for_xgboost df dtype target_col test_size
    = Ok (X_train, X_test, y_train, y_test)
    /\ index X_train ++ index X_test = index df
    /\ y_train ++ y_test = y
    /\ map fst (columns X_train)
       = List.filter (is_feature dtype target_col) (map fst (columns df))
    /\ map fst (columns X_test) = map fst (columns X_train)
    /\ ~ In target_col (map fst (columns X_train))
    /\ (forall col : string,
          In col (map fst (columns X_train)) ->
          String.prefix "Unnamed" col = false
          /\ (dtype col = float64 \/ dtype col = int64))
    /\ (forall (i : nat) (col : string) (train test : list (option Q)),
          columns X_train !! i = Some (col, train) ->
          columns X_test !! i = Some (col, test) ->
          In (col, train ++ test) (columns df)).
Proof.
  intros E. unfold prepare_for_xgboost. rewrite E. cbn [and_then].
  set (k := int_of_float _).
  set (feats := List.filter (fun kv => is_feature dtype target_col (fst kv))
                  (columns df)).
  assert (Names : forall f : list (option Q) -> list (option Q),
             map fst (map (fun kv : string * list (option Q) => (fst kv, f (snd kv)))
                          feats)
             = List.filter (is_feature dtype target_col) (map fst (columns df))).
  { intros f. rewrite map_map. cbn [fst]. unfold feats.
    induction (columns df) as [|[c0 v0] t IH]; [reflexivity|].
    cbn [List.filter map fst].
    destruct (is_feature dtype target_col c0); cbn [map fst]; rewrite IH;
      reflexivity. }
  do 4 eexists. split; [reflexivity|].
  unfold rows_until, rows_from. cbn [index columns].
  split; [apply until_from|]. split; [apply until_from|].
  split; [apply Names|]. split; [rewrite !Names; reflexivity|].
  split; [|split].
  - rewrite Names. intros Hin. apply filter_In in Hin. destruct Hin as [_ Hf].
    unfold is_feature in Hf. rewrite String.eqb_refl in Hf. discriminate.
  - intros col Hin. rewrite Names in Hin. apply filter_In in Hin.
    destruct Hin as [_ Hf]. unfold is_feature in Hf.
    apply andb_true_iff in Hf. destruct Hf as [Hn Hd].
    apply andb_true_iff in Hn. destruct Hn as [_ Hu].
    split; [apply negb_true_iff; exact Hu|].
    destruct (dtype col); [left | right | discriminate Hd]; reflexivity.
  - intros i col train test Et Es.
    rewrite map_lookup in Et, Es.
    destruct (feats !! i) as [[c0 v0]|] eqn:Ei; [|discriminate].
    cbn [option_map fst snd] in Et, Es.
    injection Et as <- <-. injection Es as <-.
    rewrite until_from.
    apply list_elem_of_lookup_2, list_elem_of_In in Ei.
    unfold feats in Ei. apply filter_In in Ei. exact (proj1 Ei).
Qed.

End Samples.


(** ** The names of the engineered columns *)

Lemma length_append (a b : string) :
  String.length (a +:+ b) = (String.length a + String.length b)%nat.
Proof.
  induction a as [|x a IH]; [reflexivity|].
  rewrite app_cons. cbn [String.length]. rewrite IH. reflexivity.
Qed.

Lemma append_ne_self (t s : string) : s <> "" -> t +:+ s <> t.
Proof.
  intros Hs E. apply (f_equal String.length) in E. rewrite length_append in E.
  destruct s; [congruence | cbn [String.length] in E; lia].
Qed.

Lemma append_inv_head (t a b : string) : t +:+ a = t +:+ b -> a = b.
Proof.
  induction t as [|x t IH]; [rewrite !app_nil_l; auto|].
  rewrite !app_cons. intros [= E]. exact (IH E).
Qed.

Lemma substring_all (s : string) : String.substring 0 (String.length s) s = s.
Proof. induction s as [|x s IH]; [reflexivity|]. cbn. rewrite IH. reflexivity. Qed.

Lemma substring_append (t s : string) :
  String.substring (String.length t) (String.length s) (t +:+ s) = s.
Proof.
  induction t as [|x t IH]; [rewrite app_nil_l; apply substring_all|].
  rewrite app_cons. cbn [String.length String.substring]. exact IH.
Qed.

(** A name that ends otherwise is not a target name with this suffix. *)
Lemma append_suffix (t s nm : string) :
  t +:+ s = nm ->
  String.substring (String.length nm - String.length s) (String.length s) nm = s.
Proof.
  intros <-. rewrite length_append.
  replace (String.length t + String.length s - String.length s)%nat
    with (String.length t) by lia.
  apply substring_append.
Qed.

Lemma str_of_int_inj (n m : Z) : str_of_int n = str_of_int m -> n = m.
Proof.
  unfold str_of_int. intros E.
  assert (Nn : forall z, Z.to_int z <> Decimal.Pos Decimal.Nil
                         /\ Z.to_int z <> Decimal.Neg Decimal.Nil).
  { intros z. split; intros C; pose proof (f_equal Z.of_int C) as C0;
      rewrite DecimalZ.of_to in C0; cbn in C0; subst z; discriminate C. }
  apply (f_equal NilZero.int_of_string) in E.
  rewrite !NilZero.isi in E by apply Nn.
  injection E as E. apply DecimalZ.to_int_inj. exact E.
Qed.

(** ** Frames by columns *)

Lemma getitem_setitem_eq (col : string) (c : list (option Q)) (df : Table) :
  getitem (setitem col c df) col = Ok c.
Proof.
  unfold getitem, setitem. cbn [columns].
  induction (columns df) as [|[k v] t IH]; cbn [dict_set find fst].
  - rewrite String.eqb_refl. reflexivity.
  - destruct (String.eqb k col) eqn:E; cbn [find fst]; rewrite E; [reflexivity|].
    exact IH.
Qed.

Lemma getitem_setitem_ne (col other : string) (c : list (option Q)) (df : Table) :
  other <> col -> getitem (setitem other c df) col = getitem df col.
Proof.
  intros Hne. unfold getitem, setitem. cbn [columns].
  induction (columns df) as [|[k v] t IH]; cbn [dict_set find fst].
  - assert (E : String.eqb other col = false) by (apply String.eqb_neq; exact Hne).
    rewrite E. reflexivity.
  - destruct (String.eqb k other) eqn:E; cbn [find fst].
    + apply String.eqb_eq in E. subst k.
      assert (E : String.eqb other col = false) by (apply String.eqb_neq; exact Hne).
      rewrite E. reflexivity.
    + destruct (String.eqb k col); [reflexivity | exact IH].
Qed.

Lemma Forall_dict_set {V : Type} (P : string * V -> Prop) (k : string) (v : V)
  (d : list (string * V)) :
  P (k, v) -> Forall P d -> Forall P (dict_set k v d).
Proof.
  intros Hn Hd. induction Hd as [|[k' v'] t Hh Ht IH]; cbn [dict_set].
  - repeat constructor. exact Hn.
  - destruct (String.eqb k' k) eqn:E.
    + apply String.eqb_eq in E. subst k'. constructor; assumption.
    + constructor; assumption.
Qed.

Lemma getitem_mapped (f : list (option Q) -> list (option Q)) (idx : list datetime)
  (df : Table) (col : string) :
  getitem (mkTable idx (map (fun kv => (fst kv, f (snd kv))) (columns df))) col
  = match getitem df col with
    | Ok c => Ok (f c)
    | Raise e => Raise e
    end.
Proof.
  unfold getitem. cbn [columns].
  induction (columns df) as [|[k v] t IH]; cbn [map find fst snd]; [reflexivity|].
  destruct (String.eqb k col); [reflexivity | exact IH].
Qed.

(** ** Shifted and rolling columns *)

Lemma complete_lookup (c : list (option Q)) (i : nat) :
  complete c = true -> c !! i <> Some None.
Proof.
  intros Hc E. unfold complete in Hc. rewrite forallb_forall in Hc.
  apply list_elem_of_lookup_2, list_elem_of_In in E.
  specialize (Hc _ E). discriminate.
Qed.

Lemma complete_take (n : nat) (c : list (option Q)) :
  complete c = true -> complete (firstn n c) = true.
Proof.
  revert c. induction n as [|n IH]; intros [|[x|] t]; cbn; auto.
Qed.

Lemma complete_drop (n : nat) (c : list (option Q)) :
  complete c = true -> complete (skipn n c) = true.
Proof.
  revert c. induction n as [|n IH]; intros [|[x|] t]; cbn; auto.
  discriminate.
Qed.

Lemma dropna_length (c : list (option Q)) :
  complete c = true -> List.length (dropna c) = List.length c.
Proof.
  induction c as [|[x|] t IH]; cbn; intros Hc; try discriminate; auto.
Qed.

Lemma shift_length (periods : Z) (c : list (option Q)) :
  List.length (shift periods c) = List.length c.
Proof.
  unfold shift. destruct (0 <=? periods).
  - rewrite length_take, length_app. lia.
  - rewrite length_app, length_drop, repeat_length_eq. lia.
Qed.

(** A column shifted by [periods] days holds, on each day, the cell of
    [periods] days before, and a missing cell while there is no such day. *)
Lemma shift_lookup (periods : Z) (c : list (option Q)) (i : nat) :
  0 <= periods -> (i < List.length c)%nat ->
  shift periods c !! i
  = if (i <? Z.to_nat periods)%nat then Some None else c !! (i - Z.to_nat periods)%nat.
Proof.
  intros Hp Hi. unfold shift.
  assert (E : (0 <=? periods) = true) by (apply Z.leb_le; exact Hp). rewrite E.
  rewrite lookup_take_lt by exact Hi.
  destruct (i <? Z.to_nat periods)%nat eqn:C.
  - apply Nat.ltb_lt in C. apply repeat_lookup. exact C.
  - apply Nat.ltb_ge in C. rewrite lookup_app_r by (rewrite repeat_length_eq; exact C).
    rewrite repeat_length_eq. reflexivity.
Qed.

Lemma shift_clear (periods : Z) (c : list (option Q)) (i : nat) :
  0 <= periods -> complete c = true -> (Z.to_nat periods <= i)%nat ->
  shift periods c !! i <> Some None.
Proof.
  intros Hp Hc Hi E.
  destruct (Nat.lt_ge_cases i (List.length c)) as [Hl|Hl].
  - rewrite (shift_lookup periods c i Hp Hl) in E.
    assert (C : (i <? Z.to_nat periods)%nat = false) by (apply Nat.ltb_ge; exact Hi).
    rewrite C in E. exact (complete_lookup c _ Hc E).
  - rewrite lookup_ge_None_2 in E by (rewrite shift_length; exact Hl). discriminate.
Qed.

Lemma drop_shift (periods : Z) (k : nat) (c : list (option Q)) :
  0 <= periods -> (Z.to_nat periods <= k)%nat ->
  skipn k (shift periods c)
  = firstn (List.length c - k) (skipn (k - Z.to_nat periods) c).
Proof.
  intros Hp Hk. unfold shift.
  assert (E : (0 <=? periods) = true) by (apply Z.leb_le; exact Hp). rewrite E.
  rewrite skipn_firstn_comm.
  rewrite drop_app_ge by (rewrite repeat_length_eq; exact Hk).
  rewrite repeat_length_eq. reflexivity.
Qed.

Lemma rolling_ok (window : Z) (stat : list Q -> option Q) (c : list (option Q)) :
  0 <= window ->
  exists r, rolling window stat c = Ok r /\ List.length r = List.length c
            /\ forall i : nat,
                 (Z.to_nat window <= S i)%nat -> complete c = true ->
                 (forall xs, List.length xs = Z.to_nat window -> stat xs <> None) ->
                 r !! i <> Some None.
Proof.
  intros Hw. unfold rolling.
  assert (E : (window <? 0) = false) by (apply Z.ltb_ge; exact Hw). rewrite E.
  eexists. split; [reflexivity|].
  split; [rewrite length_map, length_seq; reflexivity|].
  intros i Hi Hc Hs. rewrite map_lookup.
  destruct (Nat.lt_ge_cases i (List.length c)) as [Hl|Hl].
  - rewrite lookup_seq_lt by exact Hl. cbn [option_map Nat.add].
    unfold window_at.
    assert (C : (Z.to_nat window <=? S i)%nat = true) by (apply Nat.leb_le; exact Hi).
    rewrite C.
    set (cells := firstn (Z.to_nat window) (skipn (S i - Z.to_nat window) c)).
    assert (Hcells : complete cells = true) by apply complete_take, complete_drop, Hc.
    rewrite Hcells.
    destruct (stat (dropna cells)) as [x|] eqn:Ex; [discriminate|].
    exfalso. apply (Hs (dropna cells)); [|exact Ex].
    rewrite (dropna_length cells Hcells). unfold cells.
    rewrite length_take, length_drop. lia.
  - rewrite lookup_seq_ge by exact Hl. discriminate.
Qed.

Lemma window_mean_some (xs : list Q) : xs <> [] -> window_mean xs <> None.
Proof. destruct xs; [congruence | discriminate]. Qed.

Lemma window_std_some `{NumpyMath} (xs : list Q) :
  (2 <= List.length xs)%nat -> Preprocessor.window_std xs <> None.
Proof.
  destruct xs as [|x [|y t]]; cbn [List.length]; try lia. discriminate.
Qed.


(** ** The engineered features *)

Lemma lag_name_inj (target_col : string) (a b : Z) :
  target_col +:+ "_lag_" +:+ str_of_int a = target_col +:+ "_lag_" +:+ str_of_int b ->
  a = b.
Proof.
  intros E. apply append_inv_head in E.
  apply (append_inv_head "_lag_") in E. apply str_of_int_inj. exact E.
Qed.

Section Features.
Context `{Numpy} `{NumpyMath}.
Import Preprocessor.
Local Open Scope result_scope.

Lemma lag_features_spec (lags : list Z) (df : Table) (target_col : string)
  (c : list (option Q)) :
  getitem df target_col = Ok c ->
  exists df',
    create_lag_features df target_col lags = Ok df'
    /\ index df' = index df
    /\ getitem df' target_col = Ok c
    /\ (forall P : string * list (option Q) -> Prop,
          Forall P (columns df) ->
          (forall lag, In lag lags ->
                       P (target_col +:+ "_lag_" +:+ str_of_int lag, shift lag c)) ->
          Forall P (columns df'))
    /\ (forall lag, In lag lags ->
                    getitem df' (target_col +:+ "_lag_" +:+ str_of_int lag)
                    = Ok (shift lag c))
    /\ (forall col,
          (forall lag, In lag lags ->
                       col <> target_col +:+ "_lag_" +:+ str_of_int lag) ->
          getitem df' col = getitem df col).
Proof.
  revert df. induction lags as [|lag rest IH]; intros df E.
  - exists df. cbn [create_lag_features].
    repeat split; auto. intros lag [].
  - cbn [create_lag_features]. rewrite E. cbn [and_then].
    set (nm := target_col +:+ "_lag_" +:+ str_of_int lag).
    set (df1 := setitem nm (shift lag c) df).
    assert (E1 : getitem df1 target_col = Ok c).
    { unfold df1. rewrite getitem_setitem_ne; [exact E|].
      apply append_ne_self. discriminate. }
    destruct (IH df1 E1) as (df' & R & Hi & Ht & HP & Hl & Ho).
    exists df'. split; [exact R|]. split; [exact Hi|]. split; [exact Ht|].
    split; [|split].
    + intros P Hd Hn. apply HP.
      * apply Forall_dict_set; [apply Hn; left; reflexivity | exact Hd].
      * intros lag' Hin. apply Hn. right. exact Hin.
    + intros lag' [<-|Hin]; [|apply Hl; exact Hin].
      destruct (in_dec Z.eq_dec lag rest) as [Hin|Hout]; [apply Hl; exact Hin|].
      rewrite Ho.
      * apply getitem_setitem_eq.
      * intros lag' Hin E'. apply lag_name_inj in E'. subst lag'. contradiction.
    + intros col Hc. rewrite Ho by (intros lag' Hin; apply Hc; right; exact Hin).
      apply getitem_setitem_ne. intros E'. apply (Hc lag); [left; reflexivity|].
      symmetry. exact E'.
Qed.

(** [create_lag_features] adds, for each lag that is not negative, a
    column that looks back by this many days: on each day it holds the
    target of [lag] days before, and a missing cell on the first [lag]
    days. The index and the target column stay as they were; two lags
    never share a column. *)
Theorem lag_features_look_back (df : Table) (target_col : string) (lags : list Z)
  (c : list (option Q)) :
  getitem df target_col = Ok c ->
  Forall (fun lag => 0 <= lag) lags ->
  exists df',
    create_lag_features df target_col lags = Ok df'
    /\ index df' = index df
    /\ getitem df' target_col = Ok c
    /\ forall lag, In lag lags ->
         exists col,
           getitem df' (target_col +:+ "_lag_" +:+ str_of_int lag) = Ok col
           /\ List.length col = List.length c
           /\ forall i : nat,
                (i < List.length c)%nat ->
                col !! i
                = if (i <? Z.to_nat lag)%nat then Some None
                  else c !! (i - Z.to_nat lag)%nat.
Proof.
  intros E Hl.
  destruct (lag_features_spec lags df target_col c E)
    as (df' & R & Hi & Ht & _ & Hg & _).
  exists df'. split; [exact R|]. split; [exact Hi|]. split; [exact Ht|].
  intros lag Hin. exists (shift lag c). split; [apply Hg; exact Hin|].
  split; [apply shift_length|].
  intros i Hlt. apply shift_lookup; [|exact Hlt].
  rewrite List.Forall_forall in Hl. apply Hl. exact Hin.
Qed.

Lemma rolling_features_spec (windows : list Z) (df : Table) (target_col : string)
  (c : list (option Q)) :
  getitem df target_col = Ok c ->
  Forall (fun w => 0 <= w) windows ->
  exists df',
    create_rolling_features df target_col windows = Ok df'
    /\ index df' = index df
    /\ getitem df' target_col = Ok c
    /\ (forall P : string * list (option Q) -> Prop,
          Forall P (columns df) ->
          (forall w m s, In w windows ->
              rolling w window_mean c = Ok m -> rolling w window_std c = Ok s ->
              P (target_col +:+ "_rolling_mean_" +:+ str_of_int w, m)
              /\ P (target_col +:+ "_rolling_std_" +:+ str_of_int w, s)) ->
          Forall P (columns df'))
    /\ (forall col,
          (forall w, In w windows ->
              col <> target_col +:+ "_rolling_mean_" +:+ str_of_int w
              /\ col <> target_col +:+ "_rolling_std_" +:+ str_of_int w) ->
          getitem df' col = getitem df col).
Proof.
  intros E Hw. revert df E.
  induction Hw as [|w rest Hw0 _ IH]; intros df E.
  - exists df. cbn [create_rolling_features]. repeat split; auto.
  - cbn [create_rolling_features]. rewrite E. cbn [and_then].
    destruct (rolling_ok w window_mean c Hw0) as (m & Em & _).
    destruct (rolling_ok w window_std c Hw0) as (s & Es & _).
    rewrite Em. cbn [and_then].
    set (n1 := target_col +:+ "_rolling_mean_" +:+ str_of_int w).
    set (n2 := target_col +:+ "_rolling_std_" +:+ str_of_int w).
    assert (E1 : getitem (setitem n1 m df) target_col = Ok c).
    { rewrite getitem_setitem_ne; [exact E|]. apply append_ne_self. discriminate. }
    rewrite E1. cbn [and_then]. rewrite Es. cbn [and_then].
    assert (E2 : getitem (setitem n2 s (setitem n1 m df)) target_col = Ok c).
    { rewrite getitem_setitem_ne; [exact E1|]. apply append_ne_self. discriminate. }
    destruct (IH _ E2) as (df' & R & Hi & Ht & HP & Ho).
    exists df'. split; [exact R|]. split; [exact Hi|]. split; [exact Ht|]. split.
    + intros P Hd Hn.
      destruct (Hn w m s ltac:(left; reflexivity) Em Es) as [P1 P2].
      apply HP.
      * apply Forall_dict_set; [exact P2|]. apply Forall_dict_set; [exact P1 | exact Hd].
      * intros w' m' s' Hin. apply Hn. right. exact Hin.
    + intros col Hc. rewrite Ho by (intros w' Hin; apply Hc; right; exact Hin).
      destruct (Hc w ltac:(left; reflexivity)) as [C1 C2].
      rewrite !getitem_setitem_ne
        by (intros E'; first [exact (C1 (eq_sym E')) | exact (C2 (eq_sym E'))]).
      reflexivity.
Qed.

Lemma date_part_settled (f : datetime -> Z) (df : Table) (n k : nat) (nm : string) :
  List.length (index df) = n -> settled n k (nm, date_part f df).
Proof.
  intros <-. unfold settled, date_part. cbn [snd]. split; [apply length_map|].
  intros i _. rewrite map_lookup. destruct (index df !! i); discriminate.
Qed.

Lemma encode_settled (f : Q -> Q) (period : Q) (n k : nat) (nm nm' : string)
  (c : list (option Q)) :
  settled n k (nm, c) -> settled n k (nm', encode f period c).
Proof.
  unfold settled, encode. cbn [snd]. intros [Hl Hc].
  split; [rewrite length_map; exact Hl|].
  intros i Hi. rewrite map_lookup. specialize (Hc i Hi).
  destruct (c !! i) as [[x|]|]; cbn; congruence.
Qed.

Lemma cyclical_features_spec (df : Table) (k : nat) :
  exists df',
    create_cyclical_features df = Ok df'
    /\ index df' = index df
    /\ (Forall (settled (List.length (index df)) k) (columns df) ->
        Forall (settled (List.length (index df)) k) (columns df'))
    /\ (forall col, ~ In col cyclical_names -> getitem df' col = getitem df col).
Proof.
  unfold create_cyclical_features. cbv zeta.
  repeat (rewrite ?getitem_setitem_eq;
          rewrite ?getitem_setitem_ne by discriminate;
          cbn [and_then]).
  eexists. split; [reflexivity|]. split; [reflexivity|]. split.
  - intros Hd. cbn [columns setitem index].
    repeat (apply Forall_dict_set;
            [first [ apply date_part_settled; reflexivity
                   | eapply (encode_settled _ _ _ _ "");
                     apply date_part_settled; reflexivity ]|]).
    exact Hd.
  - intros col Hn.
    rewrite !getitem_setitem_ne; [reflexivity|..];
      intros E; apply Hn; rewrite <- E; cbn; tauto.
Qed.

End Features.


(** ** The rows that the feature engineering keeps *)

Lemma keep_rows_from {A : Type} (k : nat) (l : list A) (a : nat) :
  keep_rows (map (fun i => negb (i <? k)%nat) (seq a (List.length l))) l
  = skipn (k - a) l.
Proof.
  revert a. induction l as [|x t IH]; intros a.
  - cbn. destruct (k - a)%nat; reflexivity.
  - cbn [List.length seq map]. unfold keep_rows in *.
    cbn [combine List.filter snd].
    destruct (a <? k)%nat eqn:C; cbn [negb].
    + apply Nat.ltb_lt in C. rewrite IH.
      replace (k - a)%nat with (S (k - S a)) by lia. reflexivity.
    + apply Nat.ltb_ge in C. cbn [map fst]. rewrite IH.
      replace (k - a)%nat with 0%nat by lia.
      replace (k - S a)%nat with 0%nat by lia. reflexivity.
Qed.

Lemma clear_complete (k : nat) (c : list (option Q)) :
  (forall i : nat, (k <= i)%nat -> c !! i <> Some None) ->
  complete (skipn k c) = true.
Proof.
  intros Hc. unfold complete. apply forallb_forall. intros x Hx.
  apply list_elem_of_In, list_elem_of_lookup_1 in Hx. destruct Hx as [i Hi].
  rewrite lookup_drop in Hi. destruct x as [v|]; [reflexivity|].
  exfalso. exact (Hc (k + i)%nat ltac:(lia) Hi).
Qed.

Lemma row_without_na (cols : list (string * list (option Q))) (n k i : nat) :
  Forall (settled n k) cols -> (k <= i)%nat -> row_has_na cols i = false.
Proof.
  intros Hs Hi. unfold row_has_na.
  apply not_true_is_false. intros C. apply existsb_exists in C.
  destruct C as (kv & Hin & Hna).
  rewrite List.Forall_forall in Hs. destruct (Hs kv Hin) as [_ Hc].
  specialize (Hc i Hi). destruct (snd kv !! i) as [[x|]|]; congruence.
Qed.

Lemma row_with_na (cols : list (string * list (option Q))) (col : string)
  (c : list (option Q)) (i : nat) :
  In (col, c) cols -> c !! i = Some None -> row_has_na cols i = true.
Proof.
  intros Hin Hc. unfold row_has_na. apply existsb_exists.
  exists (col, c). split; [exact Hin|]. cbn [snd]. rewrite Hc. reflexivity.
Qed.

Section Rows.
Context `{Numpy} `{NumpyMath}.
Import Preprocessor.

Lemma default_lag_range (lag : Z) :
  In lag default_lags -> 0 <= lag /\ (Z.to_nat lag <= 30)%nat.
Proof. cbn. intros [<-|[<-|[<-|[<-|[]]]]]; cbn; lia. Qed.

Lemma default_window_range (w : Z) :
  In w default_windows -> 0 <= w /\ (2 <= Z.to_nat w <= 31)%nat.
Proof. cbn. intros [<-|[<-|[<-|[]]]]; cbn; lia. Qed.

(** A lag column of the default lags is not written again by the later
    steps. *)
Lemma lag_name_fresh (target_col : string) (lag : Z) :
  In lag default_lags ->
  ~ In (target_col +:+ "_lag_" +:+ str_of_int lag) cyclical_names
  /\ forall w : Z,
       In w default_windows ->
       target_col +:+ "_lag_" +:+ str_of_int lag
       <> target_col +:+ "_rolling_mean_" +:+ str_of_int w
       /\ target_col +:+ "_lag_" +:+ str_of_int lag
          <> target_col +:+ "_rolling_std_" +:+ str_of_int w.
Proof.
  intros Hl. split.
  - intros Hin.
    assert (S : exists nm, In nm cyclical_names
                           /\ target_col +:+ "_lag_" +:+ str_of_int lag = nm)
      by (eexists; split; [exact Hin | reflexivity]).
    destruct S as (nm & Hnm & E). apply append_suffix in E.
    cbn in Hl, Hnm.
    repeat (destruct Hl as [<-|Hl]; [|try contradiction]);
      repeat (destruct Hnm as [<-|Hnm]; [|try contradiction]);
      vm_compute in E; discriminate E.
  - intros w Hw. cbn in Hl, Hw.
    repeat (destruct Hl as [<-|Hl]; [|try contradiction]);
      repeat (destruct Hw as [<-|Hw]; [|try contradiction]);
      split; intros E; apply append_inv_head in E; vm_compute in E; discriminate E.
Qed.

(** On a frame without missing cells, [engineer_features] drops the
    first 30 rows and keeps every later one: the index of the result is
    the index without its first 30 days, every column of the result has
    one cell for each day that is left and none of them is missing, and
    the column of a lag holds, on each day that is left, the target of
    that many days before. A frame of 30 days at most is left without
    rows. *)
Theorem engineer_features_rows (df : Table) (target_col : string)
  (c : list (option Q)) :
  let n := List.length (index df) in
  getitem df target_col = Ok c ->
  Forall (fun kv => List.length (snd kv) = n /\ complete (snd kv) = true)
    (columns df) ->
  exists df',
    engineer_features df target_col = Ok df'
    /\ index df' = skipn 30 (index df)
    /\ Forall (fun kv => List.length (snd kv) = (n - 30)%nat
                         /\ complete (snd kv) = true)
         (columns df')
    /\ forall lag : Z,
         In lag default_lags ->
         getitem df' (target_col +:+ "_lag_" +:+ str_of_int lag)
         = Ok (firstn (n - 30) (skipn (30 - Z.to_nat lag) c)).
Proof.
  intros n E Hd.
  assert (Hc : List.length c = n /\ complete c = true).
  { rewrite List.Forall_forall in Hd. exact (Hd _ (getitem_in df target_col c E)). }
  destruct Hc as [Lc Hc].
  assert (S0 : Forall (settled n 30) (columns df)).
  { revert Hd. apply List.Forall_impl. intros kv [Hl Hk]. split; [exact Hl|].
    intros i _. apply complete_lookup. exact Hk. }
  destruct (lag_features_spec default_lags df target_col c E)
    as (df1 & R1 & I1 & T1 & P1 & G1 & _).
  assert (S1 : Forall (settled n 30) (columns df1)).
  { apply P1; [exact S0|]. intros lag Hin.
    destruct (default_lag_range lag Hin) as [Hz H30].
    split; cbn [snd]; [rewrite shift_length; exact Lc|].
    intros i Hi. apply shift_clear; [exact Hz | exact Hc | lia]. }
  assert (W0 : Forall (fun w => 0 <= w) default_windows)
    by (repeat constructor; lia).
  destruct (rolling_features_spec default_windows df1 target_col c T1 W0)
    as (df2 & R2 & I2 & T2 & P2 & O2).
  assert (S2 : Forall (settled n 30) (columns df2)).
  { apply P2; [exact S1|]. intros w m s Hin Em Es.
    destruct (default_window_range w Hin) as [Hz Hw].
    destruct (rolling_ok w window_mean c Hz) as (m' & Em' & Lm & Cm).
    destruct (rolling_ok w window_std c Hz) as (s' & Es' & Ls & Cs).
    rewrite Em in Em'. injection Em' as <-.
    rewrite Es in Es'. injection Es' as <-.
    split; (split; cbn [snd]; [congruence|]); intros i Hi.
    - apply Cm; [lia | exact Hc|]. intros xs Hx. apply window_mean_some.
      destruct xs; [cbn in Hx; lia | discriminate].
    - apply Cs; [lia | exact Hc|]. intros xs Hx. apply window_std_some. lia. }
  assert (L2 : List.length (index df2) = n) by (rewrite I2, I1; reflexivity).
  destruct (cyclical_features_spec df2 30) as (df3 & R3 & I3 & P3 & O3).
  rewrite L2 in P3. specialize (P3 S2).
  assert (L3 : List.length (index df3) = n) by (rewrite I3; exact L2).
  assert (G3 : forall lag, In lag default_lags ->
               getitem df3 (target_col +:+ "_lag_" +:+ str_of_int lag)
               = Ok (shift lag c)).
  { intros lag Hin. destruct (lag_name_fresh target_col lag Hin) as [Fc Fr].
    rewrite (O3 _ Fc), (O2 _ Fr). apply G1. exact Hin. }
  assert (Mask : map (fun i => negb (row_has_na (columns df3) i))
                     (seq 0 (List.length (index df3)))
                 = map (fun i => negb (i <? 30)%nat) (seq 0 n)).
  { rewrite L3. apply map_ext_in. intros i Hi. apply in_seq in Hi. f_equal.
    destruct (i <? 30)%nat eqn:C.
    - apply Nat.ltb_lt in C.
      apply (row_with_na _ (target_col +:+ "_lag_" +:+ str_of_int 30) (shift 30 c)).
      + apply getitem_in, G3. cbn. tauto.
      + rewrite shift_lookup by lia.
        assert (C' : (i <? Z.to_nat 30)%nat = true) by (apply Nat.ltb_lt; cbn; lia).
        rewrite C'. reflexivity.
    - apply Nat.ltb_ge in C. apply (row_without_na _ n 30); assumption. }
  assert (Keep : forall (A : Type) (l : list A),
             List.length l = n ->
             keep_rows (map (fun i => negb (i <? 30)%nat) (seq 0 n)) l = skipn 30 l).
  { intros A l Hl. rewrite <- Hl, keep_rows_from. reflexivity. }
  unfold engineer_features. rewrite R1. cbn [and_then].
  rewrite R2. cbn [and_then]. rewrite R3. cbn [and_then].
  eexists. split; [reflexivity|].
  unfold drop_na_rows. rewrite Mask. cbn [index columns].
  split; [|split].
  - rewrite Keep by exact L3. rewrite I3, I2, I1. reflexivity.
  - apply Forall_map. revert P3. apply List.Forall_impl.
    intros kv [Hl Hk]. cbn [snd]. rewrite Keep by exact Hl.
    split; [rewrite length_drop, Hl; reflexivity | apply clear_complete; exact Hk].
  - intros lag Hin.
    rewrite (getitem_mapped
               (keep_rows (map (fun i => negb (i <? 30)%nat) (seq 0 n)))).
    rewrite (G3 lag Hin).
    destruct (default_lag_range lag Hin) as [Hz H30].
    rewrite Keep by (rewrite shift_length; exact Lc).
    rewrite drop_shift by assumption. rewrite Lc. reflexivity.
Qed.

End Rows.


(** ** Concrete runs of the further properties *)

Lemma source_tag_sound_witness :
  let w := Sample.world Sample.delhi_only (fun _ => true) in
  let r :=
    Loader.mkAcquired (Sample.flat_frame (Sample.noon - timedelta 3) 3 (Some 30.0%Q))
      DelhiFallback in
  fst (@Loader.fetch_historical_data Sample.numpy Loader.default_loader "Mumbai" 3 w)
  = Ok r
  /\ exists info,
       get_city_info "Mumbai" = Ok info
       /\ origin w "Mumbai" info 3 (Loader.frame r) DelhiFallback.
Proof.
  intros w r.
  assert (E : fst (@Loader.fetch_historical_data Sample.numpy Loader.default_loader
                     "Mumbai" 3 w) = Ok r) by (vm_compute; reflexivity).
  split; [exact E|].
  destruct (@source_tag_sound Sample.numpy Loader.default_loader "Mumbai" 3 w r E)
    as [(f & Hf & _) | (info & Ei & _ & O)].
  - exfalso. revert Hf. vm_compute. discriminate.
  - exists info. split; [exact Ei | exact O].
Defined.

Lemma fetch_answers_witness :
  let w := Sample.world Sample.full_data (fun _ => true) in
  let path := Loader.cache_file_of Loader.default_loader "Mumbai" in
  files w !! path = None
  /\ exists r w',
       @Loader.fetch_historical_data Sample.numpy Loader.default_loader "Mumbai" 30 w
       = (Ok r, w')
       /\ df_empty (Loader.frame r) = false
       /\ (forall n, Loader.meteostat_source r <> FileCache n)
       /\ files w' = <[path := mkCacheFile (now w) (Loader.frame r)]> (files w).
Proof.
  intros w path.
  assert (Hf : files w !! path = None) by (vm_compute; reflexivity).
  split; [exact Hf|].
  apply (@fetch_answers Sample.numpy Loader.default_loader "Mumbai" Sample.mumbai 30 w).
  - vm_compute. reflexivity.
  - lia.
  - intros p _. eexists. reflexivity.
  - exact Hf.
  - reflexivity.
Defined.

Lemma source_error_is_fatal_witness :
  let w := Sample.world Sample.breaks_nearby (fun _ => true) in
  let run :=
    @Loader.fetch_historical_data Sample.numpy Loader.default_loader "Mumbai" 30 w in
  fst run = Raise (Exception "HTTP Error 503: Service Unavailable")
  /\ files (snd run) = files w.
Proof.
  intros w run.
  apply (@source_error_is_fatal Sample.numpy Loader.default_loader "Mumbai" 30 w
           Sample.mumbai [(19.0760%Q, 72.8777%Q)] (tl (grid Sample.mumbai ++ [delhi_point]))
           (19.0760 + 0.5, 72.8777 + 0.5)%Q).
  - vm_compute. reflexivity.
  - vm_compute. reflexivity.
  - reflexivity.
  - apply List.Forall_cons; [|apply List.Forall_nil].
    exists empty_frame. split; vm_compute; reflexivity.
  - vm_compute. reflexivity.
Defined.

Lemma fetch_writes_own_file_only_witness :
  let w := Sample.world Sample.full_data (fun _ => true) in
  let run :=
    @Loader.fetch_historical_data Sample.numpy Loader.default_loader "Mumbai" 30 w in
  files (snd run) !! "data/raw/delhi_30days.csv" = files w !! "data/raw/delhi_30days.csv"
  /\ now (snd run) = now w.
Proof.
  intros w run.
  pose proof (@fetch_writes_own_file_only Sample.numpy Loader.default_loader
                "Mumbai" 30 w) as (Hn & _ & _ & Ho & _).
  split; [|exact Hn].
  apply Ho. intros E. revert E. vm_compute. discriminate.
Defined.

Lemma standalone_fetch_total_witness :
  let w := Sample.world Sample.breaks_nearby (fun _ => true) in
  exists df w',
    @Standalone.fetch_historical_data Sample.numpy 28.7041 77.1025 30 w = (Ok df, w')
    /\ df_empty df = false
    /\ Forall (fun c => complete c = true) (metrics df)
    /\ now w' = now w /\ files w' = files w /\ meteostat w' = meteostat w.
Proof.
  intros w.
  apply (@standalone_fetch_total Sample.numpy 28.7041%Q 77.1025%Q 30 w). lia.
Defined.

Lemma fill_missing_idempotent_witness :
  let df := Sample.flat_frame 0 2 (Some 20.0%Q) in
  Standalone.fill_missing df = df.
Proof.
  intros df.
  apply (proj1 (fill_missing_idempotent df)).
  repeat constructor.
Defined.

Lemma daily_colors_agree_witness :
  let df :=
    mkDataFrame [0; timedelta 1; timedelta 2]
      [Some 20.0%Q; Some 21.0%Q; Some 20.8%Q] [] []
      [Some 0%Q; Some 4.5%Q; Some 0%Q] []
      [Some 1010.0%Q; Some 1011.5%Q; Some 1008.0%Q] in
  exists ch,
    Standalone.process_daily_changes df = Ok ch
    /\ Standalone.temp_color ch !! 1%nat
       = Some (Standalone.get_comparison_color 21.0 20.0 0.5)
    /\ Standalone.pressure_color ch !! 2%nat
       = Some (Standalone.get_comparison_color 1008.0 1011.5 2).
Proof.
  intros df.
  destruct (Standalone.process_daily_changes df) as [ch|] eqn:P;
    [|discriminate P].
  exists ch. split; [reflexivity|]. split.
  - apply (daily_colors_agree df ch (tavg df) Standalone.TOLERANCE
             (Standalone.temp_change ch) (Standalone.temp_color ch) 0%nat 20.0%Q 21.0%Q P);
      [left; reflexivity | reflexivity | reflexivity].
  - apply (daily_colors_agree df ch (pres df) 2%Q
             (Standalone.pressure_change ch) (Standalone.pressure_color ch)
             1%nat 1011.5%Q 1008.0%Q P);
      [right; right; right; left; reflexivity | reflexivity | reflexivity].
Defined.

Lemma daily_colors_without_comparison_witness :
  let df :=
    mkDataFrame [0; timedelta 1; timedelta 2]
      [Some 20.0%Q; None; Some 25.0%Q] [] []
      [Some 0%Q; Some 4.5%Q; Some 0%Q] []
      [Some 1010.0%Q; Some 1011.5%Q; Some 1008.0%Q] in
  exists ch,
    Standalone.process_daily_changes df = Ok ch
    /\ Standalone.temp_color ch !! 0%nat = Some (Standalone.COLORS_stable)
    /\ Standalone.temp_color ch !! 2%nat = Some (Standalone.COLORS_stable).
Proof.
  intros df.
  destruct (Standalone.process_daily_changes df) as [ch|] eqn:P;
    [|discriminate P].
  exists ch. split; [reflexivity|].
  destruct (daily_colors_without_comparison df ch (tavg df)
              Standalone.TOLERANCE (Standalone.temp_change ch)
              (Standalone.temp_color ch) P ltac:(left; reflexivity))
    as (_ & _ & First & Gap).
  split.
  - apply First. discriminate.
  - apply (Gap 1%nat); [cbn; lia | left; reflexivity].
Defined.

Lemma comparison_color_swap_witness :
  Standalone.get_comparison_color 21.0 20.0 0.5
  = Standalone.COLORS_increase
  /\ Standalone.get_comparison_color 20.0 21.0 0.5
     = Standalone.COLORS_decrease.
Proof.
  assert (E : Standalone.get_comparison_color 21.0 20.0 0.5
              = Standalone.COLORS_increase) by reflexivity.
  split; [exact E|].
  apply (proj1 (comparison_color_swap 21.0%Q 20.0%Q 0.5%Q
                  ltac:(unfold Qle; simpl; lia))).
  exact E.
Defined.

Lemma sample_unit_draw_range (s : Z) :
  (0 <= fst (Sample.unit_draw s) /\ fst (Sample.unit_draw s) <= 1)%Q.
Proof.
  unfold Sample.unit_draw, Sample.lcg. cbn [fst].
  pose proof (Z.mod_pos_bound (1103515245 * s + 12345) Sample.modulus eq_refl) as B.
  unfold Qle. cbn [Qnum Qden]. change (Z.pos (Z.to_pos Sample.modulus)) with Sample.modulus.
  lia.
Qed.

Lemma synthetic_temperature_order_witness :
  let w := Sample.world Sample.no_data (fun _ => true) in
  let run :=
    @Loader._generate_synthetic_data Sample.numpy "Mumbai"
      (Sample.noon - timedelta 3) Sample.noon w in
  exists df,
    fst run = Ok df /\ df_len df = 4%nat /\ temperatures_ordered df.
Proof.
  intros w run.
  destruct (fst run) as [df|] eqn:E; [|revert E; vm_compute; discriminate].
  exists df. split; [reflexivity|]. split.
  - revert E. vm_compute. intros [= <-]. reflexivity.
  - apply (proj1 (@synthetic_temperature_order Sample.numpy
                    (fun s => proj1 (sample_unit_draw_range s)))
             "Mumbai" (Sample.noon - timedelta 3) Sample.noon w (snd run) df).
    apply run_eq. exact E.
Defined.

Lemma synthetic_wind_range_witness :
  let w := Sample.world Sample.no_data (fun _ => true) in
  let run :=
    @Loader._generate_synthetic_data Sample.numpy "Mumbai"
      (Sample.noon - timedelta 3) Sample.noon w in
  exists df,
    fst run = Ok df /\ df_len df = 4%nat /\ Forall (in_range 5 25) (wspd df).
Proof.
  intros w run.
  destruct (fst run) as [df|] eqn:E; [|revert E; vm_compute; discriminate].
  exists df. split; [reflexivity|]. split.
  - revert E. vm_compute. intros [= <-]. reflexivity.
  - apply (proj2 (@synthetic_wind_range Sample.numpy) sample_unit_draw_range
             "Mumbai" (Sample.noon - timedelta 3) Sample.noon w (snd run) df).
    apply run_eq. exact E.
Defined.

Lemma registry_no_shadowing_witness :
  get_city_info "port-blair" = get_city_info "Port Blair"
  /\ get_city_info "port-blair"
     = Ok (city "Port Blair" 11.6234%Q 92.7265%Q "Andaman and Nicobar").
Proof.
  assert (Hin : In ("port-blair",
                    city "Port Blair" 11.6234%Q 92.7265%Q "Andaman and Nicobar")
                  INDIAN_CITIES).
  { vm_compute. repeat first [left; reflexivity | right]. }
  destruct (registry_no_shadowing _ _ Hin) as [E1 E2]. cbn [name] in E2.
  split; [rewrite E1, E2; reflexivity | exact E1].
Defined.

Lemma city_list_ascending_witness :
  get_city_list !! 0%nat = Some "Agartala"
  /\ get_city_list !! 1%nat = Some "Agra"
  /\ String.ltb "Agartala" "Agra" = true.
Proof.
  assert (E0 : get_city_list !! 0%nat = Some "Agartala") by (vm_compute; reflexivity).
  assert (E1 : get_city_list !! 1%nat = Some "Agra") by (vm_compute; reflexivity).
  split; [exact E0|]. split; [exact E1|].
  exact (proj2 (proj2 city_list_ascending) 0%nat "Agartala" "Agra" E0 E1).
Defined.

Lemma standalone_fetch_dichotomy_witness :
  let w := Sample.world Sample.no_data (fun _ => true) in
  fst (@Standalone.fetch_historical_data Sample.numpy 19.0760 72.8777 (-1) w)
  = Raise (ValueError "negative dimensions are not allowed").
Proof.
  intros w.
  destruct (@standalone_fetch_dichotomy Sample.numpy 19.0760%Q 72.8777%Q (-1) w)
    as [(pre & p & post & d & _ & _ & Ep & Hn & _) | (_ & _ & Neg & _)].
  - exfalso. injection Ep as <-. discriminate Hn.
  - apply Neg. lia.
Defined.

Lemma cache_shared_across_case_witness :
  let w0 := Sample.world Sample.full_data (fun _ => true) in
  let first :=
    @Loader.fetch_historical_data Sample.numpy Loader.default_loader "Mumbai" 30 w0 in
  let r := Loader.mkAcquired (Sample.window 30) (Meteostat "Mumbai" 19.0760 72.8777) in
  fst first = Ok r
  /\ @Loader.fetch_historical_data Sample.numpy Loader.default_loader "MUMBAI" 7
       (snd first)
     = (Ok (Loader.mkAcquired (Sample.window 30) (FileCache "MUMBAI")), snd first).
Proof.
  intros w0 first r.
  assert (E : fst first = Ok r) by (vm_compute; reflexivity).
  split; [exact E|].
  apply (proj1 (@cache_shared_across_case Sample.numpy Loader.default_loader
                  "Mumbai" 30 7 w0 (snd first) r ltac:(reflexivity)
                  (run_eq first _ E))).
Defined.

Lemma negative_window_caches_empty_witness :
  let w := Sample.world Sample.no_data (fun _ => true) in
  exists df w',
    @Loader.fetch_historical_data Sample.numpy Loader.default_loader "Mumbai" (-1) w
    = (Ok (Loader.mkAcquired df (Synthetic "Mumbai")), w')
    /\ df_empty df = true
    /\ @Loader.fetch_historical_data Sample.numpy Loader.default_loader "Mumbai" 30 w'
       = (Ok (Loader.mkAcquired df (FileCache "Mumbai")), w').
Proof.
  intros w.
  apply (@negative_window_caches_empty Sample.numpy Loader.default_loader "Mumbai"
           Sample.mumbai (-1) 30 w).
  - lia.
  - reflexivity.
  - vm_compute. reflexivity.
  - apply List.Forall_forall. intros p _. exists empty_frame. split; reflexivity.
  - vm_compute. reflexivity.
  - reflexivity.
Defined.


(** ** Concrete runs of the tiers *)

(** C1, as the claim states it, fails. The live source has no data at
    Mumbai and at the points around it, and data at Delhi. The standalone
    script, which has no reference tier, returns its synthetic series; the
    loader raises the write error when the cache file cannot be written,
    and serves a fresh cache file without asking any tier. *)
Lemma reference_tier_counterexample :
  let at_delhi := Sample.flat_frame (Sample.noon - timedelta 3) 3 (Some 30.0%Q) in
  let cached := Sample.flat_frame 0 2 (Some 20.0%Q) in
  let w := Sample.world Sample.delhi_only (fun _ => true) in
  let read_only := Sample.world Sample.delhi_only (fun _ => false) in
  let with_file :=
    @mkWorld Sample.numpy Sample.noon
      (<["data/raw/mumbai_30days.csv" := mkCacheFile (Sample.noon - 3600000000) cached]> ∅)
      (fun _ => true) Sample.delhi_only 7 [] [] in
  (meteostat w delhi_point (now w - timedelta 3) (now w) = Ok at_delhi
   /\ df_empty at_delhi = false)
  /\ (fst (@Standalone.fetch_historical_data Sample.numpy 19.0760 72.8777 3 w)
      = fst (@Standalone._generate_synthetic_history Sample.numpy 19.0760 72.8777 3 w)
      /\ fst (@Standalone.fetch_historical_data Sample.numpy 19.0760 72.8777 3 w)
         <> Ok (Standalone.fill_missing at_delhi))
  /\ fst (@Loader.fetch_historical_data Sample.numpy Loader.default_loader
            "Mumbai" 3 read_only)
     = Raise (OSError "data/raw/mumbai_30days.csv")
  /\ (fst (@Loader.fetch_historical_data Sample.numpy Loader.default_loader
             "Mumbai" 3 with_file)
      = Ok (Loader.mkAcquired cached (FileCache "Mumbai"))
      /\ queries (snd (@Loader.fetch_historical_data Sample.numpy
                         Loader.default_loader "Mumbai" 3 with_file)) = []).
Proof.
  intros at_delhi cached w read_only with_file.
  split; [split; vm_compute; reflexivity|].
  split; [split|split; [|split]].
  - vm_compute. reflexivity.
  - intros E. vm_compute in E. discriminate E.
  - vm_compute. reflexivity.
  - vm_compute. reflexivity.
  - vm_compute. reflexivity.
Qed.

Lemma tiers_in_order_witness :
  let w := Sample.world Sample.delhi_only (fun _ => true) in
  let at_delhi := Sample.flat_frame (Sample.noon - timedelta 3) 3 (Some 30.0%Q) in
  let run :=
    @Loader.fetch_historical_data Sample.numpy Loader.default_loader "Mumbai" 3 w in
  Forall (quiet w (now w - timedelta 3) (now w))
    ((lat Sample.mumbai, lon Sample.mumbai) :: grid Sample.mumbai)
  /\ fst run = Ok (Loader.mkAcquired at_delhi DelhiFallback)
  /\ queries (snd run) = tiers Sample.mumbai
  /\ warnings (snd run) = [NoDataUsingDelhi "Mumbai"]
  /\ files (snd run) !! "data/raw/mumbai_30days.csv"
     = Some (mkCacheFile Sample.noon at_delhi).
Proof.
  intros w at_delhi run.
  assert (Hq : Forall (quiet w (now w - timedelta 3) (now w))
                 ((lat Sample.mumbai, lon Sample.mumbai) :: grid Sample.mumbai)).
  { repeat (apply List.Forall_cons;
            [exists empty_frame; split; vm_compute; reflexivity|]).
    apply List.Forall_nil. }
  assert (Hd : meteostat w delhi_point (now w - timedelta 3) (now w) = Ok at_delhi)
    by (vm_compute; reflexivity).
  assert (Hn : df_empty at_delhi = false) by (vm_compute; reflexivity).
  assert (E : get_city_info "Mumbai" = Ok Sample.mumbai) by (vm_compute; reflexivity).
  assert (Hm : forall f,
             files w !! Loader.cache_file_of Loader.default_loader "Mumbai" = Some f ->
             Loader.cache_days Loader.default_loader <= td_days (now w - mtime f)).
  { intros f Hf. exfalso. revert Hf. vm_compute. discriminate. }
  destruct (proj1 (proj1 (@tiers_in_order Sample.numpy) Loader.default_loader
                     "Mumbai" Sample.mumbai 3 w E Hm) at_delhi Hq Hd Hn)
    as (Rq & Rw & Rok & _).
  destruct (Rok eq_refl) as [Rr Rf].
  split; [exact Hq|]. split; [exact Rr|].
  split; [exact Rq|]. split; [exact Rw|].
  unfold run. rewrite Rf. apply lookup_insert_eq.
Defined.


(** ** Concrete runs of the preparation *)

Lemma lstm_samples_witness :
  let df := Sample.rising 0 8 None in
  let data := map (fun i => Some (inject_Z (20 + Z.of_nat i))) (seq 0 8) in
  getitem df "tavg" = Ok data
  /\ exists X_train X_test y_train y_test,
       Preprocessor.prepare_for_lstm df "tavg" 3 0.2
       = Ok (X_train, X_test, y_train, y_test)
       /\ List.length (X_train ++ X_test) = 5%nat
       /\ (X_train ++ X_test) !! 4%nat = Some (firstn 3 (skipn 4 data))
       /\ (y_train ++ y_test) !! 4%nat = data !! 7%nat.
Proof.
  intros df data.
  assert (E : getitem df "tavg" = Ok data) by reflexivity.
  split; [exact E|].
  destruct (lstm_samples df "tavg" 3 0.2%Q data E)
    as (X1 & X2 & y1 & y2 & R & _ & _ & L & S).
  exists X1, X2, y1, y2. split; [exact R|]. split; [exact L|].
  destruct (S 4%nat ltac:(cbn; lia)) as (Sx & _ & Sy). auto.
Defined.

Lemma xgboost_split_witness :
  let df :=
    setitem "day_of_year" (repeat (Some 183%Q) 5) (Sample.rising 0 5 (Some 11.0%Q)) in
  let dtype := fun col : string =>
    if String.eqb col "day_of_year" then other_dtype "int32" else float64 in
  map fst (columns df) = ["tavg"; "tmin"; "day_of_year"]
  /\ exists X_train X_test y_train y_test,
       Preprocessor.prepare_for_xgboost df dtype "tavg" 0.2
       = Ok (X_train, X_test, y_train, y_test)
       /\ index X_train ++ index X_test = index df
       /\ map fst (columns X_train) = ["tmin"]
       /\ ~ In "tavg" (map fst (columns X_train)).
Proof.
  intros df dtype. split; [reflexivity|].
  destruct (xgboost_split df dtype "tavg" 0.2%Q
              (map (fun i => Some (inject_Z (20 + Z.of_nat i))) (seq 0 5)) eq_refl)
    as (X1 & X2 & y1 & y2 & R & Hi & _ & Hn & _ & Ht & _).
  exists X1, X2, y1, y2. split; [exact R|]. split; [exact Hi|].
  split; [rewrite Hn; reflexivity | exact Ht].
Defined.

Lemma lag_features_look_back_witness :
  let df := Sample.rising 0 8 None in
  let data := map (fun i => Some (inject_Z (20 + Z.of_nat i))) (seq 0 8) in
  exists df' col,
    Preprocessor.create_lag_features df "tavg" [1; 7] = Ok df'
    /\ getitem df' "tavg_lag_7" = Ok col
    /\ col !! 6%nat = Some None
    /\ col !! 7%nat = data !! 0%nat.
Proof.
  intros df data.
  destruct (lag_features_look_back df "tavg" [1; 7] data eq_refl
              ltac:(repeat constructor; lia))
    as (df' & R & _ & _ & Hl).
  destruct (Hl 7 ltac:(right; left; reflexivity)) as (col & G & _ & Hc).
  exists df', col. split; [exact R|]. split; [exact G|].
  split; [exact (Hc 6%nat ltac:(cbn; lia)) | exact (Hc 7%nat ltac:(cbn; lia))].
Defined.

Lemma engineer_features_rows_witness :
  let df := Sample.rising Sample.noon 32 (Some 11.0%Q) in
  exists df',
    @Preprocessor.engineer_features Sample.numpy Sample.math df "tavg" = Ok df'
    /\ index df' = [Sample.noon + timedelta 30; Sample.noon + timedelta 31]
    /\ getitem df' "tavg_lag_7" = Ok [Some (inject_Z 43); Some (inject_Z 44)].
Proof.
  intros df.
  destruct (@engineer_features_rows Sample.numpy Sample.math df "tavg"
              (map (fun i => Some (inject_Z (20 + Z.of_nat i))) (seq 0 32)) eq_refl)
    as (df' & R & Hi & _ & Hl).
  - repeat constructor.
  - exists df'. split; [exact R|]. split; [rewrite Hi; reflexivity|].
    exact (Hl 7 ltac:(right; left; reflexivity)).
Defined.
